(** * The pattern engine of the Awareness app (server/patterns.ts)

    A shallow embedding of [ConsciousnessAnalyzer], the class of static
    functions bundled in [ionic-apk-package/dist/index.js], together with
    the properties its specification states about it.

    Conventions of the embedding.
    - Scores are integers ([Z]), as are lengths and counts.
    - The averages, percentages and associations of the trend and the
      correlation analyzer, and the averages of the coach's dominant
      labels, are IEEE 754 double precision numbers, as in JavaScript:
      they are primitive floats ([PrimFloat.float]), every operation
      rounds as the hardware does, and [JS.num] turns an integer into the
      nearest double.
    - The readiness score, the confidence of a cycle, the mood average of
      the insights and the averages of the coherence test are quotients
      and products of small integers that are compared with integers or
      rounded once; they are kept as exact rationals ([Q]).  Where such a
      quotient can have a zero denominator it lives in [jsnum], which adds
      [NaN] and the two infinities, with JavaScript's comparison rules.
    - An object used as a dictionary ([categories], [thoughts]) is an
      association list of its own properties in [Object.keys] order.  Such
      an object is parsed from JSON and inherits from [Object.prototype]:
      [JS.prop] reads an own property, [JS.get] is the member access
      [obj[key]] of the code, which also finds the inherited members.
    - Arrays are lists; [slice], [join], [indexOf] and [Set] follow the
      JavaScript library semantics the code relies on. *)

From Stdlib Require Import List String Ascii Bool ZArith QArith Qround Qminmax Lia Lqa.
From Stdlib Require Import DecimalString Floats.
Import ListNotations.

Local Open Scope Z_scope.

(** Decimal constants of the code such as 0.3 stand for the nearest double. *)
Set Warnings "-inexact-float".

(** ** JavaScript library functions used by the analyzer *)

Module JS.

(** [arr.length] *)
Definition len {A} (l : list A) : Z := Z.of_nat (List.length l).

(** [arr.slice(start, end)]: a negative index counts from the end, and
    both indices are clamped to the array. *)
Definition rel_index (n k : Z) : Z :=
  if k <? 0 then Z.max (n + k) 0 else Z.min k n.

Definition slice {A} (l : list A) (start stop : Z) : list A :=
  let n := len l in
  let from := rel_index n start in
  let to := rel_index n stop in
  firstn (Z.to_nat (to - from)) (skipn (Z.to_nat from) l).

(** [arr.slice(start)] *)
Definition slice_from {A} (l : list A) (start : Z) : list A :=
  slice l start (len l).

(** [arr.join(sep)] *)
Definition join (sep : string) (l : list string) : string :=
  String.concat sep l.

(** [arr.indexOf(x)], [-1] when absent *)
Fixpoint indexOf_from (i : Z) (l : list string) (x : string) : Z :=
  match l with
  | [] => -1
  | y :: l' => if String.eqb y x then i else indexOf_from (i + 1) l' x
  end.

Definition indexOf (l : list string) (x : string) : Z := indexOf_from 0 l x.

(** [set.add(x)] on a [Set] kept in insertion order *)
Definition set_add (s : list string) (x : string) : list string :=
  if existsb (String.eqb x) s then s else s ++ [x].

(** [new Set(arr)] *)
Definition set_of (l : list string) : list string :=
  fold_left set_add l [].

(** The own property [key] of a dictionary, [None] when it has none *)
Fixpoint prop (o : list (string * Z)) (key : string) : option Z :=
  match o with
  | [] => None
  | (k, v) :: o' => if String.eqb k key then Some v else prop o' key
  end.

(** [Object.keys(obj)] and [Object.values(obj)] *)
Definition keys (o : list (string * Z)) : list string := map fst o.
Definition values (o : list (string * Z)) : list Z := map snd o.

(** [values.reduce((a, b) => a + b, 0)] *)
Definition sum (l : list Z) : Z := fold_left Z.add l 0.

(** [Math.round] of an exact value: the nearest integer, a tie going up *)
Definition round (q : Q) : Z := Qfloor (q + (1 # 2)).

(** A number that may be [NaN] or infinite: the result of a division
    whose divisor can be zero. *)
Inductive jsnum : Type :=
| Fin (q : Q)
| PosInf
| NegInf
| NaN.

(** [a / b] for finite [a] and [b] *)
Definition div (a b : Q) : jsnum :=
  if Qeq_bool b 0 then
    match a ?= 0 with
    | Gt => PosInf
    | Lt => NegInf
    | Eq => NaN
    end%Q
  else Fin (a / b).

(** [x >= k] against a finite [k]; every comparison with [NaN] is
    false *)
Definition ge (x : jsnum) (k : Q) : bool :=
  match x with
  | Fin q => Qle_bool k q
  | PosInf => true
  | NegInf | NaN => false
  end.

(** A [forEach] (or [for]) loop whose body pushes zero or more items
    onto one array, which starts empty *)
Definition pushEach {A B} (body : A -> list B) (l : list A) : list B :=
  fold_left (fun arr x => arr ++ body x) l [].

(** [s || d] for an optional string: [undefined] and the empty string
    are falsy *)
Definition or_default (s : option string) (d : string) : string :=
  match s with
  | Some (String _ _ as s') => s'
  | _ => d
  end.

(** *** Double precision numbers *)

(** The double nearest to an integer; the integer itself below 2^53 *)
Definition num (z : Z) : float :=
  SF2Prim (binary_normalize prec emax z 0 false).

(** [Math.round(x)]: the integer nearest to [x], a tie going up; an
    integer, an infinity and [NaN] are returned as they are, and a result
    of zero keeps the sign of [x]. *)
Definition fround (x : float) : float :=
  match Prim2SF x with
  | S754_finite s m e =>
      if 0 <=? e then x
      else
        let magnitude := (Z.pos m # Pos.pow 2 (Z.to_pos (- e))) in
        let value := if s then Qopp magnitude else magnitude in
        let z := Qfloor (value + (1 # 2))%Q in
        if z =? 0 then (if s then neg_zero else zero) else num z
  | _ => x
  end.

(** [values.reduce((a, b) => a + b, 0)] on numbers: the sum, added up
    from the left in doubles *)
Definition sumNum (l : list Z) : float :=
  fold_left (fun acc x => (acc + num x)%float) l 0%float.

(** *** Member access on an object that inherits from [Object.prototype] *)

(** The names [Object.prototype] gives to every object *)
Definition protoMembers : list string :=
  ["constructor"; "__defineGetter__"; "__defineSetter__"; "hasOwnProperty";
   "__lookupGetter__"; "__lookupSetter__"; "isPrototypeOf";
   "propertyIsEnumerable"; "toString"; "valueOf"; "__proto__";
   "toLocaleString"]%string.

Definition isProtoMember (key : string) : bool :=
  existsb (String.eqb key) protoMembers.

(** What a member access or a running sum can hold: a number, or a value
    that is not one (an inherited function or object, and the string that
    adding it to anything gives). *)
Inductive value : Type :=
| Number (x : float)
| NotNumber.

(** [obj[key]]: the own property if there is one, else the inherited
    member, else [undefined] ([None]) *)
Definition get (o : list (string * Z)) (key : string) : option value :=
  match prop o key with
  | Some v => Some (Number (num v))
  | None => if isProtoMember key then Some NotNumber else None
  end.

(** [a + b]: the sum of two numbers; with an operand that is not a
    number the result is a string, so not a number either. *)
Definition plus (a b : value) : value :=
  match a, b with
  | Number x, Number y => Number (x + y)
  | _, _ => NotNumber
  end.

(** [values.reduce((a, b) => a + b, 0)] *)
Definition total (l : list value) : value := fold_left plus l (Number 0).

(** The number an operand of [-], [*] or [/] is converted to: such a
    string or function gives [NaN]. *)
Definition toNumber (v : value) : float :=
  match v with
  | Number x => x
  | NotNumber => nan
  end.

(** [s.length], the number of UTF-16 code units of a string held as
    UTF-8 bytes: one unit for a character of up to three bytes, two for a
    character of four bytes; continuation bytes count for nothing. *)
Definition units (c : ascii) : nat :=
  let b := nat_of_ascii c in
  if (b <? 128)%nat then 1%nat
  else if (b <? 192)%nat then 0%nat
  else if (b <? 240)%nat then 1%nat
  else 2%nat.

Fixpoint strlen (s : string) : nat :=
  match s with
  | EmptyString => 0%nat
  | String c s' => (units c + strlen s')%nat
  end.

(** *** The order of [Object.keys] and [Object.entries] *)

(** The number a string of decimal digits denotes *)
Fixpoint digits (s : string) (acc : N) : option N :=
  match s with
  | EmptyString => Some acc
  | String c rest =>
      let b := nat_of_ascii c in
      if ((48 <=? b) && (b <=? 57))%nat
      then digits rest (10 * acc + N.of_nat (b - 48))%N
      else None
  end.

(** The array index a key denotes: the key is the decimal form, without
    a leading zero, of an integer below 2^32 - 1. *)
Definition arrayIndex (key : string) : option N :=
  match key with
  | EmptyString => None
  | String c rest =>
      if Ascii.eqb c "0" && negb (String.eqb rest EmptyString) then None
      else match digits key 0 with
           | Some n => if (n <=? 4294967294)%N then Some n else None
           | None => None
           end
  end.

Fixpoint insertIndexed {V} (x : N * (string * V)) (l : list (N * (string * V)))
    : list (N * (string * V)) :=
  match l with
  | [] => [x]
  | y :: rest => if (fst x <? fst y)%N then x :: l else y :: insertIndexed x rest
  end.

(** [Object.entries(obj)] for an object whose properties were created in
    the order of the list: the array indices first, in ascending order,
    then the other keys in creation order. *)
Definition entries {V} (o : list (string * V)) : list (string * V) :=
  let indexed :=
    flat_map (fun kv => match arrayIndex (fst kv) with
                        | Some n => [(n, kv)]
                        | None => []
                        end) o in
  let named :=
    filter (fun kv => match arrayIndex (fst kv) with
                      | Some _ => false
                      | None => true
                      end) o in
  map snd (fold_right insertIndexed [] indexed) ++ named.

(** [String(n)] for a count *)
Definition show (n : nat) : string := NilZero.string_of_uint (Nat.to_uint n).

End JS.

(** ** Data model (shared/schema.ts, server/patterns.ts) *)

Record DailyEntry := {
  date : string;
  categories : list (string * Z);
  thoughts : list (string * Z);
  emotionTag : string;
  identityTag : string;
  journalEntry : string
}.

Record EmotionalCycle := {
  pattern : string;
  frequency : Z;
  lastOccurrence : string;
  confidence : Q
}.

Inductive Trend := improving | declining | stable.

Record CategoryTrend := {
  category : string;
  trend : Trend;
  change : float
}.

Inductive Impact := positive | negative | neutral.

Record ThoughtPattern := {
  thought : string;
  correlation : float;
  impact : Impact
}.

Record PatternResult := {
  emotionalCycles : list EmotionalCycle;
  categoryTrends : list CategoryTrend;
  thoughtPatterns : list ThoughtPattern;
  readinessScore : Z;
  insights : list string
}.

Record NextLevelRequirements := {
  entriesNeeded : Z;
  patternsNeeded : Z;
  coherenceNeeded : Z;
  specificTasks : list string
}.

Record LevelProgress := {
  currentLevel : Z;
  entriesCompleted : Z;
  patternsIdentified : Z;
  coherenceDays : Z;
  achievements : list string;
  nextLevelRequirements : NextLevelRequirements
}.

(** The ordinal mood scale *)
Definition moodScale : list string :=
  ["low"; "neutral"; "elevated"; "high"; "peak"]%string.

(** [moodScore >= 0 ? moodScore : 2] *)
Definition moodValue (tag : string) : Z :=
  let moodScore := JS.indexOf moodScale tag in
  if 0 <=? moodScore then moodScore else 2.

(** ** The analyzer (class [ConsciousnessAnalyzer]) *)

Module ConsciousnessAnalyzer.

(** Loop ranges: [for (i = 0; i < hi; i++)] and [for (i = 0; i <= hi; i++)] *)
Definition indices_lt (hi : Z) : list Z := map Z.of_nat (seq 0 (Z.to_nat hi)).
Definition indices_le (hi : Z) : list Z := indices_lt (hi + 1).

(** *** Helper methods *)

(** [sequence.slice(i, i + pattern.length).join("") === pattern.join("")] *)
Definition windowMatches (sequence pattern : list string) (i : Z) : bool :=
  String.eqb (JS.join EmptyString (JS.slice sequence i (i + JS.len pattern)))
             (JS.join EmptyString pattern).

Definition countPatternOccurrences (sequence pattern : list string) : Z :=
  fold_left
    (fun count i => if windowMatches sequence pattern i then count + 1 else count)
    (indices_le (JS.len sequence - JS.len pattern)) 0.

(** The loop runs from [sequence.length - pattern.length] down to [0]. *)
Definition findLastOccurrenceIndex (sequence pattern : list string) : Z :=
  match find (windowMatches sequence pattern)
             (rev (indices_le (JS.len sequence - JS.len pattern))) with
  | Some i => i
  | None => -1
  end.

(** [null] is [None].  The test [categories[category] !== undefined]
    is a member access: it also holds for a label that names an inherited
    member, whose value is then pushed with the scores. *)
Definition calculateCategoryAverage (entries : list DailyEntry)
    (category : string) : option float :=
  let values :=
    JS.pushEach (fun entry => match JS.get (categories entry) category with
                              | Some v => [v]
                              | None => []
                              end) entries in
  if 0 <? JS.len values
  then Some (JS.toNumber (JS.total values) / JS.num (JS.len values))%float
  else None.

(** The two arrays filled by the [forEach] of [calculateThoughtImpact] *)
Definition thoughtAndMoodValues (entries : list DailyEntry) (thought : string)
    : list JS.value * list JS.value :=
  fold_left
    (fun '(thoughtValues, moodValues) entry =>
       match JS.get (thoughts entry) thought with
       | Some v => (thoughtValues ++ [v],
                    moodValues ++ [JS.Number (JS.num (moodValue (emotionTag entry)))])
       | None => (thoughtValues, moodValues)
       end)
    entries ([], []).

Definition calculateThoughtImpact (entries : list DailyEntry)
    (thought : string) : float :=
  let '(thoughtValues, moodValues) := thoughtAndMoodValues entries thought in
  if JS.len thoughtValues <? 3 then 0%float
  else
    let avgThought :=
      (JS.toNumber (JS.total thoughtValues) / JS.num (JS.len thoughtValues))%float in
    let avgMood :=
      (JS.toNumber (JS.total moodValues) / JS.num (JS.len moodValues))%float in
    let correlation :=
      fold_left
        (fun correlation i =>
           (correlation
            + (JS.toNumber (nth (Z.to_nat i) thoughtValues JS.NotNumber) - avgThought)
              * (JS.toNumber (nth (Z.to_nat i) moodValues JS.NotNumber) - avgMood))%float)
        (indices_lt (JS.len thoughtValues)) 0%float in
    (correlation / JS.num (JS.len thoughtValues) / 10)%float.

(** *** Cycle detector *)

(** [entries[i]], [None] standing for [undefined] *)
Definition entryAt (entries : list DailyEntry) (i : Z) : option DailyEntry :=
  if i <? 0 then None else nth_error entries (Z.to_nat i).

(** [entries[lastIndex]?.date || ""] *)
Definition dateOrEmpty (o : option DailyEntry) : string :=
  JS.or_default (option_map date o) EmptyString.

Definition arrow : string := " → ".

(** One turn of the loop at index [i]: the record pushed, if any. *)
Definition cycleAt (entries : list DailyEntry) (i : Z) : option EmotionalCycle :=
  let emotionSequence := map emotionTag entries in
  let triad := JS.slice emotionSequence i (i + 3) in
  let occurrences := countPatternOccurrences emotionSequence triad in
  if 1 <? occurrences then
    let lastIndex := findLastOccurrenceIndex emotionSequence triad in
    Some {| pattern := JS.join arrow triad;
            frequency := occurrences;
            lastOccurrence := dateOrEmpty (entryAt entries lastIndex);
            confidence :=
              Qmin (inject_Z occurrences / inject_Z (JS.len entries) * 100) 95 |}
  else None.

(** The array [cycles] when the loop ends, each record tagged with the
    loop index that pushed it.  (The tally [emotionCounts] the source
    builds first is never read.) *)
Definition pushedCycles (entries : list DailyEntry) : list (Z * EmotionalCycle) :=
  JS.pushEach (fun i => match cycleAt entries i with
                        | Some c => [(i, c)]
                        | None => []
                        end)
              (indices_lt (JS.len (map emotionTag entries) - 2)).

Definition detectEmotionalCycles (entries : list DailyEntry) : list EmotionalCycle :=
  map snd (JS.slice (pushedCycles entries) 0 5).

(** *** Trend analyzer *)

(** The [Set] of dictionary keys seen scanning all entries *)
Definition allKeys (entries : list DailyEntry)
    (field : DailyEntry -> list (string * Z)) : list string :=
  fold_left (fun s entry => fold_left JS.set_add (JS.keys (field entry)) s)
            entries [].

Definition trendOf (recent older : list DailyEntry) (category : string)
    : list CategoryTrend :=
  match calculateCategoryAverage recent category,
        calculateCategoryAverage older category with
  | Some recentAvg, Some olderAvg =>
      let change := ((recentAvg - olderAvg) / olderAvg * 100)%float in
      let trend :=
        if (10 <? change)%float then improving
        else if (change <? -10)%float then declining
        else stable in
      [ {| category := category; trend := trend; change := JS.fround change |} ]
  | _, _ => []
  end.

Definition analyzeCategoryTrends (entries : list DailyEntry) : list CategoryTrend :=
  if JS.len entries <? 7 then []
  else
    let recent := JS.slice_from entries (-7) in
    let older := JS.slice entries (-14) (-7) in
    JS.pushEach (trendOf recent older) (allKeys entries categories).

(** *** Correlation analyzer *)

Definition thoughtPatternOf (entries : list DailyEntry) (thought : string)
    : ThoughtPattern :=
  let correlation := calculateThoughtImpact entries thought in
  let impact :=
    if (0.3 <? correlation)%float then positive
    else if (correlation <? -0.3)%float then negative
    else neutral in
  {| thought := thought;
     correlation := (JS.fround (correlation * 100) / 100)%float;
     impact := impact |}.

Definition analyzeThoughtPatterns (entries : list DailyEntry) : list ThoughtPattern :=
  JS.slice (JS.pushEach (fun thought => [thoughtPatternOf entries thought])
                        (allKeys entries thoughts)) 0 5.

(** *** Readiness score *)

Definition isComplete (e : DailyEntry) : bool :=
  (3 <=? JS.len (JS.keys (categories e)))
  && (2 <=? JS.len (JS.keys (thoughts e)))
  && (20 <? Z.of_nat (JS.strlen (journalEntry e))).

Definition hasCompleteData (entries : list DailyEntry) : Z :=
  JS.len (filter isComplete entries).

Definition emotionalVariety (entries : list DailyEntry) : Z :=
  JS.len (JS.set_of (map emotionTag entries)).

Definition identityVariety (entries : list DailyEntry) : Z :=
  JS.len (JS.set_of (map identityTag entries)).

(** The value of [score] before the final [Math.round] *)
Definition compositeScore (entries : list DailyEntry) : Q :=
  let n := JS.len entries in
  let consistency := if 7 <=? n then 40%Q else (inject_Z n / 7 * 40)%Q in
  (0 + consistency
   + inject_Z (hasCompleteData entries) / inject_Z n * 30
   + inject_Z (Z.min ((emotionalVariety entries + identityVariety entries) * 3) 30))%Q.

Definition calculateReadinessScore (entries : list DailyEntry) : Z :=
  if JS.len entries <? 7 then Z.min (JS.len entries * 14) 100
  else JS.round (compositeScore entries).

(** *** Insight generator *)

Definition generateInsights (entries : list DailyEntry)
    (cycles : list EmotionalCycle) (trends : list CategoryTrend) : list string :=
  let insights1 :=
    if 7 <=? JS.len entries
    then ["You've established a consistent awareness tracking practice"%string]
    else [] in
  let insights2 :=
    if 0 <? JS.len cycles
    then insights1 ++
         [("Detected " ++ JS.show (List.length cycles)
           ++ " recurring emotional patterns - you're developing pattern recognition")%string]
    else insights1 in
  let improvingTrends :=
    filter (fun t => match trend t with improving => true | _ => false end) trends in
  let insights3 :=
    if 0 <? JS.len improvingTrends
    then insights2 ++
         [(JS.show (List.length improvingTrends)
           ++ " life areas are improving - your awareness is creating positive shifts")%string]
    else insights2 in
  let recentEntries := JS.slice_from entries (-3) in
  let avgMood :=
    JS.div (inject_Z (fold_left (fun sum entry => sum + moodValue (emotionTag entry))
                                recentEntries 0))
           (inject_Z (JS.len recentEntries)) in
  if JS.ge avgMood 3
  then insights3 ++
       ["Your recent emotional state shows elevated awareness - you're entering a higher frequency"%string]
  else insights3.

(** *** Progression calculator *)

(** [Object.values(o).reduce((a, b) => a + b, 0) / Object.keys(o).length] *)
Definition recordAverage (o : list (string * Z)) : JS.jsnum :=
  JS.div (inject_Z (JS.sum (JS.values o))) (inject_Z (JS.len (JS.keys o))).

Definition isCoherent (entry : DailyEntry) : bool :=
  let categoryAvg := recordAverage (categories entry) in
  let thoughtAvg := recordAverage (thoughts entry) in
  (JS.ge categoryAvg 6 && JS.ge thoughtAvg 6)
  || (JS.ge categoryAvg 7 && JS.ge thoughtAvg 7).

Definition calculateCoherenceDays (entries : list DailyEntry) : Z :=
  fold_left (fun coherentDays entry =>
               if isCoherent entry then coherentDays + 1 else coherentDays)
            entries 0.

Definition calculateAchievements (entries patterns coherence : Z) : list string :=
  let push (cond : bool) (badge : string) (achievements : list string) :=
    if cond then achievements ++ [badge] else achievements in
  let a := [] in
  let a := push (7 <=? entries) "Observer Foundation"%string a in
  let a := push (21 <=? entries) "Pattern Seeker"%string a in
  let a := push (50 <=? entries) "Reality Tracker"%string a in
  let a := push (100 <=? entries) "Consciousness Master"%string a in
  let a := push (3 <=? patterns) "Pattern Detector"%string a in
  let a := push (10 <=? patterns) "Loop Breaker"%string a in
  let a := push (7 <=? coherence) "Frequency Aligner"%string a in
  let a := push (21 <=? coherence) "Timeline Shifter"%string a in
  a.

Record Requirement := {
  req_entries : Z;
  req_patterns : Z;
  req_coherence : Z;
  req_tasks : list string
}.

(** The rows of the table [requirements] *)
Definition level1 : Requirement :=
  {| req_entries := 7; req_patterns := 0; req_coherence := 0;
     req_tasks := ["Complete 7 daily awareness entries";
                   "Track all required life categories"]%string |}.

Definition level2 : Requirement :=
  {| req_entries := 21; req_patterns := 3; req_coherence := 0;
     req_tasks := ["Identify 3 recurring patterns";
                   "Maintain consistent tracking"]%string |}.

Definition level3 : Requirement :=
  {| req_entries := 50; req_patterns := 10; req_coherence := 7;
     req_tasks := ["Break old patterns";
                   "Achieve 7 coherent days"]%string |}.

Definition level4 : Requirement :=
  {| req_entries := 100; req_patterns := 15; req_coherence := 21;
     req_tasks := ["Master frequency alignment";
                   "Sustain 21 coherent days"]%string |}.

(** [requirements[level]], [None] standing for [undefined] *)
Definition requirements (level : Z) : option Requirement :=
  match level with
  | 1 => Some level1
  | 2 => Some level2
  | 3 => Some level3
  | 4 => Some level4
  | _ => None
  end.

(** [requirements[nextLevel] || requirements[4]] *)
Definition getNextLevelRequirements (level entries patterns coherence : Z)
    : NextLevelRequirements :=
  let nextLevel := Z.min (level + 1) 5 in
  let req := match requirements nextLevel with
             | Some row => row
             | None => level4
             end in
  {| entriesNeeded := Z.max 0 (req_entries req - entries);
     patternsNeeded := Z.max 0 (req_patterns req - patterns);
     coherenceNeeded := Z.max 0 (req_coherence req - coherence);
     specificTasks := req_tasks req |}.

(** *** Entry points *)

(** The calls [analyzePatterns] makes, in order *)
Inductive Analyzer :=
| CycleDetector | TrendAnalyzer | CorrelationAnalyzer
| ReadinessScorer | InsightGenerator.

(** A value together with the analyzers invoked to obtain it *)
Definition Traced (A : Type) : Type := A * list Analyzer.

Definition ret {A} (a : A) : Traced A := (a, []).

Definition bind {A B} (m : Traced A) (k : A -> Traced B) : Traced B :=
  let '(a, t1) := m in
  let '(b, t2) := k a in
  (b, t1 ++ t2).

Definition invoke {A} (who : Analyzer) (result : A) : Traced A := (result, [who]).

Notation "x <- m ;; k" := (bind m (fun x => k))
  (at level 61, m at next level, right associativity).

Definition keepTracking : PatternResult :=
  {| emotionalCycles := [];
     categoryTrends := [];
     thoughtPatterns := [];
     readinessScore := 0;
     insights := ["Keep tracking daily to unlock pattern insights"%string] |}.

Definition analyzePatternsTraced (entries : list DailyEntry) : Traced PatternResult :=
  if JS.len entries <? 5 then ret keepTracking
  else
    emotionalCycles <- invoke CycleDetector (detectEmotionalCycles entries) ;;
    categoryTrends <- invoke TrendAnalyzer (analyzeCategoryTrends entries) ;;
    thoughtPatterns <- invoke CorrelationAnalyzer (analyzeThoughtPatterns entries) ;;
    readinessScore <- invoke ReadinessScorer (calculateReadinessScore entries) ;;
    insights <- invoke InsightGenerator
                  (generateInsights entries emotionalCycles categoryTrends) ;;
    ret {| emotionalCycles := emotionalCycles;
           categoryTrends := categoryTrends;
           thoughtPatterns := thoughtPatterns;
           readinessScore := readinessScore;
           insights := insights |}.

Definition analyzePatterns (entries : list DailyEntry) : PatternResult :=
  fst (analyzePatternsTraced entries).

Definition calculateLevelProgress (entries : list DailyEntry) (currentLevel : Z)
    : LevelProgress :=
  let entriesCompleted := JS.len entries in
  let patterns := analyzePatterns entries in
  let patternsIdentified :=
    JS.len (emotionalCycles patterns) + JS.len (categoryTrends patterns) in
  let coherenceDays := calculateCoherenceDays entries in
  {| currentLevel := currentLevel;
     entriesCompleted := entriesCompleted;
     patternsIdentified := patternsIdentified;
     coherenceDays := coherenceDays;
     achievements :=
       calculateAchievements entriesCompleted patternsIdentified coherenceDays;
     nextLevelRequirements :=
       getNextLevelRequirements currentLevel entriesCompleted
                                patternsIdentified coherenceDays |}.

End ConsciousnessAnalyzer.

Import ConsciousnessAnalyzer.

(** ** Definitions used to state the properties *)

(** The composite readiness formula as a function of the record count
    [n], the number [h] of complete records and the number [v] of
    distinct emotion plus identity tags. *)
Definition compositeOf (n h v : Z) : Q :=
  (0 + 40 + inject_Z h / inject_Z n * 30 + inject_Z (Z.min (v * 3) 30))%Q.

(** *** Trends, in the words of the specification *)

(** The last [k] items of a sequence, and the sequence without them *)
Definition lastN {A} (k : nat) (l : list A) : list A :=
  skipn (List.length l - k) l.

Definition withoutLastN {A} (k : nat) (l : list A) : list A :=
  firstn (List.length l - k) l.

(** The recent window is the last 7 records; the older window is the
    records at positions [-14, -7), the last 7 of what precedes it. *)
Definition recentWindow (entries : list DailyEntry) : list DailyEntry :=
  lastN 7 entries.

Definition olderWindow (entries : list DailyEntry) : list DailyEntry :=
  lastN 7 (withoutLastN 7 entries).

(** The scores under [key] of the records that contain that key *)
Definition scoresOf (field : DailyEntry -> list (string * Z))
    (window : list DailyEntry) (key : string) : list Z :=
  flat_map (fun e => match JS.prop (field e) key with
                     | Some v => [v]
                     | None => []
                     end) window.

(** The values the member access [field[key]] finds in the records of a
    window: the scores above and, for a label that names an inherited
    member, that member for every record without the key *)
Definition found (field : DailyEntry -> list (string * Z))
    (window : list DailyEntry) (key : string) : list JS.value :=
  flat_map (fun e => match JS.get (field e) key with
                     | Some v => [v]
                     | None => []
                     end) window.

(** The average the code takes of such values: their sum, converted to a
    number, divided by their count *)
Definition averageOf (values : list JS.value) : float :=
  (JS.toNumber (JS.total values) / JS.num (JS.len values))%float.

(** The mean of a list of scores: their sum divided by their count *)
Definition mean (scores : list Z) : float :=
  (JS.sumNum scores / JS.num (JS.len scores))%float.

(** (recentMean - olderMean) / olderMean * 100 *)
Definition percentChange (recentMean olderMean : float) : float :=
  ((recentMean - olderMean) / olderMean * 100)%float.

Definition classify (change : float) : Trend :=
  if (10 <? change)%float then improving
  else if (change <? -10)%float then declining
  else stable.

(** The trend record of a category with the given window means *)
Definition trendRecordOf (category : string) (recentMean olderMean : float)
    : CategoryTrend :=
  let change := percentChange recentMean olderMean in
  {| category := category;
     trend := classify change;
     change := JS.fround change |}.

(** The trend record of a category with the given contributing scores *)
Definition trendRecord (category : string) (recentScores olderScores : list Z)
    : CategoryTrend :=
  trendRecordOf category (mean recentScores) (mean olderScores).

(** *** Thought association, in the words of the specification *)

(** The (thought value, mood value) pairs of the records where the
    thought label is present *)
Definition contributions (entries : list DailyEntry) (thought : string)
    : list (Z * Z) :=
  flat_map (fun e => match JS.prop (thoughts e) thought with
                     | Some v => [(v, moodValue (emotionTag e))]
                     | None => []
                     end) entries.

(** The sum of (thoughtValue - thoughtMean) * (moodValue - moodMean)
    over the contributing records, added up from the left in doubles *)
Definition coMovementSum (pairs : list (Z * Z)) : float :=
  let thoughtMean := mean (map fst pairs) in
  let moodMean := mean (map snd pairs) in
  fold_left (fun acc p => (acc + (JS.num (fst p) - thoughtMean)
                                 * (JS.num (snd p) - moodMean))%float)
            pairs 0%float.

(** Rounding to two decimal places: [Math.round(x * 100) / 100] *)
Definition round2 (x : float) : float := (JS.fround (x * 100) / 100)%float.

(** The association as the code computes it: the sum divided by the
    count and by 10, that is the mean of the products divided by 10 *)
Definition association (pairs : list (Z * Z)) : float :=
  (coMovementSum pairs / JS.num (JS.len pairs) / 10)%float.

(** The association as the specification words it: the mean of the
    products, divided again by the count and by 10 *)
Definition statedAssociation (pairs : list (Z * Z)) : float :=
  let productMean := (coMovementSum pairs / JS.num (JS.len pairs))%float in
  (productMean / JS.num (JS.len pairs) / 10)%float.

(** *** Cycles, in the words of the specification *)



(** The triad that starts at index [i] *)
Definition triadAt (tags : list string) (i : Z) : list string :=
  firstn 3 (skipn (Z.to_nat i) tags).



(** What the loop turn at index [i] pushes *)
Definition pushAt (entries : list DailyEntry) (i : Z) : list (Z * EmotionalCycle) :=
  match cycleAt entries i with
  | Some c => [(i, c)]
  | None => []
  end.

(** The record [c] is in the returned list and was pushed by the loop
    turn at index [i]. *)
Definition emittedAt (entries : list DailyEntry) (i : Z) (c : EmotionalCycle) : Prop :=
  In (i, c) (JS.slice (pushedCycles entries) 0 5).


(** Seven dated records carrying the example tags *)
Definition exampleEntries : list DailyEntry :=
  map (fun '(d, tag) =>
         {| date := d; categories := []; thoughts := [];
            emotionTag := tag; identityTag := "observer";
            journalEntry := EmptyString |})
      [("2024-03-01", "low"); ("2024-03-02", "neutral"); ("2024-03-03", "elevated");
       ("2024-03-04", "low"); ("2024-03-05", "neutral"); ("2024-03-06", "elevated");
       ("2024-03-07", "peak")]%string.

(** The record the example yields for the triad at index 0 *)
Definition exampleCycle : EmotionalCycle :=
  {| pattern := "low → neutral → elevated";
     frequency := 2;
     lastOccurrence := "2024-03-04";
     confidence := 200 # 7 |}.


(** Fourteen records whose category health scores 5 in the older seven
    and 8 in the recent seven *)
Definition healthEntries : list DailyEntry :=
  map (fun score =>
         {| date := "2024-03-01"; categories := [("health"%string, score)];
            thoughts := []; emotionTag := "neutral"; identityTag := "observer";
            journalEntry := EmptyString |})
      [5; 5; 5; 5; 5; 5; 5; 8; 8; 8; 8; 8; 8; 8].

(** Eight records: the oldest scores a category named constructor, the
    seven recent ones score health only. *)
Definition shadowedEntries : list DailyEntry :=
  map (fun cats =>
         {| date := "2024-03-01"; categories := cats;
            thoughts := []; emotionTag := "neutral"; identityTag := "observer";
            journalEntry := EmptyString |})
      ([("constructor"%string, 5)] :: repeat [("health"%string, 5)] 7).

(** Five records: the first scores a thought named valueOf, the others
    score no thought. *)
Definition shadowedThoughts : list DailyEntry :=
  map (fun ths =>
         {| date := "2024-03-01"; categories := [];
            thoughts := ths; emotionTag := "neutral"; identityTag := "observer";
            journalEntry := EmptyString |})
      ([("valueOf"%string, 5)] :: repeat [] 4).

(** Five records in which the thought calm rises with the mood *)
Definition calmEntries : list DailyEntry :=
  map (fun '(score, tag) =>
         {| date := "2024-03-01"; categories := [];
            thoughts := [("calm"%string, score)];
            emotionTag := tag; identityTag := "observer";
            journalEntry := EmptyString |})
      [(1, "low"); (2, "neutral"); (3, "elevated"); (4, "high"); (5, "peak")]%string.

(** Two sample records: one with nothing filled in, one that meets the
    completeness criterion. *)
Definition plainEntry : DailyEntry :=
  {| date := "2024-03-01";
     categories := [];
     thoughts := [];
     emotionTag := "low";
     identityTag := "observer";
     journalEntry := EmptyString |}.

Definition richEntry : DailyEntry :=
  {| date := "2024-03-02";
     categories := [("work", 7); ("health", 6); ("relationships", 8)]%string;
     thoughts := [("clarity", 7); ("gratitude", 6)]%string;
     emotionTag := "high";
     identityTag := "creator";
     journalEntry := "Noticed the old loop and let it pass." |}.

From Stdlib Require Import Permutation Sorted.

(** ** The coach's context helpers (class [ConsciousnessCoach])

    The pure helpers that summarise the records for the coaching prompt.
    A string is the sequence of its UTF-8 bytes; its JavaScript length is
    [JS.strlen]. *)

Module ConsciousnessCoach.

(** *** [getEmotionalTrend] *)

(** Unlike [moodValue], the index is used as it is: [-1] for a tag
    outside the vocabulary.  The two means are written as exact
    rationals here; [getEmotionalTrendDoubles] below has the double
    arithmetic of the code.  The two agree up to eight records;
    [buildUserContext], the caller, passes [entries.slice(-7)]. *)
Definition getEmotionalTrend (entries : list DailyEntry) : string :=
  if JS.len entries <? 3 then "insufficient data"
  else
    let emotions := map emotionTag entries in
    let moodScores := map (JS.indexOf moodScale) emotions in
    let recent := (inject_Z (JS.sum (JS.slice_from moodScores (-3))) / 3)%Q in
    let older :=
      (inject_Z (JS.sum (JS.slice moodScores 0 (-3)))
       / inject_Z (Z.max (JS.len moodScores - 3) 1))%Q in
    if negb (Qle_bool recent (older + (1 # 2))) then "ascending"
    else if negb (Qle_bool (older - (1 # 2)) recent) then "descending"
    else "stable".

(** The same function in doubles, as the code computes it *)
Definition getEmotionalTrendDoubles (entries : list DailyEntry) : string :=
  if JS.len entries <? 3 then "insufficient data"
  else
    let emotions := map emotionTag entries in
    let moodScores := map (JS.indexOf moodScale) emotions in
    let recent := (JS.sumNum (JS.slice_from moodScores (-3)) / 3)%float in
    let older :=
      (JS.sumNum (JS.slice moodScores 0 (-3))
       / JS.num (Z.max (JS.len moodScores - 3) 1))%float in
    if (older + 0.5 <? recent)%float then "ascending"
    else if (recent <? older - 0.5)%float then "descending"
    else "stable".

(** *** [getDominantCategories] and [getDominantThoughts] *)

(** The own property [key] of the accumulator gets [score] appended, and
    is created at the end when it is missing. *)
Fixpoint appendScore (scores : list (string * list Z)) (key : string) (score : Z)
    : list (string * list Z) :=
  match scores with
  | [] => [(key, [score])]
  | (k, l) :: rest =>
      if String.eqb k key then (k, l ++ [score]) :: rest
      else (k, l) :: appendScore rest key score
  end.

(** [if (!scores[key]) scores[key] = []; scores[key].push(score)].  The
    accumulator starts as [{}] and inherits from [Object.prototype]: for a
    key that names an inherited member [scores[key]] is that member,
    which is truthy and has no [push], and the call throws a [TypeError]
    ([None]). *)
Definition pushScore (scores : list (string * list Z)) (key : string) (score : Z)
    : option (list (string * list Z)) :=
  if JS.isProtoMember key then None else Some (appendScore scores key score).

(** [Object.entries(obj).forEach(([key, score]) => ...)] for every entry;
    an exception ends the whole computation. *)
Definition collectScores (field : DailyEntry -> list (string * Z))
    (entries : list DailyEntry) : option (list (string * list Z)) :=
  fold_left
    (fun scores entry =>
       fold_left (fun scores kv =>
                    match scores with
                    | Some s => pushScore s (fst kv) (snd kv)
                    | None => None
                    end)
                 (field entry) scores)
    entries (Some []).

(** [scores.reduce((a, b) => a + b, 0) / scores.length] *)
Definition average (scores : list Z) : float :=
  (JS.sumNum scores / JS.num (JS.len scores))%float.

(** [arr.sort((a, b) => b.avg - a.avg)].  The difference [b.avg - a.avg]
    of two doubles is positive exactly when [a.avg < b.avg], and it is
    [NaN], which the sort takes for 0, exactly when that comparison
    involves a [NaN].  The sort is stable: as long as no average is
    [NaN] the result is the one ordering by descending average that keeps
    items of equal average in their original order.  An item is inserted
    before the first item whose average does not exceed its own. *)
Fixpoint insertByAvg (x : string * float) (sorted : list (string * float))
    : list (string * float) :=
  match sorted with
  | [] => [x]
  | y :: rest =>
      if (snd x <? snd y)%float
      then y :: insertByAvg x rest
      else x :: y :: rest
  end.

Definition sortByAvgDesc (items : list (string * float)) : list (string * float) :=
  fold_right insertByAvg [] items.

Definition dominantLabels (field : DailyEntry -> list (string * Z))
    (entries : list DailyEntry) : option (list string) :=
  match collectScores field entries with
  | None => None
  | Some scores =>
      let items := map (fun ks => (fst ks, average (snd ks))) (JS.entries scores) in
      Some (map fst (JS.slice (sortByAvgDesc items) 0 3))
  end.

Definition getDominantCategories (entries : list DailyEntry) : option (list string) :=
  dominantLabels categories entries.

(** The same code over [thoughts] *)
Definition getDominantThoughts (entries : list DailyEntry) : option (list string) :=
  dominantLabels thoughts entries.

(** *** [extractJournalThemes] *)

Definition journalKeywords : list string :=
  ["grateful"; "stress"; "anxiety"; "happy"; "progress"; "challenge";
   "growth"; "fear"; "excited"; "peaceful"]%string.

Definition lowerChar (c : ascii) : ascii :=
  let n := nat_of_ascii c in
  if (65 <=? n)%nat && (n <=? 90)%nat then ascii_of_nat (n + 32) else c.

Definition isByte (c : ascii) (n : nat) : bool := Nat.eqb (nat_of_ascii c) n.

(** [s.toLowerCase()] on the characters whose lower case holds an ASCII
    letter: the letters A to Z, the Kelvin sign U+212A (bytes E2 84 AA),
    which becomes k, and the dotted capital I U+0130 (bytes C4 B0), which
    becomes i followed by the combining dot U+0307 (bytes CC 87).  Every
    other character is left as it is; its lower case is not ASCII either,
    so that the comparison of the words with the keywords, which are
    ASCII, comes out the same. *)
Fixpoint toLowerCase (s : string) : string :=
  match s with
  | EmptyString => EmptyString
  | String c rest =>
      match rest with
      | String d rest' =>
          if isByte c 196 && isByte d 176
          then String "i" (String (ascii_of_nat 204) (String (ascii_of_nat 135)
                                                         (toLowerCase rest')))
          else
            match rest' with
            | String e rest'' =>
                if isByte c 226 && isByte d 132 && isByte e 170
                then String "k" (toLowerCase rest'')
                else String (lowerChar c) (toLowerCase rest)
            | EmptyString => String (lowerChar c) (toLowerCase rest)
            end
      | EmptyString => String (lowerChar c) (toLowerCase rest)
      end
  end.

(** [s.split(" ")]: the pieces between spaces, empty pieces included *)
Fixpoint splitSpaces (current : string) (s : string) : list string :=
  match s with
  | EmptyString => [current]
  | String c rest =>
      if Ascii.eqb c " " then current :: splitSpaces EmptyString rest
      else splitSpaces (current ++ String c EmptyString) rest
  end.

Definition split (s : string) : list string := splitSpaces EmptyString s.

(** [keywords.includes(word)] *)
Definition isKeyword (word : string) : bool :=
  existsb (String.eqb word) journalKeywords.

(** The keywords one entry pushes onto [themes] *)
Definition entryThemes (entry : DailyEntry) : list string :=
  if 20 <? Z.of_nat (JS.strlen (journalEntry entry))
  then filter isKeyword (split (toLowerCase (journalEntry entry)))
  else [].

(** [[...new Set(themes)].slice(0, 5)] *)
Definition journalThemes (entries : list DailyEntry) : list string :=
  JS.slice (JS.set_of (JS.pushEach entryThemes entries)) 0 5.

Definition noThemes : string := "no significant themes detected".

Definition extractJournalThemes (entries : list DailyEntry) : string :=
  JS.or_default (Some (JS.join ", " (journalThemes entries))) noThemes.

End ConsciousnessCoach.

Import ConsciousnessCoach.

(** *** Definitions used to state the coach's properties *)

(** The integers lo, lo + 1, ..., lo + n - 1 *)
Definition range (lo : Z) (n : nat) : list Z :=
  map (fun i => lo + Z.of_nat i) (seq 0 n).

(** For a recent sum [R], an older sum [O] and an older count [c], the
    two comparisons of the emotional trend come out on doubles as they do
    on the integers. *)
Definition trendTestsAgree (R c O : Z) : bool :=
  Bool.eqb (JS.num O / JS.num c + 0.5 <? JS.num R / 3)%float
           (6 * O + 3 * c <? 2 * c * R)
  && Bool.eqb (JS.num R / 3 <? JS.num O / JS.num c - 0.5)%float
              (2 * c * R <? 6 * O - 3 * c).

(** The accumulator of the dominant labels when no call throws *)
Definition collected (field : DailyEntry -> list (string * Z))
    (entries : list DailyEntry) : list (string * list Z) :=
  fold_left
    (fun scores entry =>
       fold_left (fun scores kv => appendScore scores (fst kv) (snd kv))
                 (field entry) scores)
    entries [].

(** Every score recorded under [key], oldest record first *)
Definition allScores (field : DailyEntry -> list (string * Z))
    (entries : list DailyEntry) (key : string) : list Z :=
  map snd (filter (fun kv => String.eqb (fst kv) key) (flat_map field entries)).

(** The scores collected under [key], none when the key is absent *)
Fixpoint lookupScores (scores : list (string * list Z)) (key : string) : list Z :=
  match scores with
  | [] => []
  | (k, l) :: rest => if String.eqb k key then l else lookupScores rest key
  end.

(** A text with its capital letters A to Z turned into small letters *)
Fixpoint lowerAscii (s : string) : string :=
  match s with
  | EmptyString => EmptyString
  | String c rest => String (lowerChar c) (lowerAscii rest)
  end.

(** The same record with the capital letters A to Z of its journal text
    turned into small letters *)
Definition lowerJournal (e : DailyEntry) : DailyEntry :=
  {| date := date e;
     categories := categories e;
     thoughts := thoughts e;
     emotionTag := emotionTag e;
     identityTag := identityTag e;
     journalEntry := lowerAscii (journalEntry e) |}.

(** Nine records whose mood indices sum to 5 over the first six and to 1
    over the last three *)
Definition nineEntries : list DailyEntry :=
  map (fun tag =>
         {| date := "2024-03-01"; categories := []; thoughts := [];
            emotionTag := tag; identityTag := "observer";
            journalEntry := EmptyString |})
      ["neutral"; "neutral"; "neutral"; "neutral"; "neutral"; "low";
       "neutral"; "low"; "low"]%string.

(** A record that scores a category named constructor *)
Definition constructorEntry : DailyEntry :=
  {| date := "2024-03-03";
     categories := [("work", 3); ("constructor", 5)]%string;
     thoughts := [("toString", 2)]%string;
     emotionTag := "neutral"; identityTag := "observer";
     journalEntry := EmptyString |}.

(** Descending order of the averages: the first is not below the second *)
Definition notBelow (a b : string * float) : Prop := (snd a <? snd b)%float = false.

(** The place of a double in the order of the doubles: the infinities
    outermost, the zeros in the middle, and between them the finite
    numbers by sign, exponent and mantissa, compared from the left *)
Definition rank (x : spec_float) : Z * Z * Z :=
  match x with
  | S754_nan => (0, 0, 0)
  | S754_zero _ => (0, 0, 0)
  | S754_infinity true => (-2, 0, 0)
  | S754_infinity false => (2, 0, 0)
  | S754_finite true m e => (-1, - e, Z.neg m)
  | S754_finite false m e => (1, e, Z.pos m)
  end.

Definition lexlt (a b : Z * Z * Z) : Prop :=
  fst (fst a) < fst (fst b)
  \/ (fst (fst a) = fst (fst b)
      /\ (snd (fst a) < snd (fst b)
          \/ (snd (fst a) = snd (fst b) /\ snd a < snd b))).

(** Two records with four category labels and four thought labels *)
Definition scoredEntries : list DailyEntry :=
  [ {| date := "2024-03-01";
       categories := [("work", 3); ("health", 5); ("family", 5); ("money", 1)]%string;
       thoughts := [("doubt", 2); ("focus", 8); ("calm", 6); ("hope", 6)]%string;
       emotionTag := "neutral"; identityTag := "observer";
       journalEntry := "I feel Grateful and happy today, the stress is gone" |};
    {| date := "2024-03-02";
       categories := [("money", 9); ("work", 3)]%string;
       thoughts := [("doubt", 4); ("hope", 8)]%string;
       emotionTag := "high"; identityTag := "creator";
       journalEntry := "fear" |} ].

(** ** Basic facts about the library functions *)

Section LibraryFacts.

Lemma len_nonneg {A} (l : list A) : 0 <= JS.len l.
Proof. unfold JS.len. lia. Qed.

Lemma len_nil {A} : JS.len (@nil A) = 0.
Proof. reflexivity. Qed.

Lemma len_cons {A} (x : A) (l : list A) : JS.len (x :: l) = JS.len l + 1.
Proof. unfold JS.len. cbn [List.length]. lia. Qed.

Lemma len_app {A} (l1 l2 : list A) : JS.len (l1 ++ l2) = JS.len l1 + JS.len l2.
Proof. unfold JS.len. rewrite length_app. lia. Qed.

Lemma len_filter_le {A} (f : A -> bool) (l : list A) :
  JS.len (filter f l) <= JS.len l.
Proof.
  induction l as [|x l IH]; cbn [filter]; [lia|].
  destruct (f x); rewrite ?len_cons; lia.
Qed.

(** A push loop collects the pushed items in order. *)
Lemma pushEach_from {A B} (body : A -> list B) (l : list A) (arr : list B) :
  fold_left (fun arr x => arr ++ body x) l arr = arr ++ flat_map body l.
Proof.
  revert arr; induction l as [|x l IH]; intros arr; cbn.
  - now rewrite app_nil_r.
  - now rewrite IH, app_assoc.
Qed.

Lemma pushEach_flat_map {A B} (body : A -> list B) (l : list A) :
  JS.pushEach body l = flat_map body l.
Proof. unfold JS.pushEach. now rewrite pushEach_from. Qed.

(** Adding to a set never shrinks it. *)
Lemma set_add_len (s : list string) (x : string) :
  JS.len s <= JS.len (JS.set_add s x).
Proof.
  unfold JS.set_add. destruct (existsb _ s); rewrite ?len_app; [lia|].
  pose proof (len_nonneg [x]). lia.
Qed.

Lemma set_add_all_len (l s : list string) :
  JS.len s <= JS.len (fold_left JS.set_add l s).
Proof.
  revert s; induction l as [|x l IH]; intros s; cbn [fold_left]; [lia|].
  specialize (IH (JS.set_add s x)). pose proof (set_add_len s x). lia.
Qed.

(** The set of a non-empty array has at least one member. *)
Lemma set_of_nonempty (x : string) (l : list string) :
  1 <= JS.len (JS.set_of (x :: l)).
Proof.
  unfold JS.set_of. cbn [fold_left].
  change (JS.set_add [] x) with [x].
  pose proof (set_add_all_len l [x]) as H.
  rewrite len_cons, len_nil in H. lia.
Qed.

(** [Math.round] is monotone and fixes the half-open unit interval
    around an integer. *)
Lemma round_mono (x y : Q) : (x <= y)%Q -> JS.round x <= JS.round y.
Proof. intros H. unfold JS.round. apply Qfloor_resp_le. lra. Qed.

Lemma round_lower (z : Z) (x : Q) : (inject_Z z <= x)%Q -> z <= JS.round x.
Proof.
  intros H. rewrite <- (Qfloor_Z z). unfold JS.round.
  apply Qfloor_resp_le. lra.
Qed.

Lemma round_upper (z : Z) (x : Q) : (x <= inject_Z z)%Q -> JS.round x <= z.
Proof.
  intros H. unfold JS.round.
  assert (Hlt : (x + (1 # 2) < inject_Z (z + 1))%Q).
  { rewrite inject_Z_plus. change (inject_Z 1) with 1%Q. lra. }
  pose proof (Qfloor_le (x + (1 # 2))) as Hfl.
  assert (Hz : (inject_Z (Qfloor (x + (1 # 2))) < inject_Z (z + 1))%Q) by lra.
  rewrite <- Zlt_Qlt in Hz. lia.
Qed.

(** A share [h / n] of a positive total lies in the unit interval and
    grows with [h]. *)
Lemma share_bounds (h n : Z) :
  0 <= h <= n -> 0 < n -> (0 <= inject_Z h / inject_Z n <= 1)%Q.
Proof.
  intros [H0 Hn] Hpos.
  assert (Hq : (0 < inject_Z n)%Q) by (change 0%Q with (inject_Z 0); now rewrite <- Zlt_Qlt).
  split.
  - apply Qle_shift_div_l; [exact Hq|].
    rewrite Qmult_0_l. change 0%Q with (inject_Z 0). now rewrite <- Zle_Qle.
  - apply Qle_shift_div_r; [exact Hq|].
    rewrite Qmult_1_l. now rewrite <- Zle_Qle.
Qed.

Lemma share_mono (h1 h2 n : Z) :
  h1 <= h2 -> 0 < n -> (inject_Z h1 / inject_Z n <= inject_Z h2 / inject_Z n)%Q.
Proof.
  intros Hle Hpos. unfold Qdiv.
  apply Qmult_le_compat_r; [now rewrite <- Zle_Qle|].
  apply Qinv_le_0_compat. change 0%Q with (inject_Z 0). rewrite <- Zle_Qle. lia.
Qed.

End LibraryFacts.

(** ** Readiness score *)

Section Readiness.

Lemma hasCompleteData_bounds (entries : list DailyEntry) :
  0 <= hasCompleteData entries <= JS.len entries.
Proof.
  unfold hasCompleteData. split; [apply len_nonneg | apply len_filter_le].
Qed.

Lemma variety_nonempty (entries : list DailyEntry) :
  0 < JS.len entries ->
  1 <= emotionalVariety entries /\ 1 <= identityVariety entries.
Proof.
  destruct entries as [|e entries]; [cbn; lia|]. intros _.
  unfold emotionalVariety, identityVariety. cbn [map].
  split; apply set_of_nonempty.
Qed.

Lemma compositeScore_eq (entries : list DailyEntry) :
  7 <= JS.len entries ->
  compositeScore entries =
  compositeOf (JS.len entries) (hasCompleteData entries)
              (emotionalVariety entries + identityVariety entries).
Proof.
  intros H. unfold compositeScore, compositeOf.
  destruct (Z.leb_spec 7 (JS.len entries)); [reflexivity | lia].
Qed.

Lemma compositeOf_mono (n h1 h2 v1 v2 : Z) :
  0 < n -> h1 <= h2 -> v1 <= v2 ->
  (compositeOf n h1 v1 <= compositeOf n h2 v2)%Q.
Proof.
  intros Hn Hh Hv. unfold compositeOf.
  pose proof (share_mono h1 h2 n Hh Hn) as Hs.
  assert (Hm : (inject_Z (Z.min (v1 * 3) 30) <= inject_Z (Z.min (v2 * 3) 30))%Q)
    by (rewrite <- Zle_Qle; lia).
  set (s1 := (inject_Z h1 / inject_Z n)%Q) in *.
  set (s2 := (inject_Z h2 / inject_Z n)%Q) in *.
  lra.
Qed.

Lemma compositeOf_bounds (n h v : Z) :
  0 < n -> 0 <= h <= n -> 2 <= v ->
  (46 <= compositeOf n h v <= 100)%Q.
Proof.
  intros Hn Hh Hv. unfold compositeOf.
  pose proof (share_bounds h n Hh Hn) as Hs.
  assert (Hm : (6 <= inject_Z (Z.min (v * 3) 30) <= 30)%Q).
  { change 6%Q with (inject_Z 6). change 30%Q with (inject_Z 30).
    rewrite <- !Zle_Qle. lia. }
  set (s := (inject_Z h / inject_Z n)%Q) in *.
  lra.
Qed.

Lemma readiness_from_seven (entries : list DailyEntry) :
  7 <= JS.len entries ->
  calculateReadinessScore entries =
  JS.round (compositeOf (JS.len entries) (hasCompleteData entries)
              (emotionalVariety entries + identityVariety entries)).
Proof.
  intros H. unfold calculateReadinessScore.
  destruct (Z.ltb_spec (JS.len entries) 7); [lia|].
  now rewrite compositeScore_eq.
Qed.

Lemma readiness_below_seven (entries : list DailyEntry) :
  JS.len entries < 7 ->
  calculateReadinessScore entries = Z.min (JS.len entries * 14) 100.
Proof.
  intros H. unfold calculateReadinessScore.
  destruct (Z.ltb_spec (JS.len entries) 7); [reflexivity | lia].
Qed.

Lemma readiness_from_seven_bounds (entries : list DailyEntry) :
  7 <= JS.len entries -> 46 <= calculateReadinessScore entries <= 100.
Proof.
  intros H. rewrite readiness_from_seven by exact H.
  pose proof (hasCompleteData_bounds entries) as Hh.
  destruct (variety_nonempty entries) as [He Hi]; [lia|].
  destruct (compositeOf_bounds (JS.len entries) (hasCompleteData entries)
              (emotionalVariety entries + identityVariety entries))
    as [Hlo Hhi]; [lia | exact Hh | lia |].
  split; [apply round_lower | apply round_upper]; assumption.
Qed.

(** What [analyzePatterns] reports as the readiness score *)
Lemma analyzePatterns_readiness (entries : list DailyEntry) :
  readinessScore (analyzePatterns entries) =
  if JS.len entries <? 5 then 0 else calculateReadinessScore entries.
Proof.
  unfold analyzePatterns, analyzePatternsTraced.
  destruct (JS.len entries <? 5); reflexivity.
Qed.

End Readiness.

(** ** Claims about the entry gate, the readiness score and progression *)

(** C1. With fewer than five records [analyzePatterns] returns empty
    cycle, trend and thought lists, readiness score 0 and the single
    "keep tracking" insight, and invokes none of the analyzers. *)
Theorem analyzePatterns_below_five (entries : list DailyEntry) :
  JS.len entries < 5 ->
  let result := analyzePatterns entries in
  emotionalCycles result = []
  /\ categoryTrends result = []
  /\ thoughtPatterns result = []
  /\ readinessScore result = 0
  /\ insights result = ["Keep tracking daily to unlock pattern insights"%string]
  /\ List.length (insights result) = 1%nat
  /\ snd (analyzePatternsTraced entries) = [].
Proof.
  intros Hlt. unfold analyzePatterns, analyzePatternsTraced.
  destruct (Z.ltb_spec (JS.len entries) 5) as [_|Hge]; [|lia].
  cbn. repeat split; reflexivity.
Qed.

Lemma analyzePatterns_below_five_witness :
  let result := analyzePatterns [plainEntry; richEntry; plainEntry; richEntry] in
  emotionalCycles result = []
  /\ categoryTrends result = []
  /\ thoughtPatterns result = []
  /\ readinessScore result = 0
  /\ insights result = ["Keep tracking daily to unlock pattern insights"%string]
  /\ List.length (insights result) = 1%nat
  /\ snd (analyzePatternsTraced [plainEntry; richEntry; plainEntry; richEntry]) = [].
Proof.
  apply (analyzePatterns_below_five [plainEntry; richEntry; plainEntry; richEntry]).
  reflexivity.
Defined.

(** From five records on every analyzer is invoked, once and in order. *)
Lemma analyzePatterns_trace_from_five (entries : list DailyEntry) :
  5 <= JS.len entries ->
  snd (analyzePatternsTraced entries) =
  [CycleDetector; TrendAnalyzer; CorrelationAnalyzer; ReadinessScorer; InsightGenerator].
Proof.
  intros Hge. unfold analyzePatternsTraced.
  destruct (Z.ltb_spec (JS.len entries) 5); [lia | reflexivity].
Qed.

(** C5. For 7 entries, 0 patterns, 0 coherence days at level 1 the
    achievements are exactly ["Observer Foundation"]; the target level is
    min(1+1, 5) = 2, whose table row asks for 21 entries, 3 patterns and
    0 coherence days, so that 14 entries, 3 patterns and 0 coherence days
    are still needed, each being max(0, required - actual). *)
Theorem progression_example :
  calculateAchievements 7 0 0 = ["Observer Foundation"%string]
  /\ Z.min (1 + 1) 5 = 2
  /\ (exists req, requirements 2 = Some req
                  /\ entriesNeeded (getNextLevelRequirements 1 7 0 0)
                     = Z.max 0 (req_entries req - 7)
                  /\ patternsNeeded (getNextLevelRequirements 1 7 0 0)
                     = Z.max 0 (req_patterns req - 0)
                  /\ coherenceNeeded (getNextLevelRequirements 1 7 0 0)
                     = Z.max 0 (req_coherence req - 0))
  /\ entriesNeeded (getNextLevelRequirements 1 7 0 0) = 14
  /\ patternsNeeded (getNextLevelRequirements 1 7 0 0) = 3
  /\ coherenceNeeded (getNextLevelRequirements 1 7 0 0) = 0.
Proof.
  split; [reflexivity|]. split; [reflexivity|]. split.
  - eexists. split; [reflexivity|]. repeat split.
  - repeat split.
Qed.

(** C6. With the record count held fixed the readiness score does not
    decrease when the number of complete records and the number of
    distinct emotion plus identity tags do not decrease, and the score
    always lies between 0 and 100; both hold for the score function and
    for the score [analyzePatterns] reports. *)
Theorem readiness_monotone_and_bounded :
  (forall es1 es2 : list DailyEntry,
      JS.len es1 = JS.len es2 ->
      hasCompleteData es1 <= hasCompleteData es2 ->
      emotionalVariety es1 + identityVariety es1
        <= emotionalVariety es2 + identityVariety es2 ->
      calculateReadinessScore es1 <= calculateReadinessScore es2
      /\ readinessScore (analyzePatterns es1) <= readinessScore (analyzePatterns es2))
  /\ (forall es : list DailyEntry,
         0 <= calculateReadinessScore es <= 100
         /\ 0 <= readinessScore (analyzePatterns es) <= 100).
Proof.
  assert (Hmono : forall es1 es2 : list DailyEntry,
             JS.len es1 = JS.len es2 ->
             hasCompleteData es1 <= hasCompleteData es2 ->
             emotionalVariety es1 + identityVariety es1
               <= emotionalVariety es2 + identityVariety es2 ->
             calculateReadinessScore es1 <= calculateReadinessScore es2).
  { intros es1 es2 Hn Hh Hv.
    destruct (Z.lt_ge_cases (JS.len es1) 7) as [Hlt|Hge].
    - rewrite !readiness_below_seven by lia. rewrite Hn. lia.
    - rewrite !readiness_from_seven by lia. rewrite Hn.
      apply round_mono, compositeOf_mono; lia. }
  assert (Hrange : forall es : list DailyEntry, 0 <= calculateReadinessScore es <= 100).
  { intros es. destruct (Z.lt_ge_cases (JS.len es) 7) as [Hlt|Hge].
    - rewrite readiness_below_seven by lia. pose proof (len_nonneg es). lia.
    - pose proof (readiness_from_seven_bounds es Hge). lia. }
  split.
  - intros es1 es2 Hn Hh Hv. split; [now apply Hmono|].
    rewrite !analyzePatterns_readiness, Hn.
    destruct (JS.len es2 <? 5); [lia | now apply Hmono].
  - intros es. split; [apply Hrange|].
    rewrite analyzePatterns_readiness.
    destruct (JS.len es <? 5); [lia | apply Hrange].
Qed.

Lemma readiness_monotone_and_bounded_witness :
  calculateReadinessScore (repeat plainEntry 7)
    <= calculateReadinessScore (richEntry :: repeat plainEntry 6)
  /\ readinessScore (analyzePatterns (repeat plainEntry 7))
     <= readinessScore (analyzePatterns (richEntry :: repeat plainEntry 6)).
Proof.
  apply (proj1 readiness_monotone_and_bounded
               (repeat plainEntry 7) (richEntry :: repeat plainEntry 6)).
  - reflexivity.
  - vm_compute. discriminate.
  - vm_compute. discriminate.
Defined.

(** C7. With exactly 5 or 6 records the readiness score is
    min(count * 14, 100), that is 70 for 5 records and 84 for 6; the
    composite formula plays no part, the score being the same for all
    sequences of that length. *)
Theorem readiness_five_or_six (entries : list DailyEntry) :
  JS.len entries = 5 \/ JS.len entries = 6 ->
  calculateReadinessScore entries = Z.min (JS.len entries * 14) 100
  /\ readinessScore (analyzePatterns entries) = Z.min (JS.len entries * 14) 100
  /\ (JS.len entries = 5 -> readinessScore (analyzePatterns entries) = 70)
  /\ (JS.len entries = 6 -> readinessScore (analyzePatterns entries) = 84)
  /\ (forall entries' : list DailyEntry,
         JS.len entries' = JS.len entries ->
         readinessScore (analyzePatterns entries')
         = readinessScore (analyzePatterns entries)).
Proof.
  intros Hn.
  assert (Hscore : forall es : list DailyEntry,
             JS.len es = JS.len entries ->
             readinessScore (analyzePatterns es) = Z.min (JS.len entries * 14) 100).
  { intros es Hes. rewrite analyzePatterns_readiness.
    destruct (Z.ltb_spec (JS.len es) 5); [lia|].
    rewrite readiness_below_seven by lia. now rewrite Hes. }
  split; [apply readiness_below_seven; lia|].
  split; [now apply Hscore|].
  split; [intros H5; rewrite Hscore, H5; reflexivity|].
  split; [intros H6; rewrite Hscore, H6; reflexivity|].
  intros es Hes. now rewrite !Hscore.
Qed.

Lemma readiness_five_or_six_witness :
  calculateReadinessScore (repeat richEntry 5) = 70
  /\ readinessScore (analyzePatterns (repeat richEntry 5)) = 70.
Proof.
  destruct (readiness_five_or_six (repeat richEntry 5)) as (H1 & H2 & _).
  - left. reflexivity.
  - split; [exact H1 | exact H2].
Defined.

(** C10. From seven records on the readiness score is at least 46: the
    flat 40 points plus at least 6 variety points, a non-empty sequence
    having at least one distinct emotion tag and one distinct identity
    tag.  Six records always score 84, so a seventh record can lower the
    score. *)
Theorem readiness_floor_and_boundary_drop :
  (forall entries : list DailyEntry,
      7 <= JS.len entries ->
      1 <= emotionalVariety entries
      /\ 1 <= identityVariety entries
      /\ 46 <= calculateReadinessScore entries
      /\ 46 <= readinessScore (analyzePatterns entries))
  /\ (forall entries : list DailyEntry,
         JS.len entries = 6 ->
         calculateReadinessScore entries = 84
         /\ readinessScore (analyzePatterns entries) = 84)
  /\ (exists (entries : list DailyEntry) (e : DailyEntry),
         JS.len entries = 6
         /\ calculateReadinessScore (entries ++ [e]) < calculateReadinessScore entries
         /\ readinessScore (analyzePatterns (entries ++ [e]))
            < readinessScore (analyzePatterns entries)).
Proof.
  split; [|split].
  - intros entries Hn.
    destruct (variety_nonempty entries) as [He Hi]; [lia|].
    pose proof (readiness_from_seven_bounds entries Hn) as Hb.
    repeat split; try assumption; try lia.
    rewrite analyzePatterns_readiness.
    destruct (Z.ltb_spec (JS.len entries) 5); lia.
  - intros entries Hn.
    assert (Hs : calculateReadinessScore entries = 84)
      by (rewrite readiness_below_seven, Hn by lia; reflexivity).
    split; [exact Hs|].
    rewrite analyzePatterns_readiness, Hn. exact Hs.
  - exists (repeat plainEntry 6), plainEntry.
    split; [reflexivity|]. split; reflexivity.
Qed.

Lemma readiness_floor_and_boundary_drop_witness :
  1 <= emotionalVariety (repeat richEntry 7)
  /\ 1 <= identityVariety (repeat richEntry 7)
  /\ 46 <= calculateReadinessScore (repeat richEntry 7)
  /\ 46 <= readinessScore (analyzePatterns (repeat richEntry 7)).
Proof.
  apply (proj1 readiness_floor_and_boundary_drop (repeat richEntry 7)).
  vm_compute. discriminate.
Defined.

(** ** Slices and loop ranges *)

Section Slices.

Context {A : Type}.

Lemma in_firstn (n : nat) (l : list A) (x : A) : In x (firstn n l) -> In x l.
Proof.
  intros H. rewrite <- (firstn_skipn n l). apply in_or_app. now left.
Qed.

Lemma in_skipn (n : nat) (l : list A) (x : A) : In x (skipn n l) -> In x l.
Proof.
  intros H. rewrite <- (firstn_skipn n l). apply in_or_app. now right.
Qed.


Lemma slice_in_range (l : list A) (i k : Z) :
  0 <= i -> 0 <= k -> i + k <= JS.len l ->
  JS.slice l i (i + k) = firstn (Z.to_nat k) (skipn (Z.to_nat i) l).
Proof.
  intros Hi Hk Hn. unfold JS.slice, JS.rel_index.
  destruct (Z.ltb_spec i 0); [lia|].
  destruct (Z.ltb_spec (i + k) 0); [lia|].
  rewrite !Z.min_l by lia. f_equal. lia.
Qed.

Lemma slice_prefix (l : list A) (k : Z) :
  0 <= k -> JS.slice l 0 k = firstn (Z.to_nat k) l.
Proof.
  intros Hk. unfold JS.slice, JS.rel_index.
  destruct (Z.ltb_spec k 0); [lia|]. cbn [Z.ltb Z.compare].
  pose proof (len_nonneg l) as Hl. rewrite (Z.min_l 0) by lia. cbn [Z.to_nat skipn].
  rewrite Z.sub_0_r. destruct (Z.le_ge_cases k (JS.len l)).
  - now rewrite Z.min_l by lia.
  - rewrite Z.min_r by lia. unfold JS.len in *.
    rewrite !firstn_all2; trivial; lia.
Qed.

(** [l.slice(-k)] keeps the last [k] items. *)
Lemma slice_from_last (l : list A) (k : Z) :
  0 < k -> JS.slice_from l (- k) = skipn (List.length l - Z.to_nat k) l.
Proof.
  intros Hk. unfold JS.slice_from, JS.slice, JS.rel_index.
  pose proof (len_nonneg l) as Hl.
  destruct (Z.ltb_spec (- k) 0); [|lia].
  destruct (Z.ltb_spec (JS.len l) 0); [lia|].
  rewrite Z.min_id.
  replace (Z.to_nat (Z.max (JS.len l + - k) 0))
    with (List.length l - Z.to_nat k)%nat by (unfold JS.len; lia).
  apply firstn_all2. rewrite length_skipn. unfold JS.len in *. lia.
Qed.

(** [l.slice(-2k, -k)] keeps the last [k] of the items that precede
    the last [k]. *)
Lemma slice_before_last (l : list A) (k : Z) :
  0 < k ->
  JS.slice l (- (2 * k)) (- k) =
  skipn (List.length l - Z.to_nat k - Z.to_nat k)
        (firstn (List.length l - Z.to_nat k) l).
Proof.
  intros Hk. unfold JS.slice, JS.rel_index.
  destruct (Z.ltb_spec (- (2 * k)) 0); [|lia].
  destruct (Z.ltb_spec (- k) 0); [|lia].
  rewrite firstn_skipn_comm. unfold JS.len. f_equal; [lia|]. f_equal. lia.
Qed.

End Slices.

Section Ranges.

Lemma in_indices_lt (hi i : Z) : In i (indices_lt hi) <-> 0 <= i < hi.
Proof.
  unfold indices_lt. rewrite in_map_iff. split.
  - intros (k & <- & Hk). apply in_seq in Hk. lia.
  - intros H. exists (Z.to_nat i). split; [lia|]. apply in_seq. lia.
Qed.


(** A counting loop counts the indices that pass the test. *)
Lemma count_loop {I} (test : I -> bool) (l : list I) (count : Z) :
  fold_left (fun count i => if test i then count + 1 else count) l count
  = count + JS.len (filter test l).
Proof.
  revert count; induction l as [|i l IH]; intros count; cbn [fold_left filter].
  - rewrite len_nil. lia.
  - rewrite IH. destruct (test i); rewrite ?len_cons; lia.
Qed.

End Ranges.

(** ** Cycle detector *)

Section Cycles.






Variable entries : list DailyEntry.
Let tags := map emotionTag entries.

Lemma tags_len : JS.len tags = JS.len entries.
Proof. unfold JS.len, tags. now rewrite length_map. Qed.

(** Inside the loop the slice is the triad at [i], of length three. *)
Lemma triad_slice (i : Z) :
  0 <= i <= JS.len entries - 3 -> JS.slice tags i (i + 3) = triadAt tags i.
Proof.
  intros H. rewrite slice_in_range by (rewrite ?tags_len; lia). reflexivity.
Qed.

Lemma triadAt_length (i : Z) :
  0 <= i <= JS.len entries - 3 -> List.length (triadAt tags i) = 3%nat.
Proof.
  intros H. unfold triadAt. rewrite length_firstn, length_skipn.
  pose proof tags_len as Ht. unfold JS.len in *. lia.
Qed.


(** What the test of both helper loops says at an index inside the
    sequence, for a pattern of three tags *)
Lemma windowMatches_triad (pattern : list string) (j : Z) :
  List.length pattern = 3%nat -> 0 <= j <= JS.len entries - 3 ->
  windowMatches tags pattern j
  = String.eqb (JS.join EmptyString (triadAt tags j)) (JS.join EmptyString pattern).
Proof.
  intros Hp Hj. unfold windowMatches.
  replace (JS.len pattern) with 3 by (unfold JS.len; lia).
  now rewrite triad_slice.
Qed.

Lemma windowMatches_self (i : Z) :
  0 <= i <= JS.len entries - 3 -> windowMatches tags (triadAt tags i) i = true.
Proof.
  intros H. rewrite windowMatches_triad by (auto using triadAt_length).
  apply String.eqb_refl.
Qed.


(** The record a loop turn pushes, in terms of the triad at [i] *)
Lemma cycleAt_triad (i : Z) :
  0 <= i <= JS.len entries - 3 ->
  cycleAt entries i =
  let occurrences := countPatternOccurrences tags (triadAt tags i) in
  if 1 <? occurrences then
    Some {| pattern := JS.join arrow (triadAt tags i);
            frequency := occurrences;
            lastOccurrence :=
              dateOrEmpty (entryAt entries
                             (findLastOccurrenceIndex tags (triadAt tags i)));
            confidence :=
              Qmin (inject_Z occurrences / inject_Z (JS.len entries) * 100) 95 |}
  else None.
Proof.
  intros H. unfold cycleAt. fold tags. now rewrite triad_slice.
Qed.

Lemma pushedCycles_flat_map :
  pushedCycles entries = flat_map (pushAt entries) (indices_lt (JS.len entries - 2)).
Proof.
  unfold pushedCycles. fold tags. now rewrite pushEach_flat_map, tags_len.
Qed.

Lemma in_pushAt (j i : Z) (c : EmotionalCycle) :
  In (i, c) (pushAt entries j) <-> j = i /\ cycleAt entries i = Some c.
Proof.
  unfold pushAt. split.
  - destruct (cycleAt entries j) as [c'|] eqn:E; cbn [In]; [|tauto].
    intros [H|[]]. injection H as -> ->. now split.
  - intros [-> ->]. now left.
Qed.

Lemma in_pushedCycles (i : Z) (c : EmotionalCycle) :
  In (i, c) (pushedCycles entries)
  <-> 0 <= i <= JS.len entries - 3 /\ cycleAt entries i = Some c.
Proof.
  rewrite pushedCycles_flat_map, in_flat_map. split.
  - intros (j & Hj & Hin). apply in_indices_lt in Hj.
    apply in_pushAt in Hin as [-> Hc]. split; [lia | exact Hc].
  - intros [Hi Hc]. exists i. split; [apply in_indices_lt; lia|].
    now apply in_pushAt.
Qed.


Lemma pushes_before_len (i : Z) :
  JS.len (flat_map (pushAt entries) (indices_lt i))
  = JS.len (filter (fun j => match cycleAt entries j with
                             | Some _ => true
                             | None => false
                             end) (indices_lt i)).
Proof.
  induction (indices_lt i) as [|j l IH]; [reflexivity|].
  cbn [flat_map filter]. rewrite len_app, IH. unfold pushAt.
  destruct (cycleAt entries j); rewrite ?len_cons, ?len_nil; lia.
Qed.



(** The downward search of [findLastOccurrenceIndex] returns the
    largest index that passes the test. *)
Lemma find_last (test : Z -> bool) (m : nat) (j : Z) :
  find test (rev (map Z.of_nat (seq 0 m))) = Some j ->
  0 <= j < Z.of_nat m /\ test j = true
  /\ forall k, 0 <= k < Z.of_nat m -> test k = true -> k <= j.
Proof.
  induction m as [|m IH].
  - discriminate.
  - rewrite seq_S, map_app. cbn [map Nat.add]. rewrite rev_unit. cbn [find].
    destruct (test (Z.of_nat m)) eqn:E.
    + intros [= <-]. repeat split; try lia; trivial.
    + intros H. destruct (IH H) as (Hr & Ht & Hmax).
      repeat split; try lia; trivial.
      intros k Hk Hkt. destruct (Z.eq_dec k (Z.of_nat m)) as [->|Hne].
      * congruence.
      * apply Hmax; trivial. lia.
Qed.

Lemma find_last_exists (test : Z -> bool) (m : nat) (k : Z) :
  0 <= k < Z.of_nat m -> test k = true ->
  exists j, find test (rev (map Z.of_nat (seq 0 m))) = Some j.
Proof.
  intros Hk Ht.
  destruct (find test (rev (map Z.of_nat (seq 0 m)))) as [j|] eqn:E;
    [now exists j|].
  exfalso. pose proof (find_none _ _ E k) as Hnone.
  rewrite Hnone in Ht; [discriminate|].
  apply in_rev. rewrite rev_involutive. apply in_map_iff.
  exists (Z.to_nat k). split; [lia|]. apply in_seq. lia.
Qed.

(** The last occurrence of the triad found at [i] lies between [i] and
    the last start index, and is itself an occurrence. *)
Lemma findLastOccurrenceIndex_range (i : Z) :
  0 <= i <= JS.len entries - 3 ->
  let lastIndex := findLastOccurrenceIndex tags (triadAt tags i) in
  i <= lastIndex <= JS.len entries - 3
  /\ windowMatches tags (triadAt tags i) lastIndex = true.
Proof.
  intros Hi. cbv zeta. unfold findLastOccurrenceIndex, indices_le, indices_lt.
  replace (JS.len (triadAt tags i)) with 3
    by (unfold JS.len; rewrite triadAt_length; trivial).
  rewrite tags_len.
  set (m := Z.to_nat (JS.len entries - 3 + 1)).
  assert (Hm : Z.of_nat m = JS.len entries - 2) by (unfold m; lia).
  destruct (find_last_exists (windowMatches tags (triadAt tags i)) m i)
    as [j Hj]; [lia | now apply windowMatches_self |].
  rewrite Hj. destruct (find_last _ _ _ Hj) as (Hr & Ht & Hmax).
  specialize (Hmax i ltac:(lia) (windowMatches_self i Hi)).
  split; [lia | exact Ht].
Qed.

Lemma entryAt_in_range (j : Z) :
  0 <= j < JS.len entries ->
  exists e, entryAt entries j = Some e /\ In e entries.
Proof.
  intros Hj. unfold entryAt. destruct (Z.ltb_spec j 0); [lia|].
  destruct (nth_error entries (Z.to_nat j)) as [e|] eqn:E.
  - exists e. split; [reflexivity|]. now apply nth_error_In in E.
  - exfalso. apply nth_error_None in E. unfold JS.len in Hj. lia.
Qed.

(** When the lookup finds a record, [||] leaves its date unchanged. *)
Lemma dateOrEmpty_found (e : DailyEntry) : dateOrEmpty (Some e) = date e.
Proof. unfold dateOrEmpty. cbn. now destruct (date e). Qed.

Lemma emittedAt_pushed (i : Z) (c : EmotionalCycle) :
  emittedAt entries i c -> In (i, c) (pushedCycles entries).
Proof.
  unfold emittedAt. rewrite slice_prefix by lia. apply in_firstn.
Qed.


Lemma detected_emittedAt (c : EmotionalCycle) :
  In c (detectEmotionalCycles entries) -> exists i, emittedAt entries i c.
Proof.
  unfold emittedAt, detectEmotionalCycles. intros H.
  apply in_map_iff in H as ([i c'] & Hc & Hin). cbn in Hc. subst c'.
  now exists i.
Qed.



End Cycles.





(** Outside the vocabulary the joined comparison can also confuse
    different triads: "ab","c","d" and "a","bc","d" both join to "abcd". *)
Example joined_comparison_confuses_tags :
  windowMatches ["ab"; "c"; "d"; "a"; "bc"; "d"]%string ["a"; "bc"; "d"]%string 0 = true
  /\ triadAt ["ab"; "c"; "d"; "a"; "bc"; "d"]%string 0 <> ["a"; "bc"; "d"]%string.
Proof. split; [reflexivity | discriminate]. Qed.

(** C9. Whenever a cycle record is emitted for index i, the last
    occurrence search returns an index between i and n-3, the record
    lookup at that index succeeds, and the record's lastOccurrence is the
    date of that input record: the lookup never falls back to the empty
    string. *)
Theorem last_occurrence_is_a_record_date
    (entries : list DailyEntry) (i : Z) (c : EmotionalCycle) :
  emittedAt entries i c ->
  let tags := map emotionTag entries in
  let lastIndex := findLastOccurrenceIndex tags (JS.slice tags i (i + 3)) in
  1 < countPatternOccurrences tags (JS.slice tags i (i + 3))
  /\ i <= lastIndex <= JS.len entries - 3
  /\ exists e, entryAt entries lastIndex = Some e
               /\ In e entries
               /\ lastOccurrence c = date e.
Proof.
  intros Hc tags lastIndex.
  apply emittedAt_pushed, in_pushedCycles in Hc as [Hi Hcyc].
  pose proof (findLastOccurrenceIndex_range entries i Hi) as [Hrange _].
  subst lastIndex tags. rewrite triad_slice by exact Hi.
  rewrite cycleAt_triad in Hcyc by exact Hi. cbv zeta in Hcyc.
  destruct (Z.ltb_spec 1 (countPatternOccurrences (map emotionTag entries)
                            (triadAt (map emotionTag entries) i))) as [Hocc|];
    [|discriminate].
  injection Hcyc as <-. cbn [lastOccurrence].
  split; [exact Hocc|]. split; [exact Hrange|].
  destruct (entryAt_in_range entries
              (findLastOccurrenceIndex (map emotionTag entries)
                 (triadAt (map emotionTag entries) i))) as (e & He & Hin); [lia|].
  exists e. rewrite He. repeat split; trivial. apply dateOrEmpty_found.
Qed.

Lemma last_occurrence_is_a_record_date_witness :
  let tags := map emotionTag exampleEntries in
  let lastIndex := findLastOccurrenceIndex tags (JS.slice tags 0 (0 + 3)) in
  1 < countPatternOccurrences tags (JS.slice tags 0 (0 + 3))
  /\ 0 <= lastIndex <= JS.len exampleEntries - 3
  /\ exists e, entryAt exampleEntries lastIndex = Some e
               /\ In e exampleEntries
               /\ lastOccurrence exampleCycle = date e.
Proof.
  apply (last_occurrence_is_a_record_date exampleEntries 0 exampleCycle).
  vm_compute. left. reflexivity.
Defined.

(** ** Dictionaries and key sets *)

Section Keys.

Lemma in_set_add (s : list string) (x k : string) :
  In k (JS.set_add s x) <-> In k s \/ k = x.
Proof.
  unfold JS.set_add. destruct (existsb (String.eqb x) s) eqn:E.
  - apply existsb_exists in E as (y & Hy & Hxy). apply String.eqb_eq in Hxy. subst y.
    split; [tauto|]. intros [H| ->]; assumption.
  - rewrite in_app_iff. cbn [In]. intuition congruence.
Qed.

Lemma in_set_add_all (l s : list string) (k : string) :
  In k (fold_left JS.set_add l s) <-> In k s \/ In k l.
Proof.
  revert s; induction l as [|x l IH]; intros s; cbn [fold_left In].
  - tauto.
  - rewrite IH, in_set_add. split; intros H; intuition (subst; auto).
Qed.

Lemma in_allKeys_from (field : DailyEntry -> list (string * Z))
    (entries : list DailyEntry) (s : list string) (k : string) :
  In k (fold_left (fun s entry => fold_left JS.set_add (JS.keys (field entry)) s)
                  entries s)
  <-> In k s \/ exists e, In e entries /\ In k (JS.keys (field e)).
Proof.
  revert s; induction entries as [|e entries IH]; intros s; cbn [fold_left In].
  - split; [tauto|]. intros [H|(e & [] & _)]. exact H.
  - rewrite IH, in_set_add_all. split.
    + intros [[H|H]|(e' & He' & Hk)]; auto.
      * right. exists e. auto.
      * right. exists e'. auto.
    + intros [H|(e' & [<-|He'] & Hk)]; auto. right. now exists e'.
Qed.

(** The key set holds exactly the keys some record has. *)
Lemma in_allKeys (field : DailyEntry -> list (string * Z))
    (entries : list DailyEntry) (k : string) :
  In k (allKeys entries field) <-> exists e, In e entries /\ In k (JS.keys (field e)).
Proof.
  unfold allKeys. rewrite in_allKeys_from. cbn [In]. tauto.
Qed.

Lemma prop_some_key (o : list (string * Z)) (k : string) (v : Z) :
  JS.prop o k = Some v -> In k (JS.keys o).
Proof.
  induction o as [|[k' v'] o IH]; cbn [JS.prop JS.keys map fst In]; [discriminate|].
  destruct (String.eqb_spec k' k) as [->|Hne]; [now left|].
  intros H. right. now apply IH.
Qed.

Lemma scoresOf_nonempty_key (field : DailyEntry -> list (string * Z))
    (window : list DailyEntry) (k : string) :
  scoresOf field window k <> [] ->
  exists e, In e window /\ In k (JS.keys (field e)).
Proof.
  induction window as [|e window IH]; cbn [scoresOf flat_map]; [congruence|].
  destruct (JS.prop (field e) k) as [v|] eqn:E.
  - intros _. exists e. split; [now left | now apply prop_some_key with v].
  - cbn [app]. intros H. destruct (IH H) as (e' & He' & Hk).
    exists e'. split; [now right | exact Hk].
Qed.

Lemma sum_from (l : list Z) (a : Z) : fold_left Z.add l a = a + fold_right Z.add 0 l.
Proof.
  revert a; induction l as [|x l IH]; intros a; cbn [fold_left fold_right]; [lia|].
  rewrite IH. lia.
Qed.

Lemma sum_fold_right (l : list Z) : JS.sum l = fold_right Z.add 0 l.
Proof. unfold JS.sum. rewrite sum_from. lia. Qed.

End Keys.

(** ** Member access *)

Section MemberAccess.

Lemma isProtoMember_iff (k : string) :
  JS.isProtoMember k = true <-> In k JS.protoMembers.
Proof.
  unfold JS.isProtoMember. rewrite existsb_exists. split.
  - intros (x & Hx & E). apply String.eqb_eq in E. now subst x.
  - intros H. exists k. split; [exact H | apply String.eqb_refl].
Qed.

Lemma isProtoMember_false (k : string) :
  ~ In k JS.protoMembers -> JS.isProtoMember k = false.
Proof.
  intros H. destruct (JS.isProtoMember k) eqn:E; [|reflexivity].
  apply isProtoMember_iff in E. contradiction.
Qed.

(** For a label that names no inherited member the access finds the own
    property, as a double. *)
Lemma get_own (o : list (string * Z)) (k : string) :
  ~ In k JS.protoMembers ->
  JS.get o k = option_map (fun v => JS.Number (JS.num v)) (JS.prop o k).
Proof.
  intros H. unfold JS.get. rewrite (isProtoMember_false k H).
  now destruct (JS.prop o k).
Qed.

(** For a label that names an inherited member the access finds a value
    in every record. *)
Lemma get_inherited (o : list (string * Z)) (k : string) :
  In k JS.protoMembers -> exists v, JS.get o k = Some v.
Proof.
  intros H. unfold JS.get. apply isProtoMember_iff in H. rewrite H.
  destruct (JS.prop o k); eauto.
Qed.

Lemma found_own (field : DailyEntry -> list (string * Z))
    (window : list DailyEntry) (k : string) :
  ~ In k JS.protoMembers ->
  found field window k
  = map (fun v => JS.Number (JS.num v)) (scoresOf field window k).
Proof.
  intros H. induction window as [|e window IH]; [reflexivity|].
  cbn [found scoresOf flat_map]. rewrite get_own by exact H.
  fold (found field window k). fold (scoresOf field window k).
  rewrite map_app, IH. now destruct (JS.prop (field e) k).
Qed.

Lemma found_inherited (field : DailyEntry -> list (string * Z))
    (window : list DailyEntry) (k : string) :
  In k JS.protoMembers ->
  List.length (found field window k) = List.length window.
Proof.
  intros H. induction window as [|e window IH]; [reflexivity|].
  cbn [found flat_map]. destruct (get_inherited (field e) k H) as (v & ->).
  fold (found field window k). cbn [app List.length]. now rewrite IH.
Qed.

Lemma total_from (l : list Z) (acc : float) :
  fold_left JS.plus (map (fun v => JS.Number (JS.num v)) l) (JS.Number acc)
  = JS.Number (fold_left (fun acc score => (acc + JS.num score)%float) l acc).
Proof.
  revert acc; induction l as [|v l IH]; intros acc; [reflexivity|].
  cbn [map fold_left JS.plus]. apply IH.
Qed.

(** Adding up numbers gives their sum. *)
Lemma total_numbers (l : list Z) :
  JS.total (map (fun v => JS.Number (JS.num v)) l) = JS.Number (JS.sumNum l).
Proof. apply total_from. Qed.

Lemma averageOf_numbers (l : list Z) :
  averageOf (map (fun v => JS.Number (JS.num v)) l) = mean l.
Proof.
  unfold averageOf, mean. rewrite total_numbers. cbn [JS.toNumber].
  unfold JS.len. now rewrite length_map.
Qed.

End MemberAccess.

(** ** Trend analyzer *)

Section Trends.

Lemma recent_slice (entries : list DailyEntry) :
  JS.slice_from entries (-7) = recentWindow entries.
Proof. apply (slice_from_last entries 7). lia. Qed.

Lemma older_slice (entries : list DailyEntry) :
  JS.slice entries (-14) (-7) = olderWindow entries.
Proof.
  change (JS.slice entries (-14) (-7)) with (JS.slice entries (- (2 * 7)) (- (7))).
  rewrite (slice_before_last entries 7) by lia.
  unfold olderWindow, lastN, withoutLastN. f_equal.
  rewrite length_firstn. lia.
Qed.

(** The average is [null] when the member access finds nothing in the
    window and the average of the values found otherwise. *)
Lemma calculateCategoryAverage_found (window : list DailyEntry) (category : string) :
  calculateCategoryAverage window category =
  match found categories window category with
  | [] => None
  | values => Some (averageOf values)
  end.
Proof.
  unfold calculateCategoryAverage. rewrite pushEach_flat_map.
  fold (found categories window category).
  destruct (found categories window category) as [|v values] eqn:E;
    [reflexivity|].
  destruct (Z.ltb_spec 0 (JS.len (v :: values))) as [_|H];
    [reflexivity|rewrite len_cons in H; pose proof (len_nonneg values); lia].
Qed.

(** For a label that names no inherited member the average is [null] on
    an empty contributing set and the mean of the contributing scores
    otherwise. *)
Lemma calculateCategoryAverage_mean (window : list DailyEntry) (category : string) :
  ~ In category JS.protoMembers ->
  calculateCategoryAverage window category =
  match scoresOf categories window category with
  | [] => None
  | scores => Some (mean scores)
  end.
Proof.
  intros H. rewrite calculateCategoryAverage_found, (found_own _ _ _ H).
  destruct (scoresOf categories window category) as [|v scores] eqn:E;
    [reflexivity|].
  rewrite <- averageOf_numbers. reflexivity.
Qed.

Lemma trendOf_found (recent older : list DailyEntry) (category : string) :
  trendOf recent older category =
  match found categories recent category, found categories older category with
  | [], _ | _, [] => []
  | recentValues, olderValues =>
      [trendRecordOf category (averageOf recentValues) (averageOf olderValues)]
  end.
Proof.
  unfold trendOf. rewrite !calculateCategoryAverage_found.
  destruct (found categories recent category) as [|r rs];
    destruct (found categories older category) as [|o os]; reflexivity.
Qed.

Lemma analyzeCategoryTrends_short (entries : list DailyEntry) :
  JS.len entries < 7 -> analyzeCategoryTrends entries = [].
Proof.
  intros H. unfold analyzeCategoryTrends.
  destruct (Z.ltb_spec (JS.len entries) 7); [reflexivity | lia].
Qed.

(** Which records the analyzer returns, from seven records on *)
Lemma in_analyzeCategoryTrends_found (entries : list DailyEntry) (t : CategoryTrend) :
  7 <= JS.len entries ->
  In t (analyzeCategoryTrends entries)
  <-> In (category t) (allKeys entries categories)
      /\ found categories (recentWindow entries) (category t) <> []
      /\ found categories (olderWindow entries) (category t) <> []
      /\ t = trendRecordOf (category t)
               (averageOf (found categories (recentWindow entries) (category t)))
               (averageOf (found categories (olderWindow entries) (category t))).
Proof.
  intros Hn. unfold analyzeCategoryTrends.
  destruct (Z.ltb_spec (JS.len entries) 7); [lia|].
  rewrite pushEach_flat_map, recent_slice, older_slice, in_flat_map. split.
  - intros (cat & Hkey & Hin). rewrite trendOf_found in Hin.
    destruct (found categories (recentWindow entries) cat) as [|r rs] eqn:Er;
      [destruct Hin|].
    destruct (found categories (olderWindow entries) cat) as [|o os] eqn:Eo;
      [destruct Hin|].
    destruct Hin as [<-|[]]. cbn [category trendRecordOf].
    rewrite Er, Eo. repeat split; first [exact Hkey | congruence].
  - intros (Hkey & Hr & Ho & Ht). exists (category t). split; [exact Hkey|].
    rewrite trendOf_found.
    destruct (found categories (recentWindow entries) (category t)); [congruence|].
    destruct (found categories (olderWindow entries) (category t)); [congruence|].
    left. now symmetry.
Qed.

(** The same for a category whose label names no inherited member, in
    terms of the contributing scores *)
Lemma in_analyzeCategoryTrends (entries : list DailyEntry) (t : CategoryTrend) :
  7 <= JS.len entries ->
  ~ In (category t) JS.protoMembers ->
  In t (analyzeCategoryTrends entries)
  <-> scoresOf categories (recentWindow entries) (category t) <> []
      /\ scoresOf categories (olderWindow entries) (category t) <> []
      /\ t = trendRecord (category t)
               (scoresOf categories (recentWindow entries) (category t))
               (scoresOf categories (olderWindow entries) (category t)).
Proof.
  intros Hn Hown. rewrite in_analyzeCategoryTrends_found by exact Hn.
  rewrite !(found_own _ _ _ Hown), !averageOf_numbers.
  fold (trendRecord (category t)
          (scoresOf categories (recentWindow entries) (category t))
          (scoresOf categories (olderWindow entries) (category t))).
  split.
  - intros (_ & Hr & Ho & Ht). repeat split; try assumption.
    + intros E. apply Hr. now rewrite E.
    + intros E. apply Ho. now rewrite E.
  - intros (Hr & Ho & Ht). repeat split; try assumption.
    + apply in_allKeys. apply scoresOf_nonempty_key in Hr as (e & He & Hk).
      exists e. split; [|exact Hk]. unfold recentWindow, lastN in He.
      now apply in_skipn in He.
    + intros E. apply Hr. now destruct (scoresOf categories (recentWindow entries) (category t)).
    + intros E. apply Ho. now destruct (scoresOf categories (olderWindow entries) (category t)).
Qed.

(** A label that names an inherited member is found in every record, so
    from eight records on it is reported once some record has it as a
    key. *)
Lemma inherited_label_reported (entries : list DailyEntry) (cat : string) :
  8 <= JS.len entries ->
  In cat (allKeys entries categories) ->
  In cat JS.protoMembers ->
  exists t, In t (analyzeCategoryTrends entries) /\ category t = cat.
Proof.
  intros Hn Hkey Hproto.
  exists (trendRecordOf cat
            (averageOf (found categories (recentWindow entries) cat))
            (averageOf (found categories (olderWindow entries) cat))).
  split; [|reflexivity].
  apply in_analyzeCategoryTrends_found; [lia|]. cbn [category trendRecordOf].
  assert (Hnonempty : forall window : list DailyEntry,
             (0 < List.length window)%nat -> found categories window cat <> []).
  { intros window Hw E. apply (f_equal (@List.length _)) in E.
    rewrite (found_inherited _ _ _ Hproto) in E. cbn in E. lia. }
  unfold JS.len in Hn.
  repeat split; try assumption; apply Hnonempty.
  - unfold recentWindow, lastN. rewrite length_skipn. lia.
  - unfold olderWindow, lastN, withoutLastN.
    rewrite length_skipn, length_firstn. lia.
Qed.

End Trends.

(** C4.  The claim holds for ordinary labels but not for a category whose
    label names a member every object inherits from [Object.prototype]:
    the test [categories[category] !== undefined] then holds in every
    record, so the category is never skipped for want of contributing
    records.  From eight records on such a label is reported as soon as
    one record has it as a key.  For eight records of which only the
    oldest scores a category named constructor, no record of the recent
    window contributes a score, yet the analyzer returns a trend record
    for it, stable with change NaN; the category health, scored 5 by the
    seven recent records and by none of the older window, is skipped as
    the claim says.  The claim's own example gives change 60 and
    improving. *)
Theorem inherited_category_label_not_skipped :
  (forall (entries : list DailyEntry) (cat : string),
      8 <= JS.len entries ->
      In cat (allKeys entries categories) ->
      In cat JS.protoMembers ->
      exists t, In t (analyzeCategoryTrends entries) /\ category t = cat)
  /\ JS.len shadowedEntries = 8
  /\ allKeys shadowedEntries categories = ["constructor"; "health"]%string
  /\ scoresOf categories (recentWindow shadowedEntries) "constructor" = []
  /\ scoresOf categories (olderWindow shadowedEntries) "constructor" = [5]
  /\ scoresOf categories (olderWindow shadowedEntries) "health" = []
  /\ analyzeCategoryTrends shadowedEntries
     = [ {| category := "constructor"; trend := stable; change := nan |} ]
  /\ analyzeCategoryTrends healthEntries
     = [ {| category := "health"; trend := improving; change := 60 |} ].
Proof.
  split; [exact inherited_label_reported|].
  repeat split; vm_compute; reflexivity.
Qed.

Lemma inherited_category_label_not_skipped_witness :
  exists t, In t (analyzeCategoryTrends shadowedEntries)
            /\ category t = "constructor"%string.
Proof.
  apply (proj1 inherited_category_label_not_skipped shadowedEntries "constructor"%string).
  - vm_compute. discriminate.
  - vm_compute. left. reflexivity.
  - vm_compute. left. reflexivity.
Defined.

(** ** Correlation analyzer *)

Section Thoughts.

Lemma fold_left_ext_in {X I} (f g : X -> I -> X) (l : list I) (a : X) :
  (forall acc i, In i l -> f acc i = g acc i) ->
  fold_left f l a = fold_left g l a.
Proof.
  revert a; induction l as [|i l IH]; intros a H; [reflexivity|].
  cbn [fold_left]. rewrite H by now left.
  apply IH. intros acc j Hj. apply H. now right.
Qed.

Lemma fold_left_over_map {X I J} (f : X -> J -> X) (g : I -> J) (l : list I) (a : X) :
  fold_left f (map g l) a = fold_left (fun acc i => f acc (g i)) l a.
Proof.
  revert a; induction l as [|i l IH]; intros a; [reflexivity|].
  cbn [map fold_left]. apply IH.
Qed.

(** An index loop over an array visits its items in order. *)
Lemma fold_left_indices {X I} (d : I) (step : X -> I -> X) (l : list I)
    (k : nat) (a : X) :
  fold_left (fun acc i => step acc (nth (i - k) l d)) (seq k (List.length l)) a
  = fold_left step l a.
Proof.
  revert k a; induction l as [|x l IH]; intros k a; [reflexivity|].
  cbn [List.length seq fold_left]. rewrite Nat.sub_diag. cbn [nth].
  rewrite <- (IH (S k)). apply fold_left_ext_in.
  intros acc i Hi. apply in_seq in Hi.
  replace (i - k)%nat with (S (i - S k)) by lia. reflexivity.
Qed.

Lemma nth_map_in_range {X Y} (f : X -> Y) (l : list X) (i : nat) (d : X) (d' : Y) :
  (i < List.length l)%nat -> nth i (map f l) d' = f (nth i l d).
Proof.
  intros H. rewrite (nth_indep _ d' (f d)) by now rewrite length_map.
  apply map_nth.
Qed.

Lemma len_map {X Y} (f : X -> Y) (l : list X) : JS.len (map f l) = JS.len l.
Proof. unfold JS.len. now rewrite length_map. Qed.

Variable entries : list DailyEntry.
Variable thought : string.
Hypothesis own : ~ In thought JS.protoMembers.

Lemma thoughtAndMoodValues_from (es : list DailyEntry) (tv mv : list JS.value) :
  fold_left
    (fun '(thoughtValues, moodValues) entry =>
       match JS.get (thoughts entry) thought with
       | Some v => (thoughtValues ++ [v],
                    moodValues ++ [JS.Number (JS.num (moodValue (emotionTag entry)))])
       | None => (thoughtValues, moodValues)
       end)
    es (tv, mv)
  = (tv ++ map (fun p => JS.Number (JS.num (fst p))) (contributions es thought),
     mv ++ map (fun p => JS.Number (JS.num (snd p))) (contributions es thought)).
Proof.
  revert tv mv; induction es as [|e es IH]; intros tv mv;
    cbn [fold_left contributions flat_map].
  - now rewrite !app_nil_r.
  - fold (contributions es thought). rewrite (get_own _ _ own).
    destruct (JS.prop (thoughts e) thought) as [v|]; cbn [option_map]; rewrite IH.
    + cbn [app map fst snd]. now rewrite <- !app_assoc.
    + reflexivity.
Qed.

(** The two arrays hold the thought values and the mood values of the
    contributing records. *)
Lemma thoughtAndMoodValues_pairs :
  thoughtAndMoodValues entries thought
  = (map (fun p => JS.Number (JS.num (fst p))) (contributions entries thought),
     map (fun p => JS.Number (JS.num (snd p))) (contributions entries thought)).
Proof. unfold thoughtAndMoodValues. now rewrite thoughtAndMoodValues_from. Qed.

Lemma total_of_component {X} (f : X -> Z) (l : list X) :
  JS.total (map (fun p => JS.Number (JS.num (f p))) l) = JS.Number (JS.sumNum (map f l)).
Proof. rewrite <- total_numbers, map_map. reflexivity. Qed.

Lemma calculateThoughtImpact_association :
  calculateThoughtImpact entries thought =
  if JS.len (contributions entries thought) <? 3 then 0%float
  else association (contributions entries thought).
Proof.
  unfold calculateThoughtImpact. rewrite thoughtAndMoodValues_pairs.
  set (pairs := contributions entries thought).
  rewrite !len_map. destruct (JS.len pairs <? 3); [reflexivity|].
  unfold association, coMovementSum, mean.
  rewrite !total_of_component, !len_map. cbn [JS.toNumber].
  f_equal. f_equal.
  unfold indices_lt, JS.len. rewrite Nat2Z.id.
  rewrite fold_left_over_map.
  rewrite <- (fold_left_indices (0, 0) _ pairs 0).
  apply fold_left_ext_in. intros acc i Hi. apply in_seq in Hi.
  rewrite Nat2Z.id, Nat.sub_0_r.
  rewrite !(nth_map_in_range _ pairs i (0, 0)) by lia.
  reflexivity.
Qed.

End Thoughts.

Lemma in_analyzeThoughtPatterns (entries : list DailyEntry) (p : ThoughtPattern) :
  In p (analyzeThoughtPatterns entries) -> p = thoughtPatternOf entries (thought p).
Proof.
  unfold analyzeThoughtPatterns. rewrite slice_prefix by lia.
  intros H. apply in_firstn in H. rewrite pushEach_flat_map in H.
  apply in_flat_map in H as (th & _ & [<-|[]]). reflexivity.
Qed.

Lemma thoughtPatternOf_correlation (entries : list DailyEntry) (th : string) :
  correlation (thoughtPatternOf entries th)
  = round2 (calculateThoughtImpact entries th).
Proof. reflexivity. Qed.

(** C2, as the code has it.  For a thought label that names no member
    inherited from [Object.prototype] and has at least 3 contributing
    records the association is the sum of
    (thoughtValue - thoughtMean) * (moodValue - moodMean) over the
    contributing records divided by their count and by the damping
    constant 10 (the mean of the products, divided by 10), all in double
    precision, and the reported value is that rounded to 2 decimal places
    by [Math.round(x * 100) / 100]; with fewer than 3 contributing records
    the association is 0 and the classification neutral. *)
Theorem thought_association_is_product_mean_over_ten :
  (forall (entries : list DailyEntry) (th : string),
      ~ In th JS.protoMembers ->
      let pairs := contributions entries th in
      (3 <= JS.len pairs ->
       calculateThoughtImpact entries th
       = (coMovementSum pairs / JS.num (JS.len pairs) / 10)%float)
      /\ (JS.len pairs < 3 -> calculateThoughtImpact entries th = 0%float))
  /\ (forall (entries : list DailyEntry) (p : ThoughtPattern),
         In p (analyzeThoughtPatterns entries) ->
         ~ In (thought p) JS.protoMembers ->
         let pairs := contributions entries (thought p) in
         (3 <= JS.len pairs ->
          correlation p = round2 (coMovementSum pairs / JS.num (JS.len pairs) / 10))
         /\ (JS.len pairs < 3 -> correlation p = 0%float /\ impact p = neutral)).
Proof.
  assert (Himpact : forall (entries : list DailyEntry) (th : string),
             ~ In th JS.protoMembers ->
             let pairs := contributions entries th in
             (3 <= JS.len pairs ->
              calculateThoughtImpact entries th
              = (coMovementSum pairs / JS.num (JS.len pairs) / 10)%float)
             /\ (JS.len pairs < 3 -> calculateThoughtImpact entries th = 0%float)).
  { intros entries th Hown pairs.
    rewrite calculateThoughtImpact_association by exact Hown.
    fold pairs. destruct (Z.ltb_spec (JS.len pairs) 3); split; intros; try lia; reflexivity. }
  split; [exact Himpact|].
  intros entries p Hp Hown pairs. apply in_analyzeThoughtPatterns in Hp.
  destruct (Himpact entries (thought p) Hown) as [Hge Hlt]. fold pairs in Hge, Hlt.
  split; intros Hn; rewrite Hp.
  - rewrite thoughtPatternOf_correlation. cbn [thought]. now rewrite Hge.
  - unfold thoughtPatternOf. cbn [correlation impact thought].
    rewrite (Hlt Hn). split; vm_compute; reflexivity.
Qed.

Lemma thought_association_is_product_mean_over_ten_witness :
  calculateThoughtImpact calmEntries "calm"
  = (coMovementSum (contributions calmEntries "calm")
     / JS.num (JS.len (contributions calmEntries "calm")) / 10)%float.
Proof.
  apply (proj1 thought_association_is_product_mean_over_ten calmEntries "calm"%string).
  - vm_compute. intros H. repeat (destruct H as [H|H]; [discriminate|]). exact H.
  - vm_compute. discriminate.
Defined.

(** C2 as stated fails: for five records whose thought calm scores
    1, 2, 3, 4, 5 under moods low to peak the products sum to 10, so the
    code reports 10 / 5 / 10 = 0.2, while the mean of the products
    divided again by the count and by 10 is 0.04. *)
Lemma stated_association_counterexample :
  let pairs := contributions calmEntries "calm" in
  3 <= JS.len pairs
  /\ coMovementSum pairs = 10%float
  /\ exists p, In p (analyzeThoughtPatterns calmEntries)
               /\ thought p = "calm"%string
               /\ correlation p = 0.2%float
               /\ round2 (statedAssociation pairs) = 0.04%float
               /\ correlation p <> round2 (statedAssociation pairs).
Proof.
  cbv zeta. split; [vm_compute; discriminate|]. split; [vm_compute; reflexivity|].
  exists (thoughtPatternOf calmEntries "calm").
  split; [vm_compute; left; reflexivity|].
  split; [reflexivity|]. split; [vm_compute; reflexivity|].
  split; [vm_compute; reflexivity|].
  intros H. apply (f_equal (fun x => PrimFloat.eqb x 0.2%float)) in H.
  vm_compute in H. discriminate.
Qed.

(** ** Empty denominators *)

Section EmptyDenominators.

Lemma recordAverage_empty : recordAverage [] = JS.NaN.
Proof. reflexivity. Qed.

Lemma isCoherent_empty (e : DailyEntry) :
  categories e = [] \/ thoughts e = [] -> isCoherent e = false.
Proof.
  unfold isCoherent. intros [H|H]; rewrite H, recordAverage_empty; cbn [JS.ge].
  - reflexivity.
  - now rewrite !andb_false_r.
Qed.

Lemma calculateCoherenceDays_count (entries : list DailyEntry) :
  calculateCoherenceDays entries = JS.len (filter isCoherent entries).
Proof. unfold calculateCoherenceDays. rewrite count_loop. lia. Qed.

End EmptyDenominators.

(** C8.  The guards against an empty contributing set test
    [obj[key] !== undefined], which also holds for a label that names a
    member inherited from [Object.prototype]; such an item is not skipped
    and its result is NaN.  For five records of which only the first
    scores a thought named valueOf the contributing set has one record,
    yet the correlation analyzer reports NaN instead of 0; for three
    records without thoughts the association of the label constructor is
    NaN although no record contributes; and the category average of such
    a record for the label constructor is NaN instead of null, although
    no record contributes a score.  For an ordinary label the same inputs
    give 0 and null. *)
Theorem empty_contributing_set_not_skipped :
  JS.len (contributions shadowedThoughts "valueOf") = 1
  /\ analyzeThoughtPatterns shadowedThoughts
     = [ {| thought := "valueOf"; correlation := nan; impact := neutral |} ]
  /\ contributions (repeat plainEntry 3) "constructor" = []
  /\ calculateThoughtImpact (repeat plainEntry 3) "constructor" = nan
  /\ calculateThoughtImpact (repeat plainEntry 3) "calm" = 0%float
  /\ scoresOf categories [plainEntry] "constructor" = []
  /\ calculateCategoryAverage [plainEntry] "constructor" = Some nan
  /\ calculateCategoryAverage [plainEntry] "health" = None.
Proof.
  repeat split; vm_compute; reflexivity.
Qed.

(** ** Further properties of the cycle detector *)

Section CycleBounds.

Lemma filter_nil_iff {I} (test : I -> bool) (l : list I) :
  filter test l = [] <-> forall i, In i l -> test i = false.
Proof.
  induction l as [|x l IH]; cbn [filter In].
  - split; [intros _ i [] | reflexivity].
  - destruct (test x) eqn:E; split.
    + discriminate.
    + intros H. specialize (H x (or_introl eq_refl)). congruence.
    + intros H i [<-|Hi]; [exact E | now apply IH].
    + intros H. apply IH. intros i Hi. apply H. now right.
Qed.

Lemma len_zero_nil {I} (l : list I) : JS.len l = 0 <-> l = [].
Proof.
  destruct l; [split; reflexivity|].
  rewrite len_cons. pose proof (len_nonneg l). split; [lia | discriminate].
Qed.

Lemma len_indices_lt (hi : Z) : JS.len (indices_lt hi) = Z.max 0 hi.
Proof. unfold indices_lt, JS.len. rewrite length_map, length_seq. lia. Qed.

Lemma countPatternOccurrences_filter (sequence pattern : list string) :
  countPatternOccurrences sequence pattern
  = JS.len (filter (windowMatches sequence pattern)
                   (indices_le (JS.len sequence - JS.len pattern))).
Proof. unfold countPatternOccurrences. rewrite count_loop. lia. Qed.

Lemma countPatternOccurrences_bounds (sequence pattern : list string) :
  0 <= countPatternOccurrences sequence pattern
    <= Z.max 0 (JS.len sequence - JS.len pattern + 1).
Proof.
  rewrite countPatternOccurrences_filter. split; [apply len_nonneg|].
  etransitivity; [apply len_filter_le|].
  unfold indices_le. rewrite len_indices_lt. lia.
Qed.

End CycleBounds.

(** X1. The two helper loops agree.  The count of occurrences lies
    between 0 and the number of start positions; the last-occurrence
    search returns -1 exactly when the count is 0, and otherwise the
    largest start position whose window matches.  A pattern longer than
    the sequence is never found. *)
Theorem count_and_last_occurrence_agree (sequence pattern : list string) :
  let hi := JS.len sequence - JS.len pattern in
  let last := findLastOccurrenceIndex sequence pattern in
  0 <= countPatternOccurrences sequence pattern <= Z.max 0 (hi + 1)
  /\ (last = -1 <-> countPatternOccurrences sequence pattern = 0)
  /\ (last <> -1 ->
      0 <= last <= hi
      /\ windowMatches sequence pattern last = true
      /\ forall k, last < k <= hi -> windowMatches sequence pattern k = false)
  /\ (JS.len sequence < JS.len pattern ->
      countPatternOccurrences sequence pattern = 0 /\ last = -1).
Proof.
  intros hi last.
  pose proof (countPatternOccurrences_bounds sequence pattern) as Hb. fold hi in Hb.
  assert (Hfind : forall j,
             find (windowMatches sequence pattern) (rev (indices_le hi)) = Some j ->
             0 <= j <= hi
             /\ windowMatches sequence pattern j = true
             /\ forall k, j < k <= hi -> windowMatches sequence pattern k = false).
  { intros j Hj. unfold indices_le, indices_lt in Hj.
    destruct (find_last _ _ _ Hj) as (Hr & Ht & Hmax).
    split; [lia|]. split; [exact Ht|].
    intros k Hk. destruct (windowMatches sequence pattern k) eqn:E; [|reflexivity].
    specialize (Hmax k ltac:(lia) E). lia. }
  assert (Hiff : last = -1 <-> countPatternOccurrences sequence pattern = 0).
  { subst last. unfold findLastOccurrenceIndex. fold hi.
    rewrite countPatternOccurrences_filter, len_zero_nil, filter_nil_iff. fold hi.
    destruct (find (windowMatches sequence pattern) (rev (indices_le hi))) as [j|] eqn:E.
    - destruct (Hfind j eq_refl) as (Hr & Ht & _). split; [lia|].
      intros Hall. rewrite Hall in Ht; [discriminate|].
      apply in_indices_lt. lia.
    - split; [|reflexivity]. intros _ i Hi.
      apply (find_none _ _ E). now apply in_rev in Hi. }
  split; [exact Hb|]. split; [exact Hiff|]. split.
  - intros Hne. subst last. unfold findLastOccurrenceIndex in *. fold hi in Hne |- *.
    destruct (find (windowMatches sequence pattern) (rev (indices_le hi))) as [j|] eqn:E;
      [now apply Hfind | congruence].
  - intros Hlt.
    assert (H0 : countPatternOccurrences sequence pattern = 0) by (unfold hi in Hb; lia).
    split; [exact H0 | now apply Hiff].
Qed.

Lemma count_and_last_occurrence_agree_witness :
  let sequence := map emotionTag exampleEntries in
  let pattern := ["neutral"; "elevated"; "low"]%string in
  let hi := JS.len sequence - JS.len pattern in
  let last := findLastOccurrenceIndex sequence pattern in
  0 <= last <= hi
  /\ windowMatches sequence pattern last = true
  /\ forall k, last < k <= hi -> windowMatches sequence pattern k = false.
Proof.
  apply (count_and_last_occurrence_agree
           (map emotionTag exampleEntries) ["neutral"; "elevated"; "low"]%string).
  vm_compute. discriminate.
Defined.

Section CycleRecords.

Variable entries : list DailyEntry.

Lemma detected_record (c : EmotionalCycle) :
  In c (detectEmotionalCycles entries) ->
  2 <= frequency c <= JS.len entries - 2
  /\ (0 < confidence c <= 95)%Q.
Proof.
  intros Hc. apply detected_emittedAt in Hc as [i Hi].
  apply emittedAt_pushed, in_pushedCycles in Hi as [Hr Hcyc].
  rewrite cycleAt_triad in Hcyc by exact Hr. cbv zeta in Hcyc.
  set (tags := map emotionTag entries) in *.
  pose proof (countPatternOccurrences_bounds tags (triadAt tags i)) as Hb.
  replace (JS.len (triadAt tags i)) with 3 in Hb
    by (unfold JS.len; subst tags; rewrite triadAt_length; trivial).
  assert (Htl : JS.len tags = JS.len entries) by apply tags_len.
  rewrite Htl in Hb.
  destruct (Z.ltb_spec 1 (countPatternOccurrences tags (triadAt tags i)));
    [|discriminate].
  injection Hcyc as <-. cbn [frequency confidence].
  split; [lia|]. split; [|apply Q.le_min_r].
  apply Q.min_glb_lt; [|reflexivity].
  set (occ := countPatternOccurrences tags (triadAt tags i)) in *.
  assert (Hocc : (0 < inject_Z occ)%Q)
    by (change 0%Q with (inject_Z 0); rewrite <- Zlt_Qlt; lia).
  assert (Hn : (0 < inject_Z (JS.len entries))%Q)
    by (change 0%Q with (inject_Z 0); rewrite <- Zlt_Qlt; lia).
  apply Qmult_lt_0_compat; [|reflexivity].
  apply Qlt_shift_div_l; [exact Hn|]. now rewrite Qmult_0_l.
Qed.

Lemma detected_at_most_five : JS.len (detectEmotionalCycles entries) <= 5.
Proof.
  unfold detectEmotionalCycles. rewrite len_map, slice_prefix by lia.
  unfold JS.len. pose proof (firstn_le_length (Z.to_nat 5) (pushedCycles entries)). lia.
Qed.

End CycleRecords.

(** X2. The cycle detector returns at most five records; every record
    has a frequency between 2 and n - 2 and a confidence above 0 and at
    most 95, and the records number no more than the n - 2 windows.  With
    three records or fewer nothing is detected. *)
Theorem detected_cycles_bounds (entries : list DailyEntry) :
  JS.len (detectEmotionalCycles entries) <= 5
  /\ JS.len (detectEmotionalCycles entries) <= Z.max 0 (JS.len entries - 2)
  /\ (forall c, In c (detectEmotionalCycles entries) ->
                2 <= frequency c <= JS.len entries - 2
                /\ (0 < confidence c <= 95)%Q)
  /\ (JS.len entries <= 3 -> detectEmotionalCycles entries = []).
Proof.
  split; [apply detected_at_most_five|]. split; [|split].
  - unfold detectEmotionalCycles. rewrite len_map, slice_prefix by lia.
    etransitivity.
    + unfold JS.len. apply inj_le. rewrite length_firstn. apply Nat.le_min_r.
    + fold (JS.len (pushedCycles entries)).
      rewrite pushedCycles_flat_map, pushes_before_len.
      etransitivity; [apply len_filter_le|]. rewrite len_indices_lt. lia.
  - apply detected_record.
  - intros Hn. destruct (detectEmotionalCycles entries) as [|c l] eqn:E; [reflexivity|].
    assert (Hin : In c (detectEmotionalCycles entries)) by (rewrite E; now left).
    apply detected_record in Hin. lia.
Qed.

Lemma detected_cycles_bounds_witness :
  detectEmotionalCycles (repeat plainEntry 3) = [].
Proof.
  apply (detected_cycles_bounds (repeat plainEntry 3)).
  vm_compute. discriminate.
Defined.

(** ** Further properties of the trend analyzer *)

Section TrendWindows.

Variable entries : list DailyEntry.

Lemma recentWindow_length :
  List.length (recentWindow entries) = Nat.min 7 (List.length entries).
Proof. unfold recentWindow, lastN. rewrite length_skipn. lia. Qed.

Lemma olderWindow_length :
  List.length (olderWindow entries) = Nat.min 7 (List.length entries - 7).
Proof.
  unfold olderWindow, lastN, withoutLastN.
  rewrite length_skipn, length_firstn. lia.
Qed.

Lemma skipn_firstn_app {A} (a b : nat) (l : list A) :
  (a <= b)%nat -> (a <= List.length l)%nat ->
  skipn a (firstn b l) ++ skipn b l = skipn a l.
Proof.
  intros Hab Hal.
  rewrite <- (firstn_skipn b l) at 3.
  rewrite skipn_app, length_firstn.
  replace (a - Nat.min b (List.length l))%nat with 0%nat by lia.
  reflexivity.
Qed.

Lemma windows_adjacent :
  olderWindow entries ++ recentWindow entries = lastN 14 entries.
Proof.
  unfold olderWindow, recentWindow, lastN, withoutLastN.
  rewrite length_firstn.
  replace (Nat.min (List.length entries - 7) (List.length entries) - 7)%nat
    with (List.length entries - 14)%nat by lia.
  apply skipn_firstn_app; lia.
Qed.

Lemma allKeys_from_NoDup (field : DailyEntry -> list (string * Z))
    (es : list DailyEntry) (s : list string) :
  NoDup s ->
  NoDup (fold_left (fun s entry => fold_left JS.set_add (JS.keys (field entry)) s) es s).
Proof.
  assert (Hadd : forall l s0, NoDup s0 -> NoDup (fold_left JS.set_add l s0)).
  { induction l as [|x l IH]; intros s0 Hs0; cbn [fold_left]; [exact Hs0|].
    apply IH. unfold JS.set_add.
    destruct (existsb (String.eqb x) s0) eqn:E; [exact Hs0|].
    apply NoDup_app; [exact Hs0 | repeat constructor; intros [] |].
    intros y Hy [Hxy|[]]. subst y.
    assert (existsb (String.eqb x) s0 = true)
      by (apply existsb_exists; exists x; split; [exact Hy | apply String.eqb_refl]).
    congruence. }
  revert s; induction es as [|e es IH]; intros s Hs; cbn [fold_left]; [exact Hs|].
  apply IH, Hadd, Hs.
Qed.

(** The key set lists each key once. *)
Lemma allKeys_NoDup (field : DailyEntry -> list (string * Z)) :
  NoDup (allKeys entries field).
Proof. apply allKeys_from_NoDup. constructor. Qed.

Lemma trend_categories (recent older : list DailyEntry) (keys : list string) :
  map category (flat_map (trendOf recent older) keys)
  = filter (fun k => match trendOf recent older k with [] => false | _ => true end) keys.
Proof.
  induction keys as [|k keys IH]; [reflexivity|].
  cbn [flat_map filter]. rewrite map_app, IH, trendOf_found.
  destruct (found categories recent k); [reflexivity|].
  destruct (found categories older k); reflexivity.
Qed.

End TrendWindows.

Lemma analyzeCategoryTrends_upto_seven (entries : list DailyEntry) :
  JS.len entries <= 7 -> analyzeCategoryTrends entries = [].
Proof.
  intros Hn. destruct (Z.lt_ge_cases (JS.len entries) 7) as [Hlt|Hge];
    [now apply analyzeCategoryTrends_short|].
  destruct (analyzeCategoryTrends entries) as [|t l] eqn:E; [reflexivity|].
  assert (Hin : In t (analyzeCategoryTrends entries)) by (rewrite E; now left).
  apply in_analyzeCategoryTrends_found in Hin as (_ & _ & Ho & _); [|exact Hge].
  exfalso. apply Ho.
  assert (Hempty : olderWindow entries = []).
  { apply length_zero_iff_nil. rewrite olderWindow_length. unfold JS.len in *. lia. }
  now rewrite Hempty.
Qed.

Lemma analyzeCategoryTrends_count (entries : list DailyEntry) :
  JS.len (analyzeCategoryTrends entries) <= JS.len (allKeys entries categories).
Proof.
  unfold analyzeCategoryTrends. destruct (JS.len entries <? 7);
    [rewrite len_nil; apply len_nonneg|].
  rewrite pushEach_flat_map.
  rewrite <- (len_map category), trend_categories. apply len_filter_le.
Qed.

(** X3. The two trend windows are adjacent: the older window followed
    by the recent window is the last 14 records (or all of them when
    there are fewer), the older window holding min(7, n - 7) records.
    With exactly 7 records the older window is empty, so that trends are
    reported from 8 records on only. *)
Theorem trend_windows_adjacent (entries : list DailyEntry) :
  JS.slice entries (-14) (-7) ++ JS.slice_from entries (-7)
  = JS.slice_from entries (-14)
  /\ JS.len (JS.slice_from entries (-7)) = Z.min 7 (JS.len entries)
  /\ JS.len (JS.slice entries (-14) (-7)) = Z.max 0 (Z.min 7 (JS.len entries - 7))
  /\ (JS.len entries <= 7 -> analyzeCategoryTrends entries = []).
Proof.
  rewrite recent_slice, older_slice.
  split; [|split; [|split]].
  - rewrite windows_adjacent. symmetry. apply (slice_from_last entries 14). lia.
  - unfold JS.len. rewrite recentWindow_length. lia.
  - unfold JS.len. rewrite olderWindow_length. lia.
  - intros Hn. destruct (Z.lt_ge_cases (JS.len entries) 7) as [Hlt|Hge];
      [now apply analyzeCategoryTrends_short|].
    destruct (analyzeCategoryTrends entries) as [|t l] eqn:E; [reflexivity|].
    assert (Hin : In t (analyzeCategoryTrends entries)) by (rewrite E; now left).
    apply in_analyzeCategoryTrends_found in Hin as (_ & _ & Ho & _); [|exact Hge].
    exfalso. apply Ho.
    assert (Hempty : olderWindow entries = []).
    { apply length_zero_iff_nil. rewrite olderWindow_length. unfold JS.len in *. lia. }
    now rewrite Hempty.
Qed.

Lemma trend_windows_adjacent_witness :
  analyzeCategoryTrends (firstn 7 healthEntries) = [].
Proof.
  apply (trend_windows_adjacent (firstn 7 healthEntries)).
  vm_compute. discriminate.
Defined.

(** X4. The trend analyzer reports each category at most once and
    reports no more trends than there are distinct category labels.  A
    reported category is a key of some record; unless its label names a
    member inherited from [Object.prototype], some record of the recent
    window and some record of the older window carry it. *)
Theorem trend_categories_distinct (entries : list DailyEntry) :
  NoDup (map category (analyzeCategoryTrends entries))
  /\ JS.len (analyzeCategoryTrends entries) <= JS.len (allKeys entries categories)
  /\ (forall t, In t (analyzeCategoryTrends entries) ->
                (exists e, In e entries /\ In (category t) (JS.keys (categories e)))
                /\ (~ In (category t) JS.protoMembers ->
                    (exists e, In e (JS.slice_from entries (-7))
                               /\ In (category t) (JS.keys (categories e)))
                    /\ (exists e, In e (JS.slice entries (-14) (-7))
                                  /\ In (category t) (JS.keys (categories e))))).
Proof.
  split; [|split].
  - unfold analyzeCategoryTrends. destruct (JS.len entries <? 7); [constructor|].
    rewrite pushEach_flat_map, trend_categories.
    apply NoDup_filter, allKeys_NoDup.
  - unfold analyzeCategoryTrends. destruct (JS.len entries <? 7);
      [rewrite len_nil; apply len_nonneg|].
    rewrite pushEach_flat_map.
    rewrite <- (len_map category), trend_categories. apply len_filter_le.
  - intros t Ht.
    destruct (Z.lt_ge_cases (JS.len entries) 7) as [Hlt|Hge];
      [rewrite analyzeCategoryTrends_short in Ht by exact Hlt; destruct Ht|].
    split.
    + apply in_analyzeCategoryTrends_found in Ht as (Hkey & _); [|exact Hge].
      now apply in_allKeys.
    + intros Hown.
      apply in_analyzeCategoryTrends in Ht as (Hr & Ho & _); [|exact Hge|exact Hown].
      rewrite recent_slice, older_slice.
      split; now apply scoresOf_nonempty_key.
Qed.

Lemma trend_categories_distinct_witness :
  (exists e, In e (JS.slice_from healthEntries (-7))
             /\ In "health"%string (JS.keys (categories e)))
  /\ (exists e, In e (JS.slice healthEntries (-14) (-7))
                /\ In "health"%string (JS.keys (categories e))).
Proof.
  apply (proj2 (proj2 (proj2 (trend_categories_distinct healthEntries))
               {| category := "health"; trend := improving; change := 60 |}
               ltac:(vm_compute; left; reflexivity))).
  vm_compute. intros H. repeat (destruct H as [H|H]; [discriminate|]). exact H.
Defined.

(** X5. For a category whose label names no member inherited from
    [Object.prototype], and from 7 records on: the category is skipped
    when no record of the recent window or no record of the older window
    has it as a key; otherwise exactly one trend record is returned for
    it.  Its change is [Math.round] of the double
    (recentMean - olderMean) / olderMean * 100, where each mean is the sum
    of the contributing scores, added from the left in doubles, divided by
    their count; its trend is improving when that double, before
    rounding, is above 10, declining when it is below -10, and stable
    otherwise. *)
Theorem trend_of_ordinary_label (entries : list DailyEntry) (cat : string) :
  7 <= JS.len entries ->
  ~ In cat JS.protoMembers ->
  let recentScores := scoresOf categories (JS.slice_from entries (-7)) cat in
  let olderScores := scoresOf categories (JS.slice entries (-14) (-7)) cat in
  (recentScores = [] \/ olderScores = [] ->
   forall t, In t (analyzeCategoryTrends entries) -> category t <> cat)
  /\ (recentScores <> [] -> olderScores <> [] ->
      let pct := ((mean recentScores - mean olderScores) / mean olderScores * 100)%float in
      let t := {| category := cat;
                  trend := if (10 <? pct)%float then improving
                           else if (pct <? -10)%float then declining
                           else stable;
                  change := JS.fround pct |} in
      In t (analyzeCategoryTrends entries)
      /\ forall t', In t' (analyzeCategoryTrends entries) -> category t' = cat -> t' = t).
Proof.
  intros Hn Hown. rewrite recent_slice, older_slice. cbv zeta. split.
  - intros Hempty t Ht Hcat. subst cat.
    apply in_analyzeCategoryTrends in Ht as (Hr & Ho & _); [|exact Hn|exact Hown].
    destruct Hempty; contradiction.
  - intros Hr Ho.
    fold (classify ((mean (scoresOf categories (recentWindow entries) cat)
                     - mean (scoresOf categories (olderWindow entries) cat))
                    / mean (scoresOf categories (olderWindow entries) cat) * 100)%float).
    fold (percentChange (mean (scoresOf categories (recentWindow entries) cat))
                        (mean (scoresOf categories (olderWindow entries) cat))).
    fold (trendRecordOf cat (mean (scoresOf categories (recentWindow entries) cat))
                        (mean (scoresOf categories (olderWindow entries) cat))).
    fold (trendRecord cat (scoresOf categories (recentWindow entries) cat)
                      (scoresOf categories (olderWindow entries) cat)).
    split.
    + apply in_analyzeCategoryTrends; [exact Hn|exact Hown|].
      cbn [category trendRecord trendRecordOf]. repeat split; assumption.
    + intros t' Ht' Hcat. subst cat.
      apply in_analyzeCategoryTrends in Ht' as (_ & _ & Ht'); [|exact Hn|exact Hown].
      exact Ht'.
Qed.

Lemma trend_of_ordinary_label_witness :
  In {| category := "health"; trend := improving; change := 60 |}
     (analyzeCategoryTrends healthEntries).
Proof.
  assert (Hown : ~ In "health"%string JS.protoMembers).
  { vm_compute. intros H. repeat (destruct H as [H|H]; [discriminate|]). exact H. }
  assert (Hn : 7 <= JS.len healthEntries) by (vm_compute; discriminate).
  destruct (trend_of_ordinary_label healthEntries "health"%string Hn Hown) as [_ H].
  apply H; vm_compute; discriminate.
Defined.

(** ** Further properties of the correlation analyzer *)

Section ThoughtShape.

Lemma NoDup_firstn {A} (n : nat) (l : list A) : NoDup l -> NoDup (firstn n l).
Proof.
  intros H. rewrite <- (firstn_skipn n l) in H. now apply NoDup_app_remove_r in H.
Qed.

Lemma prop_of_key (o : list (string * Z)) (k : string) :
  In k (JS.keys o) -> exists v, JS.prop o k = Some v.
Proof.
  induction o as [|[k' v'] o IH]; cbn [JS.keys map fst In JS.prop]; [intros []|].
  destruct (String.eqb_spec k' k) as [->|Hne]; [intros _; now exists v'|].
  intros [H|H]; [contradiction | now apply IH].
Qed.

Lemma contributions_of_key (entries : list DailyEntry) (th : string) :
  (exists e, In e entries /\ In th (JS.keys (thoughts e))) ->
  contributions entries th <> [].
Proof.
  intros (e & He & Hk). apply prop_of_key in Hk as [v Hv].
  induction entries as [|e' entries IH]; [destruct He|].
  cbn [contributions flat_map]. destruct He as [->|He].
  - rewrite Hv. discriminate.
  - destruct (JS.prop (thoughts e') th); [discriminate|]. cbn [app]. now apply IH.
Qed.

Lemma thought_labels (entries : list DailyEntry) :
  map thought (analyzeThoughtPatterns entries) = firstn 5 (allKeys entries thoughts).
Proof.
  unfold analyzeThoughtPatterns. rewrite slice_prefix by lia.
  rewrite pushEach_flat_map, <- firstn_map. f_equal.
  induction (allKeys entries thoughts) as [|k keys IH]; [reflexivity|].
  cbn [flat_map map app]. now rewrite IH.
Qed.

End ThoughtShape.

(** X6. The correlation analyzer reports the first five thought labels
    in first-seen order, each once and each with at least one contributing
    record.  The impact is decided on the association before rounding, by
    double precision comparisons with the doubles nearest to 0.3 and
    -0.3: positive above, negative below, neutral otherwise (also when
    the association is NaN); the reported correlation is
    [Math.round(association * 100) / 100]. *)
Theorem thought_patterns_shape (entries : list DailyEntry) :
  map thought (analyzeThoughtPatterns entries) = firstn 5 (allKeys entries thoughts)
  /\ JS.len (analyzeThoughtPatterns entries) <= 5
  /\ NoDup (map thought (analyzeThoughtPatterns entries))
  /\ (forall p, In p (analyzeThoughtPatterns entries) ->
        let c := calculateThoughtImpact entries (thought p) in
        contributions entries (thought p) <> []
        /\ correlation p = (JS.fround (c * 100) / 100)%float
        /\ (impact p = positive <-> (0.3 <? c)%float = true)
        /\ (impact p = negative
            <-> (0.3 <? c)%float = false /\ (c <? -0.3)%float = true)
        /\ (impact p = neutral
            <-> (0.3 <? c)%float = false /\ (c <? -0.3)%float = false)).
Proof.
  split; [apply thought_labels|]. split; [|split].
  - rewrite <- (len_map thought), thought_labels. unfold JS.len.
    pose proof (firstn_le_length 5 (allKeys entries thoughts)). lia.
  - rewrite thought_labels. apply NoDup_firstn, allKeys_NoDup.
  - intros p Hp c.
    assert (Hkey : In (thought p) (allKeys entries thoughts)).
    { apply (in_firstn 5). rewrite <- thought_labels. now apply in_map. }
    apply in_allKeys in Hkey. apply contributions_of_key in Hkey.
    apply in_analyzeThoughtPatterns in Hp.
    split; [exact Hkey|]. rewrite Hp.
    unfold thoughtPatternOf. cbn [correlation impact thought]. fold c.
    split; [reflexivity|].
    destruct (0.3 <? c)%float; destruct (c <? -0.3)%float;
      repeat split; intros; try discriminate; try reflexivity;
      try (destruct H; discriminate).
Qed.

Lemma thought_patterns_shape_witness :
  let p := thoughtPatternOf calmEntries "calm" in
  let c := calculateThoughtImpact calmEntries (thought p) in
  contributions calmEntries (thought p) <> []
  /\ correlation p = (JS.fround (c * 100) / 100)%float
  /\ (impact p = positive <-> (0.3 <? c)%float = true)
  /\ (impact p = negative
      <-> (0.3 <? c)%float = false /\ (c <? -0.3)%float = true)
  /\ (impact p = neutral
      <-> (0.3 <? c)%float = false /\ (c <? -0.3)%float = false).
Proof.
  apply (proj2 (proj2 (proj2 (thought_patterns_shape calmEntries)))
               (thoughtPatternOf calmEntries "calm")).
  vm_compute. left. reflexivity.
Defined.

(** ** Progression calculator *)

Section Coherence.



End Coherence.

Lemma calculateCoherenceDays_bounds (entries : list DailyEntry) :
  0 <= calculateCoherenceDays entries <= JS.len entries.
Proof.
  rewrite calculateCoherenceDays_count.
  split; [apply len_nonneg | apply len_filter_le].
Qed.


Section Achievements.

Lemma in_push (cond : bool) (badge b : string) (a : list string) :
  In b (if cond then a ++ [badge] else a) <-> In b a \/ (cond = true /\ b = badge).
Proof.
  destruct cond.
  - rewrite in_app_iff. cbn [In]. intuition congruence.
  - intuition discriminate.
Qed.

(** Which badges are unlocked *)
Lemma in_calculateAchievements (entries patterns coherence : Z) (b : string) :
  In b (calculateAchievements entries patterns coherence)
  <-> (7 <= entries /\ b = "Observer Foundation"%string)
      \/ (21 <= entries /\ b = "Pattern Seeker"%string)
      \/ (50 <= entries /\ b = "Reality Tracker"%string)
      \/ (100 <= entries /\ b = "Consciousness Master"%string)
      \/ (3 <= patterns /\ b = "Pattern Detector"%string)
      \/ (10 <= patterns /\ b = "Loop Breaker"%string)
      \/ (7 <= coherence /\ b = "Frequency Aligner"%string)
      \/ (21 <= coherence /\ b = "Timeline Shifter"%string).
Proof.
  unfold calculateAchievements. cbv zeta beta.
  rewrite !in_push, !Z.leb_le. cbn [In]. tauto.
Qed.

Lemma calculateAchievements_NoDup (entries patterns coherence : Z) :
  NoDup (calculateAchievements entries patterns coherence)
  /\ (List.length (calculateAchievements entries patterns coherence) <= 8)%nat.
Proof.
  unfold calculateAchievements. cbv zeta beta.
  destruct (7 <=? entries), (21 <=? entries), (50 <=? entries), (100 <=? entries),
    (3 <=? patterns), (10 <=? patterns), (7 <=? coherence), (21 <=? coherence);
    cbn [app List.length]; (split; [|lia]);
    repeat (constructor; [cbn [In]; intuition discriminate|]); constructor.
Qed.

End Achievements.

(** X9. Achievements are cumulative: raising the entry, pattern or
    coherence count never removes a badge, a badge of a family implies the
    lower badges of that family, no badge is listed twice, and the list is
    empty exactly when no first threshold (7 entries, 3 patterns, 7
    coherence days) is reached. *)
Theorem achievements_cumulative (e p c e' p' c' : Z) :
  e <= e' -> p <= p' -> c <= c' ->
  incl (calculateAchievements e p c) (calculateAchievements e' p' c')
  /\ NoDup (calculateAchievements e p c)
  /\ (List.length (calculateAchievements e p c) <= 8)%nat
  /\ (calculateAchievements e p c = [] <-> e < 7 /\ p < 3 /\ c < 7)
  /\ (In "Consciousness Master"%string (calculateAchievements e p c) ->
      In "Reality Tracker"%string (calculateAchievements e p c))
  /\ (In "Reality Tracker"%string (calculateAchievements e p c) ->
      In "Pattern Seeker"%string (calculateAchievements e p c))
  /\ (In "Pattern Seeker"%string (calculateAchievements e p c) ->
      In "Observer Foundation"%string (calculateAchievements e p c))
  /\ (In "Loop Breaker"%string (calculateAchievements e p c) ->
      In "Pattern Detector"%string (calculateAchievements e p c))
  /\ (In "Timeline Shifter"%string (calculateAchievements e p c) ->
      In "Frequency Aligner"%string (calculateAchievements e p c)).
Proof.
  intros He Hp Hc.
  split.
  { intros b Hb. apply in_calculateAchievements in Hb.
    apply in_calculateAchievements.
    repeat destruct Hb as [Hb|Hb]; destruct Hb as [Hb ->];
      repeat (first [left; split; [lia | reflexivity] | right]);
      split; [lia | reflexivity]. }
  split; [apply calculateAchievements_NoDup|].
  split; [apply calculateAchievements_NoDup|].
  split.
  { split.
    - intros Hnil.
      assert (Hnone : forall b, ~ In b (calculateAchievements e p c))
        by (intros b; rewrite Hnil; intros []).
      repeat split; apply Z.nlt_ge || apply Z.lt_nge; intros H.
      + apply (Hnone "Observer Foundation"%string), in_calculateAchievements. auto.
      + apply (Hnone "Pattern Detector"%string), in_calculateAchievements. auto 10.
      + apply (Hnone "Frequency Aligner"%string), in_calculateAchievements. auto 10.
    - intros (H1 & H2 & H3).
      destruct (calculateAchievements e p c) as [|b l] eqn:E; [reflexivity|].
      assert (Hin : In b (calculateAchievements e p c)) by (rewrite E; now left).
      apply in_calculateAchievements in Hin.
      repeat destruct Hin as [Hin|Hin]; destruct Hin as [Hin _]; lia. }
  repeat split; intros H; apply in_calculateAchievements in H;
    apply in_calculateAchievements;
    repeat destruct H as [H|H]; destruct H as [H Hb]; try discriminate Hb;
    repeat (first [left; split; [lia | reflexivity] | right]);
    try (split; [lia | reflexivity]).
Qed.

Lemma achievements_cumulative_witness :
  incl (calculateAchievements 21 3 0) (calculateAchievements 50 10 7).
Proof.
  apply (achievements_cumulative 21 3 0 50 10 7); lia.
Defined.

Ltac simpl_needed :=
  cbn [entriesNeeded patternsNeeded coherenceNeeded specificTasks
       req_entries req_patterns req_coherence req_tasks].

Section Requirements.

(** The row the calculator uses for a level *)
Lemma nextRow (level : Z) :
  exists row,
    (forall e p c,
        getNextLevelRequirements level e p c
        = {| entriesNeeded := Z.max 0 (req_entries row - e);
             patternsNeeded := Z.max 0 (req_patterns row - p);
             coherenceNeeded := Z.max 0 (req_coherence row - c);
             specificTasks := req_tasks row |})
    /\ (level = 0 -> row = level1)
    /\ (level = 1 -> row = level2)
    /\ (level = 2 -> row = level3)
    /\ (level < 0 \/ 3 <= level -> row = level4).
Proof.
  unfold getNextLevelRequirements.
  destruct (Z.lt_ge_cases level 0) as [Hneg|Hpos].
  - exists level4. split; [|repeat split; intros; try lia; reflexivity].
    intros e p c. replace (Z.min (level + 1) 5) with (level + 1) by lia.
    destruct (level + 1) as [|q|q] eqn:E; try lia; reflexivity.
  - destruct (Z.lt_ge_cases level 4) as [Hlt|Hge].
    + assert (Hcases : level = 0 \/ level = 1 \/ level = 2 \/ level = 3) by lia.
      destruct Hcases as [ -> | [ -> | [ -> | -> ] ] ]; eexists; (split; [reflexivity|]);
        repeat split; intros; try lia; reflexivity.
    + exists level4. split; [|repeat split; intros; try lia; reflexivity].
      intros e p c. replace (Z.min (level + 1) 5) with 5 by lia. reflexivity.
Qed.

End Requirements.

(** X10. What is still needed for the next level is never negative and
    never grows when the user's counts grow; for levels from 0 upward it
    never shrinks when the level grows.  Every level from 3 upward, and
    every negative level, is measured against the level-4 row (100
    entries, 15 patterns, 21 coherence days). *)
Theorem next_level_requirements_monotone (level e p c : Z) :
  let r := getNextLevelRequirements level e p c in
  (0 <= entriesNeeded r /\ 0 <= patternsNeeded r /\ 0 <= coherenceNeeded r)
  /\ (forall e' p' c', e <= e' -> p <= p' -> c <= c' ->
        let r' := getNextLevelRequirements level e' p' c' in
        entriesNeeded r' <= entriesNeeded r
        /\ patternsNeeded r' <= patternsNeeded r
        /\ coherenceNeeded r' <= coherenceNeeded r
        /\ specificTasks r' = specificTasks r)
  /\ (forall level', 0 <= level <= level' ->
        let r' := getNextLevelRequirements level' e p c in
        entriesNeeded r <= entriesNeeded r'
        /\ patternsNeeded r <= patternsNeeded r'
        /\ coherenceNeeded r <= coherenceNeeded r')
  /\ (level < 0 \/ 3 <= level ->
      entriesNeeded r = Z.max 0 (100 - e)
      /\ patternsNeeded r = Z.max 0 (15 - p)
      /\ coherenceNeeded r = Z.max 0 (21 - c)
      /\ specificTasks r = ["Master frequency alignment";
                            "Sustain 21 coherent days"]%string).
Proof.
  intros r. subst r.
  destruct (nextRow level) as (row & Hrow & H0 & H1 & H2 & H4).
  split; [rewrite Hrow; simpl_needed; lia|]. split; [|split].
  - intros e' p' c' He Hp Hc. rewrite !Hrow. simpl_needed. repeat split; lia.
  - intros level' Hl.
    destruct (nextRow level') as (row' & Hrow' & H0' & H1' & H2' & H4').
    rewrite Hrow, Hrow'. simpl_needed.
    assert (Hcases : level = 0 \/ level = 1 \/ level = 2 \/ 3 <= level) by lia.
    assert (Hcases' : level' = 0 \/ level' = 1 \/ level' = 2 \/ 3 <= level') by lia.
    destruct Hcases as [L|[L|[L|L]]];
      [rewrite (H0 L) | rewrite (H1 L) | rewrite (H2 L) | rewrite (H4 (or_intror L))];
      (destruct Hcases' as [L'|[L'|[L'|L']]];
       [rewrite (H0' L') | rewrite (H1' L') | rewrite (H2' L')
        | rewrite (H4' (or_intror L'))]);
      unfold level1, level2, level3, level4; simpl_needed; lia.
  - intros Hl. rewrite Hrow, (H4 Hl). repeat split.
Qed.

Lemma next_level_requirements_monotone_witness :
  entriesNeeded (getNextLevelRequirements 7 40 2 1) = Z.max 0 (100 - 40)
  /\ patternsNeeded (getNextLevelRequirements 7 40 2 1) = Z.max 0 (15 - 2)
  /\ coherenceNeeded (getNextLevelRequirements 7 40 2 1) = Z.max 0 (21 - 1)
  /\ specificTasks (getNextLevelRequirements 7 40 2 1)
     = ["Master frequency alignment"; "Sustain 21 coherent days"]%string.
Proof.
  apply (next_level_requirements_monotone 7 40 2 1). right. lia.
Defined.

(** X11. The level progress echoes the level and the record count;
    coherence days never exceed the record count, and the patterns
    identified never exceed five cycles plus one trend per distinct
    category label.  With fewer than 5 records no pattern is identified
    and no achievement unlocked; the Loop Breaker badge (10 patterns)
    needs at least 8 records and 5 distinct category labels. *)
Theorem level_progress_bounds (entries : list DailyEntry) (level : Z) :
  let progress := calculateLevelProgress entries level in
  currentLevel progress = level
  /\ entriesCompleted progress = JS.len entries
  /\ 0 <= coherenceDays progress <= entriesCompleted progress
  /\ 0 <= patternsIdentified progress <= 5 + JS.len (allKeys entries categories)
  /\ (JS.len entries < 5 ->
      patternsIdentified progress = 0 /\ achievements progress = [])
  /\ (JS.len entries <= 7 -> patternsIdentified progress <= 5)
  /\ (In "Loop Breaker"%string (achievements progress) ->
      8 <= JS.len entries /\ 5 <= JS.len (allKeys entries categories)).
Proof.
  cbv zeta. unfold calculateLevelProgress.
  cbn [currentLevel entriesCompleted coherenceDays patternsIdentified achievements].
  pose proof (calculateCoherenceDays_bounds entries) as Hdays.
  assert (Hpat : emotionalCycles (analyzePatterns entries)
                 = (if JS.len entries <? 5 then [] else detectEmotionalCycles entries)
                 /\ categoryTrends (analyzePatterns entries)
                    = (if JS.len entries <? 5 then [] else analyzeCategoryTrends entries)).
  { unfold analyzePatterns, analyzePatternsTraced.
    destruct (JS.len entries <? 5); split; reflexivity. }
  destruct Hpat as [Hcyc Htr]. rewrite Hcyc, Htr.
  pose proof (detected_at_most_five entries) as H5.
  pose proof (analyzeCategoryTrends_count entries) as Hk.
  pose proof (len_nonneg (detectEmotionalCycles entries)) as Hc0.
  pose proof (len_nonneg (analyzeCategoryTrends entries)) as Ht0.
  pose proof (len_nonneg (allKeys entries categories)) as Hk0.
  split; [reflexivity|]. split; [reflexivity|]. split; [exact Hdays|].
  split; [destruct (JS.len entries <? 5); [unfold JS.len; cbn [List.length]; lia | lia]|].
  split; [|split].
  - intros Hlt. destruct (Z.ltb_spec (JS.len entries) 5); [|lia].
    change (JS.len (@nil EmotionalCycle)) with 0.
    change (JS.len (@nil CategoryTrend)) with 0.
    split; [reflexivity|].
    destruct (calculateAchievements (JS.len entries) (0 + 0)
                (calculateCoherenceDays entries)) as [|b l] eqn:E; [reflexivity|].
    assert (Hin : In b (calculateAchievements (JS.len entries) (0 + 0)
                          (calculateCoherenceDays entries))) by (rewrite E; now left).
    apply in_calculateAchievements in Hin.
    repeat destruct Hin as [Hin|Hin]; destruct Hin as [Hin _]; lia.
  - intros Hle. rewrite (analyzeCategoryTrends_upto_seven entries Hle).
    destruct (JS.len entries <? 5); [unfold JS.len; cbn [List.length]; lia|].
    change (JS.len (@nil CategoryTrend)) with 0. lia.
  - intros Hin. apply in_calculateAchievements in Hin.
    repeat destruct Hin as [Hin|Hin]; destruct Hin as [Hin Hb]; try discriminate Hb.
    destruct (Z.ltb_spec (JS.len entries) 5);
      [change (JS.len (@nil EmotionalCycle)) with 0 in Hin;
       change (JS.len (@nil CategoryTrend)) with 0 in Hin; lia|].
    split; [|lia].
    destruct (Z.le_gt_cases (JS.len entries) 7) as [Hle|Hgt]; [|lia].
    rewrite (analyzeCategoryTrends_upto_seven entries Hle) in Hin.
    change (JS.len (@nil CategoryTrend)) with 0 in Hin. lia.
Qed.

Lemma level_progress_bounds_witness :
  patternsIdentified (calculateLevelProgress (repeat richEntry 4) 1) = 0
  /\ achievements (calculateLevelProgress (repeat richEntry 4) 1) = [].
Proof.
  apply (level_progress_bounds (repeat richEntry 4) 1). vm_compute. reflexivity.
Defined.

(** ** The coach's emotional trend *)

Section EmotionalTrend.

(** [l.slice(0, -k)] drops the last [k] items. *)
Lemma slice_without_last {A} (l : list A) (k : Z) :
  0 < k -> JS.slice l 0 (- k) = firstn (List.length l - Z.to_nat k) l.
Proof.
  intros Hk. unfold JS.slice, JS.rel_index.
  pose proof (len_nonneg l) as Hl.
  destruct (Z.ltb_spec (- k) 0); [|lia]. cbn [Z.ltb Z.compare].
  rewrite (Z.min_l 0) by lia. cbn [Z.to_nat skipn].
  f_equal. unfold JS.len. lia.
Qed.



Lemma indexOf_from_range (l : list string) (x : string) (i : Z) :
  JS.indexOf_from i l x = -1 \/ i <= JS.indexOf_from i l x < i + JS.len l.
Proof.
  revert i; induction l as [|y l IH]; intros i; cbn [JS.indexOf_from]; [now left|].
  rewrite len_cons. pose proof (len_nonneg l).
  destruct (String.eqb y x); [right; lia|].
  destruct (IH (i + 1)) as [H1|H1]; [now left | right; lia].
Qed.


Variable entries : list DailyEntry.
Let moodScores := map (JS.indexOf moodScale) (map emotionTag entries).

Lemma moodScores_len : JS.len moodScores = JS.len entries.
Proof. unfold moodScores. now rewrite !len_map. Qed.

(** The two comparisons, as tests on the sums of the mood indices of the
    last three records and of the records before them *)
Lemma getEmotionalTrend_sums :
  3 <= JS.len entries ->
  let recentSum := JS.sum (skipn (List.length moodScores - 3) moodScores) in
  let olderSum := JS.sum (firstn (List.length moodScores - 3) moodScores) in
  let olderCount := Z.max (JS.len entries - 3) 1 in
  getEmotionalTrend entries =
  if 6 * olderSum + 3 * olderCount <? 2 * olderCount * recentSum
  then "ascending"%string
  else if 2 * olderCount * recentSum <? 6 * olderSum - 3 * olderCount
       then "descending"%string
       else "stable"%string.
Proof.
  intros Hn recentSum olderSum olderCount. unfold getEmotionalTrend.
  destruct (Z.ltb_spec (JS.len entries) 3); [lia|].
  fold moodScores. rewrite moodScores_len.
  change (-3) with (- (3)).
  rewrite (slice_from_last moodScores 3), (slice_without_last moodScores 3) by lia.
  change (Z.to_nat 3) with 3%nat. fold recentSum olderSum olderCount.
  assert (Hc : 0 < olderCount) by (unfold olderCount; lia).
  assert (Hcq : (0 < inject_Z olderCount)%Q)
    by (change 0%Q with (inject_Z 0); now rewrite <- Zlt_Qlt).
  set (recent := (inject_Z recentSum / 3)%Q).
  set (older := (inject_Z olderSum / inject_Z olderCount)%Q).
  assert (Hr : (recent * 3 == inject_Z recentSum)%Q) by (unfold recent; field).
  assert (Ho : (older * inject_Z olderCount == inject_Z olderSum)%Q)
    by (unfold older; field; lra).
  assert (Hup : (recent <= older + (1 # 2))%Q
                <-> 2 * olderCount * recentSum <= 6 * olderSum + 3 * olderCount).
  { rewrite Zle_Qle, !inject_Z_plus, !inject_Z_mult, <- Hr, <- Ho.
    change (inject_Z 2) with 2%Q. change (inject_Z 6) with 6%Q.
    change (inject_Z 3) with 3%Q.
    split; intros Hle.
    - apply (Qmult_le_compat_r _ _ (6 * inject_Z olderCount)) in Hle; [|lra].
      ring_simplify in Hle. ring_simplify. lra.
    - apply (Qmult_le_r _ _ (6 * inject_Z olderCount)); [lra|].
      ring_simplify. ring_simplify in Hle. lra. }
  assert (Hdown : (older - (1 # 2) <= recent)%Q
                  <-> 6 * olderSum - 3 * olderCount <= 2 * olderCount * recentSum).
  { rewrite Zle_Qle. unfold Z.sub. rewrite !inject_Z_plus, inject_Z_opp, !inject_Z_mult,
      <- Hr, <- Ho.
    change (inject_Z 2) with 2%Q. change (inject_Z 6) with 6%Q.
    change (inject_Z 3) with 3%Q.
    split; intros Hle.
    - apply (Qmult_le_compat_r _ _ (6 * inject_Z olderCount)) in Hle; [|lra].
      ring_simplify in Hle. ring_simplify. lra.
    - apply (Qmult_le_r _ _ (6 * inject_Z olderCount)); [lra|].
      ring_simplify. ring_simplify in Hle. lra. }
  destruct (Qle_bool recent (older + (1 # 2))) eqn:E1; cbn [negb].
  - apply Qle_bool_iff, Hup in E1.
    destruct (Z.ltb_spec (6 * olderSum + 3 * olderCount) (2 * olderCount * recentSum));
      [lia|].
    destruct (Qle_bool (older - (1 # 2)) recent) eqn:E2; cbn [negb].
    + apply Qle_bool_iff, Hdown in E2.
      destruct (Z.ltb_spec (2 * olderCount * recentSum)
                           (6 * olderSum - 3 * olderCount)); [lia | reflexivity].
    + destruct (Z.ltb_spec (2 * olderCount * recentSum)
                           (6 * olderSum - 3 * olderCount)); [reflexivity|].
      assert (Qle_bool (older - (1 # 2)) recent = true)
        by (apply Qle_bool_iff, Hdown; lia). congruence.
  - destruct (Z.ltb_spec (6 * olderSum + 3 * olderCount) (2 * olderCount * recentSum));
      [reflexivity|].
    assert (Qle_bool recent (older + (1 # 2)) = true)
      by (apply Qle_bool_iff, Hup; lia). congruence.
Qed.

End EmotionalTrend.

Section EmotionalTrendDoubles.

Lemma in_range (lo z : Z) (n : nat) :
  lo <= z < lo + Z.of_nat n -> In z (range lo n).
Proof.
  intros H. unfold range. apply in_map_iff. exists (Z.to_nat (z - lo)).
  split; [lia|]. apply in_seq. lia.
Qed.

(** Adding a mood index to a sum of up to five of them is exact. *)
Lemma add_mood_index (a b : Z) :
  -5 <= a <= 20 -> -1 <= b <= 4 -> (JS.num a + JS.num b)%float = JS.num (a + b).
Proof.
  intros Ha Hb.
  assert (Hall : Forall (fun a => Forall (fun b => (JS.num a + JS.num b)%float
                                                   = JS.num (a + b))
                                         (range (-1) 6))
                        (range (-5) 26)).
  { repeat (apply Forall_cons; [repeat (apply Forall_cons; [vm_compute; reflexivity|]);
                                apply Forall_nil|]).
    apply Forall_nil. }
  rewrite Forall_forall in Hall.
  specialize (Hall a (in_range (-5) a 26 ltac:(lia))).
  rewrite Forall_forall in Hall. apply Hall, in_range. lia.
Qed.

Lemma sumNum_from (l : list Z) (a : Z) :
  Forall (fun x => -1 <= x <= 4) l ->
  -5 + JS.len l <= a <= 20 - 4 * JS.len l ->
  fold_left (fun acc x => (acc + JS.num x)%float) l (JS.num a)
  = JS.num (a + JS.sum l).
Proof.
  intros Hl. revert a. induction Hl as [|x l Hx _ IH]; intros a Ha.
  - cbn [fold_left]. unfold JS.sum. cbn [fold_left]. f_equal. lia.
  - rewrite len_cons in Ha. pose proof (len_nonneg l).
    cbn [fold_left]. rewrite add_mood_index by lia.
    rewrite IH by lia. f_equal. rewrite !sum_fold_right. cbn [fold_right]. lia.
Qed.

(** The sum of up to five mood indices is exact in doubles. *)
Lemma sumNum_exact (l : list Z) :
  Forall (fun x => -1 <= x <= 4) l -> JS.len l <= 5 ->
  JS.sumNum l = JS.num (JS.sum l).
Proof.
  intros Hl Hn. unfold JS.sumNum.
  change 0%float with (JS.num 0). pose proof (len_nonneg l).
  rewrite sumNum_from by (trivial; lia). reflexivity.
Qed.

Lemma sum_mood_bounds (l : list Z) :
  Forall (fun x => -1 <= x <= 4) l -> - JS.len l <= JS.sum l <= 4 * JS.len l.
Proof.
  intros Hl. rewrite sum_fold_right.
  induction Hl as [|x l Hx _ IH];
    [change (JS.len (@nil Z)) with 0; cbn [fold_right]; lia|].
  rewrite len_cons. cbn [fold_right]. lia.
Qed.

(** Up to five older records the comparisons on doubles agree with the
    comparisons on the integers. *)
Lemma trendTests_agree (R c O : Z) :
  -3 <= R <= 12 -> 1 <= c <= 5 -> -5 <= O <= 20 -> trendTestsAgree R c O = true.
Proof.
  intros HR Hc HO.
  assert (Hall : forallb (fun R => forallb (fun c => forallb (trendTestsAgree R c)
                                                             (range (-5) 26))
                                           (range 1 5))
                         (range (-3) 16) = true) by (vm_compute; reflexivity).
  rewrite forallb_forall in Hall.
  specialize (Hall R (in_range (-3) R 16 ltac:(lia))).
  rewrite forallb_forall in Hall.
  specialize (Hall c (in_range 1 c 5 ltac:(lia))).
  rewrite forallb_forall in Hall. apply Hall, in_range. lia.
Qed.

Variable entries : list DailyEntry.
Let moodScores := map (JS.indexOf moodScale) (map emotionTag entries).

Lemma moodScores_range : Forall (fun x => -1 <= x <= 4) moodScores.
Proof.
  unfold moodScores. apply Forall_map, Forall_map, Forall_forall. intros e _.
  unfold JS.indexOf.
  destruct (indexOf_from_range moodScale (emotionTag e) 0) as [H|H];
    [lia | change (JS.len moodScale) with 5 in H; lia].
Qed.

(** Up to eight records the comparisons made on doubles are the tests on
    the sums of the mood indices. *)
Lemma getEmotionalTrendDoubles_sums :
  3 <= JS.len entries <= 8 ->
  let recentSum := JS.sum (skipn (List.length moodScores - 3) moodScores) in
  let olderSum := JS.sum (firstn (List.length moodScores - 3) moodScores) in
  let olderCount := Z.max (JS.len entries - 3) 1 in
  getEmotionalTrendDoubles entries =
  if 6 * olderSum + 3 * olderCount <? 2 * olderCount * recentSum
  then "ascending"%string
  else if 2 * olderCount * recentSum <? 6 * olderSum - 3 * olderCount
       then "descending"%string
       else "stable"%string.
Proof.
  intros Hn recentSum olderSum olderCount. unfold getEmotionalTrendDoubles.
  destruct (Z.ltb_spec (JS.len entries) 3); [lia|].
  fold moodScores.
  assert (Hlen : JS.len moodScores = JS.len entries)
    by (unfold moodScores; now rewrite !len_map).
  rewrite Hlen. change (-3) with (- (3)).
  rewrite (slice_from_last moodScores 3), (slice_without_last moodScores 3) by lia.
  change (Z.to_nat 3) with 3%nat. fold olderCount.
  pose proof moodScores_range as Hrange.
  assert (Hrecent : Forall (fun x => -1 <= x <= 4)
                           (skipn (List.length moodScores - 3) moodScores)).
  { rewrite Forall_forall in *. intros x Hx. apply Hrange. now apply in_skipn in Hx. }
  assert (Holder : Forall (fun x => -1 <= x <= 4)
                          (firstn (List.length moodScores - 3) moodScores)).
  { rewrite Forall_forall in *. intros x Hx. apply Hrange. now apply in_firstn in Hx. }
  assert (Hlr : JS.len (skipn (List.length moodScores - 3) moodScores) = 3)
    by (unfold JS.len in *; rewrite length_skipn; lia).
  assert (Hlo : JS.len (firstn (List.length moodScores - 3) moodScores)
                = JS.len entries - 3)
    by (unfold JS.len in *; rewrite length_firstn; lia).
  rewrite (sumNum_exact _ Hrecent), (sumNum_exact _ Holder) by lia.
  fold recentSum olderSum.
  pose proof (sum_mood_bounds _ Hrecent) as HR. rewrite Hlr in HR. fold recentSum in HR.
  pose proof (sum_mood_bounds _ Holder) as HO. rewrite Hlo in HO. fold olderSum in HO.
  assert (Hagree : trendTestsAgree recentSum olderCount olderSum = true)
    by (apply trendTests_agree; unfold olderCount; lia).
  unfold trendTestsAgree in Hagree. apply andb_prop in Hagree as [H1 H2].
  apply Bool.eqb_prop in H1, H2. now rewrite H1, H2.
Qed.

End EmotionalTrendDoubles.

(** X12. The coach's emotional trend needs three records.  From three
    records on it compares, in doubles, the mean mood index R/3 of the
    last three records with the mean O/c of the records before them, c
    being their number, or 1 when there are none.  Up to eight records
    the doubles decide as the exact values do: the trend is ascending
    exactly when 2cR > 6O + 3c, descending exactly when 2cR < 6O - 3c,
    and stable otherwise.  With nine records the rounding shows: for
    R = 1, O = 5 the exact means tie, 1/3 = 5/6 - 1/2, and the code
    answers descending. *)
Theorem emotional_trend_by_sums (entries : list DailyEntry) :
  let moodScores := map (JS.indexOf moodScale) (map emotionTag entries) in
  let recentSum := JS.sum (JS.slice_from moodScores (-3)) in
  let olderSum := JS.sum (JS.slice moodScores 0 (-3)) in
  let olderCount := Z.max (JS.len entries - 3) 1 in
  (getEmotionalTrendDoubles entries = "insufficient data"%string
   <-> JS.len entries < 3)
  /\ (3 <= JS.len entries <= 8 ->
      getEmotionalTrendDoubles entries = getEmotionalTrend entries
      /\ (getEmotionalTrendDoubles entries = "ascending"%string
          <-> 6 * olderSum + 3 * olderCount < 2 * olderCount * recentSum)
      /\ (getEmotionalTrendDoubles entries = "descending"%string
          <-> 2 * olderCount * recentSum < 6 * olderSum - 3 * olderCount)
      /\ (getEmotionalTrendDoubles entries = "stable"%string
          <-> 6 * olderSum - 3 * olderCount <= 2 * olderCount * recentSum
              <= 6 * olderSum + 3 * olderCount))
  /\ (getEmotionalTrendDoubles nineEntries = "descending"%string
      /\ getEmotionalTrend nineEntries = "stable"%string).
Proof.
  intros moodScores recentSum olderSum olderCount.
  assert (Hc : 0 < olderCount) by (unfold olderCount; lia).
  split; [|split].
  - split.
    + intros H. destruct (Z.lt_ge_cases (JS.len entries) 3) as [Hlt|Hge]; [exact Hlt|].
      unfold getEmotionalTrendDoubles in H.
      destruct (Z.ltb_spec (JS.len entries) 3); [lia|].
      destruct (_ <? _)%float in H; [discriminate|].
      destruct (_ <? _)%float in H; discriminate.
    + intros H. unfold getEmotionalTrendDoubles.
      destruct (Z.ltb_spec (JS.len entries) 3); [reflexivity | lia].
  - intros Hn.
    rewrite (getEmotionalTrendDoubles_sums entries Hn).
    rewrite (getEmotionalTrend_sums entries) by lia. cbv zeta.
    subst recentSum olderSum. change (-3) with (- (3)).
    rewrite (slice_from_last moodScores 3), (slice_without_last moodScores 3) by lia.
    change (Z.to_nat 3) with 3%nat. fold moodScores. fold olderCount.
    set (R := JS.sum (skipn (List.length moodScores - 3) moodScores)).
    set (O := JS.sum (firstn (List.length moodScores - 3) moodScores)).
    split; [reflexivity|].
    destruct (Z.ltb_spec (6 * O + 3 * olderCount) (2 * olderCount * R)).
    { repeat split; intros; try discriminate; try lia. }
    destruct (Z.ltb_spec (2 * olderCount * R) (6 * O - 3 * olderCount)).
    { repeat split; intros; try discriminate; try lia. }
    repeat split; intros; try discriminate; try lia.
  - split; vm_compute; reflexivity.
Qed.

Lemma emotional_trend_by_sums_witness :
  let entries := exampleEntries in
  let moodScores := map (JS.indexOf moodScale) (map emotionTag entries) in
  let recentSum := JS.sum (JS.slice_from moodScores (-3)) in
  let olderSum := JS.sum (JS.slice moodScores 0 (-3)) in
  let olderCount := Z.max (JS.len entries - 3) 1 in
  getEmotionalTrendDoubles entries = getEmotionalTrend entries
  /\ (getEmotionalTrendDoubles entries = "ascending"%string
      <-> 6 * olderSum + 3 * olderCount < 2 * olderCount * recentSum)
  /\ (getEmotionalTrendDoubles entries = "descending"%string
      <-> 2 * olderCount * recentSum < 6 * olderSum - 3 * olderCount)
  /\ (getEmotionalTrendDoubles entries = "stable"%string
      <-> 6 * olderSum - 3 * olderCount <= 2 * olderCount * recentSum
          <= 6 * olderSum + 3 * olderCount).
Proof.
  apply (proj1 (proj2 (emotional_trend_by_sums exampleEntries))).
  vm_compute. split; discriminate.
Defined.



(** ** The coach's dominant labels *)

Section Dominant.

Lemma keys_appendScore (g : list (string * list Z)) (k : string) (v : Z) :
  map fst (appendScore g k v) = JS.set_add (map fst g) k.
Proof.
  induction g as [|[k0 l] g IH]; [reflexivity|].
  cbn [appendScore map fst]. unfold JS.set_add in *. cbn [existsb].
  destruct (String.eqb_spec k0 k) as [->|Hne].
  - now rewrite String.eqb_refl.
  - cbn [map fst]. rewrite IH.
    destruct (String.eqb_spec k k0) as [->|_]; [congruence|]. cbn [orb].
    destruct (existsb (String.eqb k) (map fst g)); reflexivity.
Qed.

Lemma lookup_appendScore (g : list (string * list Z)) (k k' : string) (v : Z) :
  lookupScores (appendScore g k v) k'
  = if String.eqb k k' then lookupScores g k' ++ [v] else lookupScores g k'.
Proof.
  induction g as [|[k0 l] g IH]; cbn [appendScore lookupScores].
  - destruct (String.eqb k k'); reflexivity.
  - destruct (String.eqb_spec k0 k) as [->|Hne]; cbn [lookupScores].
    + destruct (String.eqb k k'); reflexivity.
    + rewrite IH. destruct (String.eqb_spec k0 k') as [->|_]; [|reflexivity].
      destruct (String.eqb_spec k k') as [->|_]; [congruence | reflexivity].
Qed.

Lemma collect_entry (o : list (string * Z)) (g : list (string * list Z)) :
  map fst (fold_left (fun g kv => appendScore g (fst kv) (snd kv)) o g)
  = fold_left JS.set_add (JS.keys o) (map fst g)
  /\ forall k,
       lookupScores (fold_left (fun g kv => appendScore g (fst kv) (snd kv)) o g) k
       = lookupScores g k ++ map snd (filter (fun kv => String.eqb (fst kv) k) o).
Proof.
  revert g; induction o as [|[k0 v0] o IH]; intros g; cbn [fold_left JS.keys map filter fst snd].
  - split; [reflexivity | intros k; now rewrite app_nil_r].
  - destruct (IH (appendScore g k0 v0)) as [Hk Hl]. split.
    + fold (JS.keys o). rewrite Hk, keys_appendScore. reflexivity.
    + intros k. rewrite Hl, lookup_appendScore.
      destruct (String.eqb k0 k); cbn [map snd]; [now rewrite <- app_assoc | reflexivity].
Qed.

Lemma collect_entries (field : DailyEntry -> list (string * Z))
    (entries : list DailyEntry) (g : list (string * list Z)) :
  let result :=
    fold_left (fun scores entry =>
                 fold_left (fun scores kv => appendScore scores (fst kv) (snd kv))
                           (field entry) scores) entries g in
  map fst result
  = fold_left (fun s entry => fold_left JS.set_add (JS.keys (field entry)) s)
              entries (map fst g)
  /\ forall k, lookupScores result k = lookupScores g k ++ allScores field entries k.
Proof.
  revert g; induction entries as [|e entries IH]; intros g; cbn [fold_left].
  - split; [reflexivity | intros k; unfold allScores; cbn; now rewrite app_nil_r].
  - destruct (collect_entry (field e) g) as [Hk Hl].
    destruct (IH (fold_left (fun g kv => appendScore g (fst kv) (snd kv)) (field e) g))
      as [Hk' Hl'].
    cbv zeta in *. split.
    + now rewrite Hk', Hk.
    + intros k. rewrite Hl', Hl. unfold allScores. cbn [flat_map].
      now rewrite filter_app, map_app, app_assoc.
Qed.

(** When nothing throws, the accumulator has the labels in first-seen
    order, each with all the scores recorded under it. *)
Lemma collected_keys (field : DailyEntry -> list (string * Z))
    (entries : list DailyEntry) :
  map fst (collected field entries) = allKeys entries field.
Proof. apply (collect_entries field entries []). Qed.

Lemma collected_lookup (field : DailyEntry -> list (string * Z))
    (entries : list DailyEntry) (k : string) :
  lookupScores (collected field entries) k = allScores field entries k.
Proof. apply (collect_entries field entries []). Qed.

(** The pushes of one record throw as soon as a label names an inherited
    member, and an exception is not caught. *)
Lemma push_entry (o : list (string * Z)) (g : option (list (string * list Z))) :
  fold_left (fun scores kv =>
               match scores with
               | Some s => pushScore s (fst kv) (snd kv)
               | None => None
               end) o g
  = match g with
    | None => None
    | Some s =>
        if existsb JS.isProtoMember (JS.keys o) then None
        else Some (fold_left (fun scores kv => appendScore scores (fst kv) (snd kv)) o s)
    end.
Proof.
  revert g; induction o as [|[k v] o IH]; intros g; cbn [fold_left JS.keys map existsb fst snd].
  - now destruct g.
  - rewrite IH. destruct g as [s|]; [|reflexivity].
    unfold pushScore. fold (JS.keys o).
    destruct (JS.isProtoMember k); reflexivity.
Qed.

Lemma push_entries (field : DailyEntry -> list (string * Z))
    (entries : list DailyEntry) (g : option (list (string * list Z))) :
  fold_left
    (fun scores entry =>
       fold_left (fun scores kv =>
                    match scores with
                    | Some s => pushScore s (fst kv) (snd kv)
                    | None => None
                    end)
                 (field entry) scores)
    entries g
  = match g with
    | None => None
    | Some s =>
        if existsb (fun e => existsb JS.isProtoMember (JS.keys (field e))) entries
        then None
        else Some (fold_left
                     (fun scores entry =>
                        fold_left (fun scores kv => appendScore scores (fst kv) (snd kv))
                                  (field entry) scores)
                     entries s)
    end.
Proof.
  revert g; induction entries as [|e entries IH]; intros g; cbn [fold_left existsb].
  - now destruct g.
  - rewrite IH, push_entry. destruct g as [s|]; [|reflexivity].
    destruct (existsb JS.isProtoMember (JS.keys (field e))); reflexivity.
Qed.

Lemma inherited_label_iff (field : DailyEntry -> list (string * Z))
    (entries : list DailyEntry) :
  existsb (fun e => existsb JS.isProtoMember (JS.keys (field e))) entries = true
  <-> exists label, In label (allKeys entries field) /\ In label JS.protoMembers.
Proof.
  rewrite existsb_exists. split.
  - intros (e & He & Hk). apply existsb_exists in Hk as (k & Hk & Hp).
    exists k. split; [apply in_allKeys; now exists e | now apply isProtoMember_iff].
  - intros (k & Hk & Hp). apply in_allKeys in Hk as (e & He & Hk).
    exists e. split; [exact He|]. apply existsb_exists. exists k.
    split; [exact Hk | now apply isProtoMember_iff].
Qed.

(** The computation throws exactly when some label names an inherited
    member. *)
Lemma collectScores_spec (field : DailyEntry -> list (string * Z))
    (entries : list DailyEntry) :
  collectScores field entries
  = if existsb (fun e => existsb JS.isProtoMember (JS.keys (field e))) entries
    then None
    else Some (collected field entries).
Proof. unfold collectScores. now rewrite push_entries. Qed.

Lemma lookup_member (g : list (string * list Z)) (k : string) (l : list Z) :
  NoDup (map fst g) -> In (k, l) g -> lookupScores g k = l.
Proof.
  induction g as [|[k0 l0] g IH]; intros Hnd Hin; [destruct Hin|].
  cbn [lookupScores]. cbn [map fst] in Hnd. inversion Hnd as [|? ? Hnot Hrest]; subst.
  destruct Hin as [Heq|Hin].
  - injection Heq as -> ->. now rewrite String.eqb_refl.
  - destruct (String.eqb_spec k0 k) as [->|_]; [|now apply IH].
    exfalso. apply Hnot. apply in_map_iff. now exists (k, l).
Qed.

Lemma dominant_items (field : DailyEntry -> list (string * Z))
    (entries : list DailyEntry) :
  map (fun ks => (fst ks, average (snd ks))) (collected field entries)
  = map (fun k => (k, average (allScores field entries k))) (allKeys entries field).
Proof.
  rewrite <- collected_keys, map_map. apply map_ext_in.
  intros [k l] Hin. cbn [fst snd]. do 2 f_equal.
  rewrite <- collected_lookup. symmetry. apply lookup_member; [|exact Hin].
  rewrite collected_keys. apply allKeys_NoDup.
Qed.

Lemma insertIndexed_perm {V} (x : N * (string * V)) (l : list (N * (string * V))) :
  Permutation (JS.insertIndexed x l) (x :: l).
Proof.
  induction l as [|y l IH]; cbn [JS.insertIndexed]; [reflexivity|].
  destruct (fst x <? fst y)%N; [reflexivity|].
  rewrite IH. apply perm_swap.
Qed.

(** [Object.entries] lists every own property once. *)
Lemma entries_perm {V} (o : list (string * V)) : Permutation (JS.entries o) o.
Proof.
  unfold JS.entries.
  set (F := fun kv : string * V => match JS.arrayIndex (fst kv) with
                                   | Some n => [(n, kv)]
                                   | None => []
                                   end).
  assert (Hsort : forall l : list (N * (string * V)),
             Permutation (fold_right JS.insertIndexed [] l) l).
  { induction l as [|x l IH]; cbn [fold_right]; [reflexivity|].
    rewrite insertIndexed_perm. now constructor. }
  rewrite (Permutation_map snd (Hsort (flat_map F o))).
  induction o as [|kv o IH]; cbn [flat_map filter map app]; [reflexivity|].
  unfold F at 1. destruct (JS.arrayIndex (fst kv)); cbn [map app snd].
  - now constructor.
  - rewrite <- Permutation_middle. now constructor.
Qed.

Lemma insertByAvg_perm (x : string * float) (l : list (string * float)) :
  Permutation (insertByAvg x l) (x :: l).
Proof.
  induction l as [|y l IH]; cbn [insertByAvg]; [reflexivity|].
  destruct (snd x <? snd y)%float; [|reflexivity].
  rewrite IH. apply perm_swap.
Qed.

Lemma sortByAvgDesc_perm (l : list (string * float)) : Permutation (sortByAvgDesc l) l.
Proof.
  induction l as [|x l IH]; cbn [sortByAvgDesc fold_right]; [reflexivity|].
  fold (sortByAvgDesc l). rewrite insertByAvg_perm. now constructor.
Qed.

(** The comparison of doubles that are not [NaN] follows their rank. *)
Lemma SFltb_rank (x y : spec_float) :
  x <> S754_nan -> y <> S754_nan ->
  (SFltb x y = true <-> lexlt (rank x) (rank y)).
Proof.
  intros Hx Hy. unfold SFltb, SFcompare, lexlt.
  destruct x as [sx|sx| |sx mx ex]; try congruence;
    destruct y as [sy|sy| |sy my ey]; try congruence;
    try destruct sx; try destruct sy; cbn [rank fst snd];
    try (split; intros H; [try discriminate; lia | try reflexivity; lia]).
  - change (Pos.compare_cont Eq mx my) with (Pos.compare mx my).
    destruct (Z.compare_spec ex ey); destruct (Pos.compare_spec mx my); cbn [CompOpp];
      split; intros H'; try discriminate; try reflexivity; lia.
  - change (Pos.compare_cont Eq mx my) with (Pos.compare mx my).
    destruct (Z.compare_spec ex ey); destruct (Pos.compare_spec mx my); cbn [CompOpp];
      split; intros H'; try discriminate; try reflexivity; lia.
Qed.

Lemma is_nan_false (f : float) : is_nan f = false -> Prim2SF f <> S754_nan.
Proof.
  unfold is_nan. rewrite FloatAxioms.eqb_spec. intros H E. rewrite E in H. discriminate.
Qed.

Lemma ltb_rank (x y : float) :
  is_nan x = false -> is_nan y = false ->
  ((x <? y)%float = true <-> lexlt (rank (Prim2SF x)) (rank (Prim2SF y))).
Proof.
  intros Hx Hy. rewrite ltb_spec. apply SFltb_rank; now apply is_nan_false.
Qed.

Lemma ltb_asym (x y : float) :
  is_nan x = false -> is_nan y = false ->
  (x <? y)%float = true -> (y <? x)%float = false.
Proof.
  intros Hx Hy H. apply (ltb_rank x y Hx Hy) in H.
  destruct (y <? x)%float eqn:E; [|reflexivity].
  apply (ltb_rank y x Hy Hx) in E. unfold lexlt in *. lia.
Qed.

Lemma ltb_negtrans (x y z : float) :
  is_nan x = false -> is_nan y = false -> is_nan z = false ->
  (x <? y)%float = false -> (y <? z)%float = false -> (x <? z)%float = false.
Proof.
  intros Hx Hy Hz H1 H2.
  destruct (x <? z)%float eqn:E; [|reflexivity].
  apply (ltb_rank x z Hx Hz) in E.
  assert (N1 : ~ lexlt (rank (Prim2SF x)) (rank (Prim2SF y)))
    by (rewrite <- (ltb_rank x y Hx Hy); congruence).
  assert (N2 : ~ lexlt (rank (Prim2SF y)) (rank (Prim2SF z)))
    by (rewrite <- (ltb_rank y z Hy Hz); congruence).
  unfold lexlt in *. lia.
Qed.

Lemma insertByAvg_sorted (x : string * float) (l : list (string * float)) :
  is_nan (snd x) = false -> Forall (fun y => is_nan (snd y) = false) l ->
  StronglySorted notBelow l -> StronglySorted notBelow (insertByAvg x l).
Proof.
  intros Hx. induction l as [|y l IH]; intros Hnan Hs; cbn [insertByAvg].
  - repeat constructor.
  - apply StronglySorted_inv in Hs as [Hl Hy].
    inversion Hnan as [|? ? Hyn Hln]; subst.
    destruct (snd x <? snd y)%float eqn:E.
    + constructor; [now apply IH|].
      rewrite Forall_forall in *. intros z Hz.
      apply (Permutation_in _ (insertByAvg_perm x l)) in Hz as [<-|Hz];
        [now apply ltb_asym | now apply Hy].
    + constructor; [now constructor|].
      constructor; [exact E|].
      rewrite Forall_forall in *. intros z Hz. unfold notBelow in *.
      apply ltb_negtrans with (snd y); auto.
Qed.

Lemma sortByAvgDesc_sorted (l : list (string * float)) :
  Forall (fun y => is_nan (snd y) = false) l ->
  StronglySorted notBelow (sortByAvgDesc l).
Proof.
  induction 1 as [|x l Hx Hl IH]; cbn [sortByAvgDesc fold_right]; [constructor|].
  apply insertByAvg_sorted; [exact Hx | | exact IH].
  rewrite Forall_forall in *. intros y Hy. apply Hl.
  now apply (Permutation_in _ (sortByAvgDesc_perm l)).
Qed.

Lemma sorted_app {X} (R : X -> X -> Prop) (l1 l2 : list X) :
  StronglySorted R (l1 ++ l2) ->
  StronglySorted R l1 /\ forall a b, In a l1 -> In b l2 -> R a b.
Proof.
  induction l1 as [|x l1 IH]; cbn [app]; intros H.
  - split; [constructor | intros a b []].
  - apply StronglySorted_inv in H as [Hs Hx]. destruct (IH Hs) as [Hs1 Hcross].
    rewrite Forall_forall in Hx. split.
    + constructor; [exact Hs1|]. apply Forall_forall. intros z Hz.
      apply Hx, in_or_app. now left.
    + intros a b [<-|Ha] Hb; [apply Hx, in_or_app; now right | now apply Hcross].
Qed.

Lemma sorted_labels (avg : string -> float) (l : list (string * float)) :
  StronglySorted notBelow l -> Forall (fun x => snd x = avg (fst x)) l ->
  StronglySorted (fun a b => (avg a <? avg b)%float = false) (map fst l).
Proof.
  induction 1 as [|x l Hs IH Hx]; intros Hall; cbn [map]; [constructor|].
  inversion Hall as [|? ? Hx0 Hrest]; subst.
  constructor; [now apply IH|].
  apply Forall_map. rewrite Forall_forall in *. intros y Hy.
  specialize (Hx y Hy). unfold notBelow in Hx.
  now rewrite <- Hx0, <- (Hrest y Hy).
Qed.

Variable field : DailyEntry -> list (string * Z).
Variable entries : list DailyEntry.

Let avg (k : string) : float := average (allScores field entries k).
Let items := map (fun k => (k, avg k)) (allKeys entries field).
Let listed :=
  map (fun ks => (fst ks, average (snd ks))) (JS.entries (collected field entries)).

Lemma dominantLabels_none :
  dominantLabels field entries = None
  <-> exists label, In label (allKeys entries field) /\ In label JS.protoMembers.
Proof.
  unfold dominantLabels. rewrite collectScores_spec, <- inherited_label_iff.
  destruct (existsb _ entries); split; intros H; try discriminate; reflexivity.
Qed.

Lemma dominantLabels_some (result : list string) :
  dominantLabels field entries = Some result ->
  result = map fst (firstn 3 (sortByAvgDesc listed)).
Proof.
  unfold dominantLabels. rewrite collectScores_spec.
  destruct (existsb _ entries); [discriminate|].
  cbv zeta. rewrite slice_prefix by lia. intros [= <-]. reflexivity.
Qed.

Lemma listed_items : Permutation listed items.
Proof.
  unfold listed, items, avg.
  rewrite <- dominant_items. apply Permutation_map, entries_perm.
Qed.

Lemma listed_perm : Permutation (sortByAvgDesc listed) items.
Proof. rewrite sortByAvgDesc_perm. apply listed_items. Qed.

Lemma sorted_items_shape :
  Forall (fun x => snd x = avg (fst x) /\ In (fst x) (allKeys entries field))
         (sortByAvgDesc listed).
Proof.
  apply Forall_forall. intros x Hx.
  apply (Permutation_in _ listed_perm) in Hx.
  unfold items in Hx. apply in_map_iff in Hx as (k & <- & Hk). now split.
Qed.

Lemma dominantLabels_top (result : list string) :
  dominantLabels field entries = Some result ->
  List.length result = Nat.min 3 (List.length (allKeys entries field))
  /\ NoDup result
  /\ incl result (allKeys entries field)
  /\ ((forall k, In k (allKeys entries field) -> is_nan (avg k) = false) ->
      StronglySorted (fun a b => (avg a <? avg b)%float = false) result
      /\ (forall a b, In a result -> In b (allKeys entries field) -> ~ In b result ->
                      (avg a <? avg b)%float = false)).
Proof.
  intros Hresult. apply dominantLabels_some in Hresult. subst result.
  pose proof listed_perm as Hperm.
  pose proof sorted_items_shape as Hshape.
  assert (Hkeys : Permutation (map fst (sortByAvgDesc listed)) (allKeys entries field)).
  { rewrite Hperm. unfold items. rewrite map_map. cbn [fst]. now rewrite map_id. }
  split; [|split; [|split]].
  - rewrite length_map, length_firstn, (Permutation_length Hperm).
    unfold items. now rewrite length_map.
  - rewrite <- firstn_map. apply NoDup_firstn.
    apply (Permutation_NoDup (Permutation_sym Hkeys)), allKeys_NoDup.
  - intros a Ha. rewrite <- firstn_map in Ha. apply in_firstn in Ha.
    now apply (Permutation_in _ Hkeys).
  - intros Hnan.
    assert (Hsorted : StronglySorted notBelow (sortByAvgDesc listed)).
    { apply sortByAvgDesc_sorted, Forall_forall. intros x Hx.
      apply (Permutation_in _ listed_items) in Hx.
      unfold items in Hx. apply in_map_iff in Hx as (k & <- & Hk). now apply Hnan. }
    rewrite <- (firstn_skipn 3 (sortByAvgDesc listed)) in Hsorted.
    apply sorted_app in Hsorted as [Hfirst Hcross]. split.
    + apply sorted_labels; [exact Hfirst|].
      rewrite Forall_forall in *. intros x Hx. apply Hshape. now apply in_firstn in Hx.
    + intros a b Ha Hb Hnot.
      apply in_map_iff in Ha as ([a' qa] & Heq & Ha). cbn [fst] in Heq. subst a'.
      assert (Hbs : In (b, avg b) (sortByAvgDesc listed)).
      { apply (Permutation_in _ (Permutation_sym Hperm)). unfold items.
        apply in_map_iff. now exists b. }
      rewrite <- (firstn_skipn 3 (sortByAvgDesc listed)) in Hbs.
      apply in_app_or in Hbs as [Hbs|Hbs].
      * exfalso. apply Hnot. apply in_map_iff. now exists (b, avg b).
      * specialize (Hcross _ _ Ha Hbs). unfold notBelow in Hcross. cbn [snd] in Hcross.
        rewrite Forall_forall in Hshape.
        destruct (Hshape (a, qa)) as [Hq _]; [now apply in_firstn in Ha|].
        cbn [fst snd] in Hq. now rewrite <- Hq.
Qed.

End Dominant.

(** X14. The dominant categories cannot be computed when a category
    label names a member inherited from [Object.prototype]: the code
    throws a [TypeError] exactly then.  Otherwise they are at most three
    distinct category labels, all of them when fewer than three exist.
    The average of a label is the sum of all the scores recorded under
    it, added up in doubles, divided by their number; as long as no
    average is NaN the labels are listed by descending average, and no
    label left out has a higher average than a label returned. *)
Theorem dominant_categories_top_three (entries : list DailyEntry) :
  (getDominantCategories entries = None
   <-> exists label, In label (allKeys entries categories)
                     /\ In label JS.protoMembers)
  /\ (forall result, getDominantCategories entries = Some result ->
        let avg := fun k => average (allScores categories entries k) in
        List.length result = Nat.min 3 (List.length (allKeys entries categories))
        /\ NoDup result
        /\ incl result (allKeys entries categories)
        /\ ((forall k, In k (allKeys entries categories) -> is_nan (avg k) = false) ->
            StronglySorted (fun a b => (avg a <? avg b)%float = false) result
            /\ (forall a b, In a result -> In b (allKeys entries categories) ->
                            ~ In b result -> (avg a <? avg b)%float = false))).
Proof.
  split; [apply (dominantLabels_none categories entries)|].
  intros result. apply (dominantLabels_top categories entries).
Qed.

Lemma dominant_categories_top_three_witness :
  getDominantCategories (scoredEntries ++ [constructorEntry]) = None
  /\ (average (allScores categories scoredEntries "health")
      <? average (allScores categories scoredEntries "work"))%float = false.
Proof.
  split.
  - apply (proj1 (dominant_categories_top_three (scoredEntries ++ [constructorEntry]))).
    exists "constructor"%string. split; vm_compute; tauto.
  - destruct (proj2 (dominant_categories_top_three scoredEntries)
                    ["health"; "family"; "money"]%string
                    ltac:(vm_compute; reflexivity))
      as (_ & _ & _ & Hsorted).
    apply Hsorted.
    + intros k Hk. vm_compute in Hk.
      repeat destruct Hk as [Hk|Hk]; try (subst k; vm_compute; reflexivity).
      destruct Hk.
    + vm_compute. left. reflexivity.
    + vm_compute. left. reflexivity.
    + vm_compute. intros H. repeat destruct H as [H|H]; try discriminate. exact H.
Defined.

(** X15. The dominant thoughts are chosen the same way over the thought
    scores: a [TypeError] exactly when a thought label names an inherited
    member; otherwise at most three distinct thought labels, by
    descending average as long as no average is NaN, none left out
    having a higher average than one returned. *)
Theorem dominant_thoughts_top_three (entries : list DailyEntry) :
  (getDominantThoughts entries = None
   <-> exists label, In label (allKeys entries thoughts)
                     /\ In label JS.protoMembers)
  /\ (forall result, getDominantThoughts entries = Some result ->
        let avg := fun k => average (allScores thoughts entries k) in
        List.length result = Nat.min 3 (List.length (allKeys entries thoughts))
        /\ NoDup result
        /\ incl result (allKeys entries thoughts)
        /\ ((forall k, In k (allKeys entries thoughts) -> is_nan (avg k) = false) ->
            StronglySorted (fun a b => (avg a <? avg b)%float = false) result
            /\ (forall a b, In a result -> In b (allKeys entries thoughts) ->
                            ~ In b result -> (avg a <? avg b)%float = false))).
Proof.
  split; [apply (dominantLabels_none thoughts entries)|].
  intros result. apply (dominantLabels_top thoughts entries).
Qed.

Lemma dominant_thoughts_top_three_witness :
  getDominantThoughts (scoredEntries ++ [constructorEntry]) = None
  /\ (average (allScores thoughts scoredEntries "focus")
      <? average (allScores thoughts scoredEntries "doubt"))%float = false.
Proof.
  split.
  - apply (proj1 (dominant_thoughts_top_three (scoredEntries ++ [constructorEntry]))).
    exists "toString"%string. split; vm_compute; tauto.
  - destruct (proj2 (dominant_thoughts_top_three scoredEntries)
                    ["focus"; "hope"; "calm"]%string
                    ltac:(vm_compute; reflexivity))
      as (_ & _ & _ & Hsorted).
    apply Hsorted.
    + intros k Hk. vm_compute in Hk.
      repeat destruct Hk as [Hk|Hk]; try (subst k; vm_compute; reflexivity).
      destruct Hk.
    + vm_compute. left. reflexivity.
    + vm_compute. left. reflexivity.
    + vm_compute. intros H. repeat destruct H as [H|H]; try discriminate. exact H.
Defined.

(** ** The coach's journal themes *)

Section JournalThemes.

Lemma set_add_all_NoDup (l s : list string) :
  NoDup s -> NoDup (fold_left JS.set_add l s).
Proof.
  revert s; induction l as [|x l IH]; intros s Hs; cbn [fold_left]; [exact Hs|].
  apply IH. unfold JS.set_add.
  destruct (existsb (String.eqb x) s) eqn:E; [exact Hs|].
  apply NoDup_app; [exact Hs | repeat constructor; intros [] |].
  intros y Hy [Hxy|[]]. subst y.
  assert (existsb (String.eqb x) s = true)
    by (apply existsb_exists; exists x; split; [exact Hy | apply String.eqb_refl]).
  congruence.
Qed.

Lemma in_set_of (l : list string) (x : string) : In x (JS.set_of l) <-> In x l.
Proof. unfold JS.set_of. rewrite in_set_add_all. cbn [In]. tauto. Qed.

Lemma isKeyword_iff (w : string) : isKeyword w = true <-> In w journalKeywords.
Proof.
  unfold isKeyword. rewrite existsb_exists. split.
  - intros (k & Hk & Heq). apply String.eqb_eq in Heq. now subst.
  - intros H. exists w. split; [exact H | apply String.eqb_refl].
Qed.

Lemma lowerChar_idempotent (c : ascii) : lowerChar (lowerChar c) = lowerChar c.
Proof. destruct c as [[] [] [] [] [] [] [] []]; reflexivity. Qed.

(** A small letter for a capital is one code unit for one code unit. *)
Lemma units_lowerChar (c : ascii) : JS.units (lowerChar c) = JS.units c.
Proof. destruct c as [[] [] [] [] [] [] [] []]; reflexivity. Qed.

Lemma strlen_lowerAscii (s : string) : JS.strlen (lowerAscii s) = JS.strlen s.
Proof.
  induction s as [|c s IH]; [reflexivity|].
  cbn [lowerAscii JS.strlen]. now rewrite units_lowerChar, IH.
Qed.

(** The bytes of the two special characters are no letters. *)
Lemma isByte_lowerChar (c : ascii) (n : nat) :
  In n [196; 176; 226; 132; 170]%nat -> isByte (lowerChar c) n = isByte c n.
Proof.
  cbn [In]. intros H.
  repeat destruct H as [H|H];
    try (subst n; destruct c as [[] [] [] [] [] [] [] []]; reflexivity).
  destruct H.
Qed.

Lemma toLowerCase_one (c : ascii) :
  toLowerCase (String c EmptyString) = String (lowerChar c) EmptyString.
Proof. reflexivity. Qed.

Lemma toLowerCase_two (c d : ascii) :
  toLowerCase (String c (String d EmptyString))
  = if isByte c 196 && isByte d 176
    then String "i" (String (ascii_of_nat 204) (String (ascii_of_nat 135) EmptyString))
    else String (lowerChar c) (toLowerCase (String d EmptyString)).
Proof. reflexivity. Qed.

Lemma toLowerCase_three (c d e : ascii) (rest : string) :
  toLowerCase (String c (String d (String e rest)))
  = if isByte c 196 && isByte d 176
    then String "i" (String (ascii_of_nat 204)
                            (String (ascii_of_nat 135) (toLowerCase (String e rest))))
    else if isByte c 226 && isByte d 132 && isByte e 170
         then String "k" (toLowerCase rest)
         else String (lowerChar c) (toLowerCase (String d (String e rest))).
Proof. reflexivity. Qed.

(** Lower-casing does not see whether the letters A to Z were capitals. *)
Lemma toLowerCase_lowerAscii (s : string) :
  toLowerCase (lowerAscii s) = toLowerCase s.
Proof.
  assert (H : forall n s, (String.length s < n)%nat ->
                          toLowerCase (lowerAscii s) = toLowerCase s).
  { clear s. induction n as [|n IH]; intros s Hlen; [lia|].
    destruct s as [|c [|d [|e rest]]].
    - reflexivity.
    - cbn [lowerAscii]. rewrite !toLowerCase_one. now rewrite lowerChar_idempotent.
    - cbn [lowerAscii]. rewrite !toLowerCase_two, !toLowerCase_one.
      rewrite !isByte_lowerChar by (cbn; tauto).
      now rewrite !lowerChar_idempotent.
    - cbn [lowerAscii]. rewrite !toLowerCase_three.
      rewrite !isByte_lowerChar by (cbn; tauto).
      cbn [String.length] in Hlen.
      destruct (isByte c 196 && isByte d 176).
      + do 3 f_equal. apply (IH (String e rest)). cbn [String.length]. lia.
      + destruct (isByte c 226 && isByte d 132 && isByte e 170).
        * f_equal. apply IH. lia.
        * rewrite lowerChar_idempotent. f_equal.
          apply (IH (String d (String e rest))). cbn [String.length]. lia. }
  apply (H (S (String.length s))). lia.
Qed.

Lemma entryThemes_lower (e : DailyEntry) : entryThemes (lowerJournal e) = entryThemes e.
Proof.
  unfold entryThemes, lowerJournal. cbn [journalEntry].
  now rewrite strlen_lowerAscii, toLowerCase_lowerAscii.
Qed.

Lemma entryThemes_keywords (e : DailyEntry) (t : string) :
  In t (entryThemes e) ->
  In t journalKeywords
  /\ (20 < JS.strlen (journalEntry e))%nat
  /\ In t (split (toLowerCase (journalEntry e))).
Proof.
  unfold entryThemes.
  destruct (Z.ltb_spec 20 (Z.of_nat (JS.strlen (journalEntry e)))) as [Hlen|Hlen];
    [|intros []].
  intros H. apply filter_In in H as [Hin Hk]. apply isKeyword_iff in Hk.
  repeat split; trivial. lia.
Qed.

(** A joined list that starts with a keyword is neither empty nor the
    fallback text. *)
Lemma join_keywords (k : string) (rest : list string) :
  In k journalKeywords ->
  JS.or_default (Some (JS.join ", " (k :: rest))) noThemes = JS.join ", " (k :: rest)
  /\ JS.join ", " (k :: rest) <> noThemes
  /\ JS.join ", " (k :: rest) <> EmptyString.
Proof.
  unfold journalKeywords. cbn [In]. intros H.
  repeat destruct H as [H|H];
    try (subst k; destruct rest; cbn; repeat split; discriminate).
  destruct H.
Qed.

Variable entries : list DailyEntry.

Lemma journalThemes_firstn :
  journalThemes entries = firstn 5 (JS.set_of (flat_map entryThemes entries)).
Proof.
  unfold journalThemes. now rewrite slice_prefix, pushEach_flat_map by lia.
Qed.

Lemma journalThemes_member (t : string) :
  In t (journalThemes entries) ->
  In t journalKeywords
  /\ exists e, In e entries
               /\ (20 < JS.strlen (journalEntry e))%nat
               /\ In t (split (toLowerCase (journalEntry e))).
Proof.
  rewrite journalThemes_firstn. intros H.
  apply in_firstn, in_set_of, in_flat_map in H as (e & He & Ht).
  apply entryThemes_keywords in Ht as (Hk & Hlen & Hw).
  split; [exact Hk|]. now exists e.
Qed.

End JournalThemes.

(** X16. The journal themes are at most five distinct keywords, each
    found as a whole space-separated word of the lower-cased text of a
    journal entry of more than 20 UTF-16 code units.  The result is their
    list joined by commas, or the fallback text exactly when there is
    none; it is never empty, entries of 20 code units or fewer contribute
    nothing, and turning the capital letters A to Z of the journals into
    small letters changes nothing. *)
Theorem journal_themes_keywords (entries : list DailyEntry) :
  let themes := journalThemes entries in
  (forall t, In t themes ->
             In t journalKeywords
             /\ exists e, In e entries
                          /\ (20 < JS.strlen (journalEntry e))%nat
                          /\ In t (split (toLowerCase (journalEntry e))))
  /\ NoDup themes
  /\ JS.len themes <= 5
  /\ (extractJournalThemes entries = noThemes <-> themes = [])
  /\ (themes <> [] -> extractJournalThemes entries = JS.join ", " themes)
  /\ extractJournalThemes entries <> EmptyString
  /\ ((forall e, In e entries -> (JS.strlen (journalEntry e) <= 20)%nat) ->
      extractJournalThemes entries = noThemes)
  /\ extractJournalThemes (map lowerJournal entries) = extractJournalThemes entries.
Proof.
  intros themes.
  assert (Hdef : journalThemes entries = themes) by reflexivity.
  assert (Hfirst : themes = firstn 5 (JS.set_of (flat_map entryThemes entries)))
    by (rewrite <- Hdef; apply journalThemes_firstn).
  assert (Hmember := journalThemes_member entries). rewrite Hdef in Hmember.
  assert (Hresult : extractJournalThemes entries
                    = JS.or_default (Some (JS.join ", " themes)) noThemes)
    by (unfold extractJournalThemes; now rewrite Hdef).
  clearbody themes.
  assert (Hjoin : themes <> [] ->
                  extractJournalThemes entries = JS.join ", " themes
                  /\ JS.join ", " themes <> noThemes
                  /\ JS.join ", " themes <> EmptyString).
  { intros Hne. rewrite Hresult.
    destruct themes as [|k rest]; [congruence|].
    apply join_keywords. apply Hmember. now left. }
  split; [exact Hmember|]. split; [|split; [|split; [|split; [|split; [|split]]]]].
  - rewrite Hfirst. apply NoDup_firstn.
    unfold JS.set_of. apply set_add_all_NoDup. constructor.
  - rewrite Hfirst. unfold JS.len.
    pose proof (firstn_le_length 5 (JS.set_of (flat_map entryThemes entries))). lia.
  - split.
    + intros H. destruct themes as [|k rest]; [reflexivity|].
      assert (Hne : k :: rest <> []) by discriminate.
      destruct (Hjoin Hne) as (H1 & H2 & _). congruence.
    + intros H. rewrite Hresult, H. reflexivity.
  - intros Hne. now apply Hjoin.
  - destruct themes as [|k rest].
    + rewrite Hresult. discriminate.
    + assert (Hne : k :: rest <> []) by discriminate.
      destruct (Hjoin Hne) as (H1 & _ & H3). now rewrite H1.
  - intros Hshort. rewrite Hresult.
    destruct themes as [|k rest]; [reflexivity|].
    destruct (Hmember k (or_introl eq_refl)) as (_ & e & He & Hlen & _).
    specialize (Hshort e He). lia.
  - unfold extractJournalThemes. rewrite !journalThemes_firstn.
    rewrite flat_map_concat_map, map_map.
    rewrite (map_ext _ entryThemes entryThemes_lower), <- flat_map_concat_map.
    reflexivity.
Qed.

Lemma journal_themes_keywords_witness :
  extractJournalThemes scoredEntries = JS.join ", " (journalThemes scoredEntries).
Proof.
  destruct (journal_themes_keywords scoredEntries) as (_ & _ & _ & _ & Hjoin & _).
  apply Hjoin. discriminate.
Defined.

(** ** Insight generator *)

Section Insights.

(** A printed count starts with a digit. *)
Lemma show_first (n : nat) :
  exists d rest, JS.show n = String d rest /\ d <> "Y"%char /\ d <> "D"%char.
Proof.
  unfold JS.show. destruct (Nat.to_uint n); cbn;
    eexists; eexists; (split; [reflexivity|]); split; discriminate.
Qed.

(** [a / n >= k] for a positive count [n] *)
Lemma ge_div_pos (s n k : Z) :
  0 < n -> (JS.ge (JS.div (inject_Z s) (inject_Z n)) (inject_Z k) = true <-> k * n <= s).
Proof.
  intros Hn.
  assert (Hq : (0 < inject_Z n)%Q)
    by (change 0%Q with (inject_Z 0); now rewrite <- Zlt_Qlt).
  unfold JS.div. destruct (Qeq_bool (inject_Z n) 0) eqn:E.
  { apply Qeq_bool_eq in E. lra. }
  cbn [JS.ge]. rewrite Qle_bool_iff. split.
  - intros H. apply (Qmult_le_compat_r _ _ (inject_Z n)) in H; [|lra].
    assert (Hd : (inject_Z s / inject_Z n * inject_Z n == inject_Z s)%Q) by (field; lra).
    rewrite Hd, <- inject_Z_mult, <- Zle_Qle in H. exact H.
  - intros H. apply Qle_shift_div_l; [exact Hq|].
    now rewrite <- inject_Z_mult, <- Zle_Qle.
Qed.

Lemma fold_left_sum_map {X} (f : X -> Z) (l : list X) (a : Z) :
  fold_left (fun sum x => sum + f x) l a = fold_left Z.add (map f l) a.
Proof. symmetry. apply fold_left_over_map. Qed.

End Insights.

(** X17. The insight generator returns at most four insights.  The
    consistency insight is present exactly from 7 records on, the cycle
    insight exactly when a cycle was passed in, the improving-areas
    insight exactly when some trend is improving, and, from 3 records on,
    the elevated-awareness insight exactly when the mood values of the
    last three records sum to at least 9. *)
Theorem insights_present_iff
    (entries : list DailyEntry) (cycles : list EmotionalCycle)
    (trends : list CategoryTrend) :
  let result := generateInsights entries cycles trends in
  let improvingCount :=
    List.length (filter (fun t => match trend t with improving => true | _ => false end)
                        trends) in
  let recentMood :=
    JS.sum (map (fun e => moodValue (emotionTag e)) (JS.slice_from entries (-3))) in
  JS.len result <= 4
  /\ (In "You've established a consistent awareness tracking practice"%string result
      <-> 7 <= JS.len entries)
  /\ (In ("Detected " ++ JS.show (List.length cycles)
          ++ " recurring emotional patterns - you're developing pattern recognition")%string
         result
      <-> cycles <> [])
  /\ (In (JS.show improvingCount
          ++ " life areas are improving - your awareness is creating positive shifts")%string
         result
      <-> (0 < improvingCount)%nat)
  /\ (3 <= JS.len entries ->
      (In "Your recent emotional state shows elevated awareness - you're entering a higher frequency"%string
          result
       <-> 9 <= recentMood)).
Proof.
  intros result improvingCount recentMood.
  set (improving :=
         filter (fun t => match trend t with improving => true | _ => false end) trends)
    in *.
  set (c := "You've established a consistent awareness tracking practice"%string).
  set (d := ("Detected " ++ JS.show (List.length cycles)
             ++ " recurring emotional patterns - you're developing pattern recognition")%string).
  set (i := (JS.show improvingCount
             ++ " life areas are improving - your awareness is creating positive shifts")%string).
  set (e := "Your recent emotional state shows elevated awareness - you're entering a higher frequency"%string).
  set (elevated :=
         JS.ge (JS.div (inject_Z (fold_left (fun sum entry => sum + moodValue (emotionTag entry))
                                            (JS.slice_from entries (-3)) 0))
                       (inject_Z (JS.len (JS.slice_from entries (-3))))) 3).
  assert (Hshape :
            result = (if 7 <=? JS.len entries then [c] else [])
                     ++ (if 0 <? JS.len cycles then [d] else [])
                     ++ (if 0 <? JS.len improving then [i] else [])
                     ++ (if elevated then [e] else [])).
  { subst result. unfold generateInsights. cbv zeta.
    fold improving. fold improvingCount. fold c d e i elevated.
    destruct (7 <=? JS.len entries), (0 <? JS.len cycles),
      (0 <? JS.len improving), elevated; reflexivity. }
  assert (Hcount : JS.len improving = Z.of_nat improvingCount) by reflexivity.
  destruct (show_first (List.length cycles)) as (d1 & r1 & Hs1 & _ & _).
  destruct (show_first improvingCount) as (d2 & r2 & Hs2 & HY & HD).
  assert (Hcd : c <> d) by (unfold c, d; cbn; discriminate).
  assert (Hce : c <> e) by (unfold c, e; discriminate).
  assert (Hde : d <> e) by (unfold d, e; cbn; discriminate).
  assert (Hci : c <> i) by (unfold c, i; rewrite Hs2; cbn; congruence).
  assert (Hei : e <> i) by (unfold e, i; rewrite Hs2; cbn; congruence).
  assert (Hdi : d <> i) by (unfold d, i; rewrite Hs2; cbn; congruence).
  assert (Hmember : forall x,
             In x result <->
             (x = c /\ 7 <= JS.len entries) \/ (x = d /\ 0 < JS.len cycles)
             \/ (x = i /\ 0 < Z.of_nat improvingCount) \/ (x = e /\ elevated = true)).
  { intros x. rewrite Hshape, !in_app_iff.
    destruct (Z.leb_spec 7 (JS.len entries)), (Z.ltb_spec 0 (JS.len cycles)),
      (Z.ltb_spec 0 (JS.len improving)), elevated; cbn [In];
      intuition (try lia; try discriminate; auto). }
  split; [|split; [|split; [|split]]].
  - rewrite Hshape, !len_app.
    destruct (7 <=? JS.len entries), (0 <? JS.len cycles),
      (0 <? JS.len improving), elevated; cbn; lia.
  - rewrite Hmember. intuition congruence.
  - rewrite Hmember.
    assert (Hc0 : 0 < JS.len cycles <-> cycles <> []).
    { destruct cycles; [cbn; split; [lia | congruence]|].
      rewrite len_cons. pose proof (len_nonneg cycles). split; [discriminate | lia]. }
    rewrite <- Hc0. intuition congruence.
  - rewrite Hmember. split.
    + intros [[H _]|[[H _]|[[_ H]|[H _]]]]; try congruence. lia.
    + intros H. right. right. left. split; [reflexivity | lia].
  - intros Hn. rewrite Hmember.
    assert (Hlen : JS.len (JS.slice_from entries (-3)) = 3).
    { change (-3) with (- (3)). rewrite (slice_from_last entries 3) by lia.
      unfold JS.len in *. rewrite length_skipn. lia. }
    assert (He : elevated = true <-> 9 <= recentMood).
    { unfold elevated. rewrite Hlen, fold_left_sum_map.
      change 3%Q with (inject_Z 3).
      rewrite (ge_div_pos _ 3 3) by lia. unfold recentMood, JS.sum. lia. }
    rewrite <- He. intuition congruence.
Qed.

Lemma insights_present_iff_witness :
  In "Your recent emotional state shows elevated awareness - you're entering a higher frequency"%string
     (generateInsights (repeat richEntry 5) [] [])
  <-> 9 <= JS.sum (map (fun e => moodValue (emotionTag e))
                       (JS.slice_from (repeat richEntry 5) (-3))).
Proof.
  apply (insights_present_iff (repeat richEntry 5) [] []). vm_compute. discriminate.
Defined.
